(** * Telnet log streaming: a shallow embedding of components/telnet/telnet.c

    The C module redirects stdout/stderr into a FreeRTOS byte ring buffer,
    serves one telnet session at a time and drains the buffer to the peer.
    C integers are modelled as [Z] (with the 32-bit wrap-around of [size_t]
    written out), byte buffers as [list ascii], the module's static variables
    as a record, and calls into collaborators (libtelnet, the UART, the
    command interpreter, the socket layer) as events of a call trace. *)

From Stdlib Require Import ZArith Lia List Ascii String Bool.
From stdpp Require Import gmap strings list.

Local Open Scope Z_scope.

(** ** Bytes, characters and [size_t] *)

Definition bytes := list ascii.

Definition ESC : ascii := "027"%char.   (* '\e' *)
Definition CR  : ascii := "013"%char.   (* '\r' *)
Definition LF  : ascii := "010"%char.   (* '\n' *)
Definition NUL : ascii := "000"%char.   (* '\0' *)
Definition CHAR_n : ascii := "n"%char.  (* 'n'  *)

Definition str (s : string) : bytes := list_ascii_of_string s.

(** [size_t] and [UBaseType_t] are unsigned 32-bit on the target. *)
Definition SIZE_T_MOD : Z := 2 ^ 32.
Definition to_size_t (z : Z) : Z := z mod SIZE_T_MOD.

(** [--size] on a [size_t]. *)
Definition size_dec (size : Z) : Z := to_size_t (size - 1).

(** The text a C reader sees through a [char *]: the bytes before the first
    NUL. *)
Fixpoint c_str (buf : bytes) : bytes :=
  match buf with
  | [] => []
  | ch :: buf' => if Ascii.eqb ch NUL then [] else ch :: c_str buf'
  end.

(** ** The FreeRTOS byte ring buffer *)

(** Modelled from the spec: the ESP-IDF ring buffer ([freertos/ringbuf.h],
    type [RINGBUF_TYPE_BYTEBUF]) is not part of the source file.  The spec
    describes it as a fixed-capacity FIFO byte store whose [write] appends
    atomically or fails, and whose [drain] "removes and returns up to
    [maxBytes] contiguous bytes (oldest first)".  [rb_items] holds the stored
    bytes oldest first, [rb_read] is the read cursor inside the storage area,
    so that a contiguous chunk ends at the end of the storage area. *)
Record ringbuf := mkRingbuf {
  rb_capacity : nat;
  rb_read : nat;
  rb_items : bytes
}.

Definition rb_wf (rb : ringbuf) : Prop :=
  (rb_read rb < rb_capacity rb)%nat /\ (length (rb_items rb) <= rb_capacity rb)%nat.

(** [vRingbufferGetInfo(..., &uxItemsWaiting)]: bytes waiting in the buffer. *)
Definition uxItemsWaiting_of (rb : ringbuf) : Z := Z.of_nat (length (rb_items rb)).

(** [xRingbufferSend(buf, data, size, ticks)] seen by a single thread: the
    whole item is appended when it fits in the free space, otherwise the call
    times out and returns [pdFALSE] ([None]). *)
Definition xRingbufferSend (rb : ringbuf) (data : bytes) : option ringbuf :=
  if (length data <=? rb_capacity rb - length (rb_items rb))%nat
  then Some (mkRingbuf (rb_capacity rb) (rb_read rb) (rb_items rb ++ data))
  else None.

(** [xRingbufferReceiveUpTo(buf, &item_size, ticks, xMaxSize)] followed by
    [vRingbufferReturnItem]: the oldest bytes, at most [xMaxSize] of them and
    at most up to the end of the storage area; [NULL] ([None]) when nothing
    is waiting. *)
Definition xRingbufferReceiveUpTo (rb : ringbuf) (xMaxSize : Z)
  : option (bytes * ringbuf) :=
  let n := Nat.min (Z.to_nat xMaxSize)
             (Nat.min (length (rb_items rb)) (rb_capacity rb - rb_read rb)) in
  match n with
  | O => None
  | S _ => Some (take n (rb_items rb),
                 mkRingbuf (rb_capacity rb)
                           ((rb_read rb + n) mod rb_capacity rb)
                           (drop n (rb_items rb)))
  end.

(** ** Module state *)

(** What the process holds from the operating system and the heap. *)
Inductive resource :=
| ResTelnet            (* the libtelnet state behind [tnHandle] *)
| ResUserData          (* [struct telnetUserData] *)
| ResRxbuf             (* the receive scratch buffer *)
| ResSocket (fd : Z).  (* an open socket descriptor *)

Definition resource_eqb (a b : resource) : bool :=
  match a, b with
  | ResTelnet, ResTelnet => true
  | ResUserData, ResUserData => true
  | ResRxbuf, ResRxbuf => true
  | ResSocket x, ResSocket y => x =? y
  | _, _ => false
  end.

(** The file-scope variables of telnet.c, together with the resources the
    process currently holds. *)
Record globals := mkGlobals {
  uart_fd : Z;
  buf_handle : option ringbuf;     (* NULL or the ring buffer *)
  xSemaphore : option bool;        (* NULL, or a binary semaphore: available? *)
  send_chunk : Z;
  log_buf_size : Z;
  bIsEnabled : bool;
  partnerSocket : Z;
  tnHandle : bool;                 (* non-NULL? *)
  bMirrorToUART : bool;
  held : list resource
}.

(** The initialisers of the static variables. *)
Definition initial_globals : globals :=
  {| uart_fd := 0; buf_handle := None; xSemaphore := None;
     send_chunk := 300; log_buf_size := 2000; bIsEnabled := false;
     partnerSocket := 0; tnHandle := false; bMirrorToUART := false;
     held := [] |}.

Definition set_uart_fd (v : Z) (g : globals) : globals :=
  mkGlobals v (buf_handle g) (xSemaphore g) (send_chunk g) (log_buf_size g)
            (bIsEnabled g) (partnerSocket g) (tnHandle g) (bMirrorToUART g) (held g).
Definition set_buf_handle (v : option ringbuf) (g : globals) : globals :=
  mkGlobals (uart_fd g) v (xSemaphore g) (send_chunk g) (log_buf_size g)
            (bIsEnabled g) (partnerSocket g) (tnHandle g) (bMirrorToUART g) (held g).
Definition set_xSemaphore (v : option bool) (g : globals) : globals :=
  mkGlobals (uart_fd g) (buf_handle g) v (send_chunk g) (log_buf_size g)
            (bIsEnabled g) (partnerSocket g) (tnHandle g) (bMirrorToUART g) (held g).
Definition set_send_chunk (v : Z) (g : globals) : globals :=
  mkGlobals (uart_fd g) (buf_handle g) (xSemaphore g) v (log_buf_size g)
            (bIsEnabled g) (partnerSocket g) (tnHandle g) (bMirrorToUART g) (held g).
Definition set_log_buf_size (v : Z) (g : globals) : globals :=
  mkGlobals (uart_fd g) (buf_handle g) (xSemaphore g) (send_chunk g) v
            (bIsEnabled g) (partnerSocket g) (tnHandle g) (bMirrorToUART g) (held g).
Definition set_bIsEnabled (v : bool) (g : globals) : globals :=
  mkGlobals (uart_fd g) (buf_handle g) (xSemaphore g) (send_chunk g) (log_buf_size g)
            v (partnerSocket g) (tnHandle g) (bMirrorToUART g) (held g).
Definition set_partnerSocket (v : Z) (g : globals) : globals :=
  mkGlobals (uart_fd g) (buf_handle g) (xSemaphore g) (send_chunk g) (log_buf_size g)
            (bIsEnabled g) v (tnHandle g) (bMirrorToUART g) (held g).
Definition set_tnHandle (v : bool) (g : globals) : globals :=
  mkGlobals (uart_fd g) (buf_handle g) (xSemaphore g) (send_chunk g) (log_buf_size g)
            (bIsEnabled g) (partnerSocket g) v (bMirrorToUART g) (held g).
Definition set_bMirrorToUART (v : bool) (g : globals) : globals :=
  mkGlobals (uart_fd g) (buf_handle g) (xSemaphore g) (send_chunk g) (log_buf_size g)
            (bIsEnabled g) (partnerSocket g) (tnHandle g) v (held g).
Definition set_held (v : list resource) (g : globals) : globals :=
  mkGlobals (uart_fd g) (buf_handle g) (xSemaphore g) (send_chunk g) (log_buf_size g)
            (bIsEnabled g) (partnerSocket g) (tnHandle g) (bMirrorToUART g) v.

(** ** The option table *)

Inductive telopt :=
| TELNET_TELOPT_BINARY | TELNET_TELOPT_ECHO | TELNET_TELOPT_TTYPE
| TELNET_TELOPT_NAWS | TELNET_TELOPT_LINEMODE | TELNET_TELOPT_MSSP
| TELNET_TELOPT_COMPRESS2 | TELNET_TELOPT_ZMP.

Inductive telnet_cmd := TELNET_WILL | TELNET_WONT | TELNET_DO | TELNET_DONT.

(** [telnet_telopt_t]: the option, what we do about it ([us]) and what we
    answer when the peer offers it ([him]). *)
Record telnet_telopt_t := mkTelopt {
  telopt_of : telopt;
  us : telnet_cmd;
  him : telnet_cmd
}.

(** The table of [handle_telnet_conn]; the [{ -1, 0, 0 }] terminator is the
    end of the list. *)
Definition my_telopts : list telnet_telopt_t :=
  [ mkTelopt TELNET_TELOPT_ECHO      TELNET_WONT TELNET_DO;
    mkTelopt TELNET_TELOPT_TTYPE     TELNET_WILL TELNET_DONT;
    mkTelopt TELNET_TELOPT_COMPRESS2 TELNET_WONT TELNET_DO;
    mkTelopt TELNET_TELOPT_ZMP       TELNET_WONT TELNET_DO;
    mkTelopt TELNET_TELOPT_MSSP      TELNET_WONT TELNET_DO;
    mkTelopt TELNET_TELOPT_BINARY    TELNET_WILL TELNET_DO;
    mkTelopt TELNET_TELOPT_NAWS      TELNET_WILL TELNET_DONT;
    mkTelopt TELNET_TELOPT_LINEMODE  TELNET_WONT TELNET_DO ].

Definition telopt_eqb (a b : telopt) : bool :=
  match a, b with
  | TELNET_TELOPT_BINARY, TELNET_TELOPT_BINARY
  | TELNET_TELOPT_ECHO, TELNET_TELOPT_ECHO
  | TELNET_TELOPT_TTYPE, TELNET_TELOPT_TTYPE
  | TELNET_TELOPT_NAWS, TELNET_TELOPT_NAWS
  | TELNET_TELOPT_LINEMODE, TELNET_TELOPT_LINEMODE
  | TELNET_TELOPT_MSSP, TELNET_TELOPT_MSSP
  | TELNET_TELOPT_COMPRESS2, TELNET_TELOPT_COMPRESS2
  | TELNET_TELOPT_ZMP, TELNET_TELOPT_ZMP => true
  | _, _ => false
  end.

Definition find_telopt (table : list telnet_telopt_t) (opt : telopt)
  : option telnet_telopt_t :=
  List.find (fun e => telopt_eqb (telopt_of e) opt) table.

(** Modelled from the spec: libtelnet, which reads the table, is not part of
    the source file.  The spec's data model gives the two columns their
    meaning: "the locally preferred stance (offer to enable / refuse) and the
    stance to take if the peer requests it (agree / refuse)". *)
Inductive stance := Offer | Agree | Refuse.

Definition local_stance (table : list telnet_telopt_t) (opt : telopt) : option stance :=
  match find_telopt table opt with
  | Some e => Some (match us e with TELNET_WILL => Offer | _ => Refuse end)
  | None => None
  end.

Definition peer_stance (table : list telnet_telopt_t) (opt : telopt) : option stance :=
  match find_telopt table opt with
  | Some e => Some (match him e with TELNET_DO => Agree | _ => Refuse end)
  | None => None
  end.

(** ** Calls into collaborators *)

Inductive event :=
| EvWrite (fd : Z) (buf : bytes)          (* write(fd, buf, size) *)
| EvRunCommand (command : bytes)          (* run_command(command): the buffer behind the pointer *)
| EvSend (sockfd : Z) (buf : bytes)       (* send(sockfd, buf, size, 0) *)
| EvPrintf (msg : string)                 (* printf / ESP_LOGx, as a line on the console *)
| EvTelnetInit (telopts : list telnet_telopt_t)   (* telnet_init(telopts, handle_telnet_events, 0, userdata) *)
| EvTelnetRecv (buf : bytes)              (* telnet_recv *)
| EvTelnetSendText (buf : bytes)          (* telnet_send_text(tnHandle, buf, size) *)
| EvTelnetTtypeSend                       (* telnet_ttype_send *)
| EvTelnetFree                            (* telnet_free *)
| EvSemaphoreTake (ticks : Z) (ok : bool) (* xSemaphoreTake *)
| EvSemaphoreGive                         (* xSemaphoreGive *)
| EvRingbufferSend (size ms : Z) (ok : bool)            (* xRingbufferSend *)
| EvRingbufferReceiveUpTo (ms xMaxSize : Z) (item_size : option Z)
| EvRecv (sockfd : Z) (len errno : Z)     (* recv(sockfd, rxbuf, TELNET_RX_BUF, MSG_DONTWAIT) *)
| EvTaskYield                             (* taskYIELD *)
| EvClose (fd : Z)                        (* close(fd) *)
| EvVfsRegister.                          (* esp_vfs_register and the two freopen *)

(** ** A state, trace and fault monad for the C functions *)

Inductive result (A : Type) :=
| Ret (a : A) (g : globals) (t : list event)
| Fault          (* a read or write outside the memory of the model *)
| OutOfFuel.     (* the loop bound of the model was reached *)
Arguments Ret {A} a g t.
Arguments Fault {A}.
Arguments OutOfFuel {A}.

Definition M (A : Type) : Type := globals -> result A.

Definition ret {A} (a : A) : M A := fun g => Ret a g [].

Definition bind {A B} (m : M A) (k : A -> M B) : M B :=
  fun g =>
    match m g with
    | Ret a g1 t1 =>
        match k a g1 with
        | Ret b g2 t2 => Ret b g2 (t1 ++ t2)
        | Fault => Fault
        | OutOfFuel => OutOfFuel
        end
    | Fault => Fault
    | OutOfFuel => OutOfFuel
    end.

Definition get : M globals := fun g => Ret g g [].
Definition modify (f : globals -> globals) : M unit := fun g => Ret tt (f g) [].
Definition emit (e : event) : M unit := fun g => Ret tt g [e].
Definition fault {A} : M A := fun _ => Fault.
Definition out_of_fuel {A} : M A := fun _ => OutOfFuel.

Declare Scope c_scope.
Delimit Scope c_scope with C.
Notation "'do' x <- m ; k" := (bind m (fun x => k))
  (at level 10, x name, m at level 100, k at level 200) : c_scope.
Notation "m ;; k" := (bind m (fun _ => k))
  (at level 100, k at level 200, right associativity) : c_scope.
Local Open Scope c_scope.

(** ** process_received_data *)

(** [while( *(c++) != 'n'){ --size; }].  The pointer [c] is the memory from
    [c] onwards; reading where the model has no memory is a [None]. *)
Fixpoint scrub_scan (c : bytes) (size : Z) : option (bytes * Z) :=
  match c with
  | [] => None
  | ch :: c' =>
      if Ascii.eqb ch CHAR_n then Some (c', size)
      else scrub_scan c' (size_dec size)
  end.

(** The "scrub from any escape command" step: the pointer [c] and the
    [size] with which the function goes on. *)
Definition scrub (buffer : bytes) (size : Z) : option (bytes * Z) :=
  match buffer with
  | [] => None
  | ch :: _ =>
      if Ascii.eqb ch ESC then
        match scrub_scan buffer size with
        | Some (c, size') => Some (c, size_dec size')
        | None => None
        end
      else Some (buffer, size)
  end.

(** [memcpy(command, c, size); command[size] = '\0';] into a block of
    [capacity] bytes: the initialised part of [command]. *)
Definition fill_command (capacity : Z) (c : bytes) (size : Z) : option bytes :=
  if (size <? capacity) && (size <=? Z.of_nat (length c))
  then Some (take (Z.to_nat size) c ++ [NUL])
  else None.

(** [command[0]!='\r' && command[0]!='\n']. *)
Definition is_command (command : bytes) : bool :=
  match command with
  | command0 :: _ => negb (Ascii.eqb command0 CR) && negb (Ascii.eqb command0 LF)
  | [] => false
  end.

(** [buffer] is the memory starting at the pointer, [size] the length of the
    payload in it.  The allocation of [command] is assumed to succeed; the
    block is local to the call and its [malloc] and [free] are not traced. *)
Definition process_received_data (buffer : bytes) (size : Z) : M unit :=
  match scrub buffer size with
  | None => fault
  | Some (c, size') =>
      match fill_command (to_size_t (size + 1)) c size' with
      | None => fault
      | Some command =>
          if is_command command then
            do g <- get;
            (if bMirrorToUART g
             then emit (EvWrite (uart_fd g) (take (Z.to_nat size') command))
             else ret tt);;
            emit (EvRunCommand command)
          else ret tt
      end
  end.

(** ** Telnet events *)

Inductive telnet_event_type_t :=
| TELNET_EV_DATA | TELNET_EV_SEND | TELNET_EV_IAC
| TELNET_EV_WILL | TELNET_EV_WONT | TELNET_EV_DO | TELNET_EV_DONT
| TELNET_EV_SUBNEGOTIATION | TELNET_EV_COMPRESS | TELNET_EV_ZMP
| TELNET_EV_TTYPE | TELNET_EV_ENVIRON | TELNET_EV_MSSP
| TELNET_EV_WARNING | TELNET_EV_ERROR.

Definition eventToString (type : telnet_event_type_t) : string :=
  match type with
  | TELNET_EV_COMPRESS => "TELNET_EV_COMPRESS"
  | TELNET_EV_DATA => "TELNET_EV_DATA"
  | TELNET_EV_DO => "TELNET_EV_DO"
  | TELNET_EV_DONT => "TELNET_EV_DONT"
  | TELNET_EV_ENVIRON => "TELNET_EV_ENVIRON"
  | TELNET_EV_ERROR => "TELNET_EV_ERROR"
  | TELNET_EV_IAC => "TELNET_EV_IAC"
  | TELNET_EV_MSSP => "TELNET_EV_MSSP"
  | TELNET_EV_SEND => "TELNET_EV_SEND"
  | TELNET_EV_SUBNEGOTIATION => "TELNET_EV_SUBNEGOTIATION"
  | TELNET_EV_TTYPE => "TELNET_EV_TTYPE"
  | TELNET_EV_WARNING => "TELNET_EV_WARNING"
  | TELNET_EV_WILL => "TELNET_EV_WILL"
  | TELNET_EV_WONT => "TELNET_EV_WONT"
  | TELNET_EV_ZMP => "TELNET_EV_ZMP"
  end.

(** [telnet_event_t], as far as the handler reads it: the type and, for data
    and send events, [data.buffer] (the memory behind it) and [data.size]. *)
Record telnet_event_t := mkEvent {
  ev_type : telnet_event_type_t;
  ev_buffer : bytes;
  ev_size : Z
}.

Record telnetUserData := mkUserData {
  sockfd : Z;
  ud_tnHandle : bool;
  rxbuf : bool
}.

(** ** process_logs *)

(** The [while(uxBytesToSend>0)] loop.  Every round that does not [break]
    takes at least one byte out of the buffer, so the number of bytes waiting
    bounds the number of rounds. *)
Fixpoint process_logs_loop (fuel : nat) (uxBytesToSend : Z) : M unit :=
  if uxBytesToSend >? 0 then
    match fuel with
    | O => out_of_fuel
    | S fuel' =>
        do g <- get;
        match buf_handle g with
        | None => fault
        | Some rb =>
            match xRingbufferReceiveUpTo rb uxBytesToSend with
            | Some (item, rb') =>
                let item_size := Z.of_nat (length item) in
                emit (EvRingbufferReceiveUpTo 50 uxBytesToSend (Some item_size));;
                modify (set_buf_handle (Some rb'));;
                (if negb (partnerSocket g =? 0)
                 then emit (EvTelnetSendText item)
                 else ret tt);;
                process_logs_loop fuel' (uxBytesToSend - item_size)
            | None =>
                emit (EvRingbufferReceiveUpTo 50 uxBytesToSend None)
            end
        end
    end
  else ret tt.

Definition process_logs (count : Z) : M unit :=
  do g <- get;
  match buf_handle g with
  | None => fault
  | Some rb =>
      let uxItemsWaiting := uxItemsWaiting_of rb in
      let uxBytesToSend := if count =? 0 then uxItemsWaiting else count in
      if partnerSocket g =? 0 then
        if log_buf_size g =? 0 then fault
        else if to_size_t (uxItemsWaiting * 100) / log_buf_size g <? 75
             then ret tt
             else process_logs_loop (S (length (rb_items rb))) uxBytesToSend
      else process_logs_loop (S (length (rb_items rb))) uxBytesToSend
  end.

(** ** stdout_write *)

(** One [xRingbufferSend(buf_handle, data, size, pdMS_TO_TICKS(100))]. *)
Definition ringbuffer_send (data : bytes) : M bool :=
  do g <- get;
  match buf_handle g with
  | None => fault
  | Some rb =>
      match xRingbufferSend rb data with
      | Some rb' =>
          emit (EvRingbufferSend (Z.of_nat (length data)) 100 true);;
          modify (set_buf_handle (Some rb'));;
          ret true
      | None =>
          emit (EvRingbufferSend (Z.of_nat (length data)) 100 false);;
          ret false
      end
  end.

(** The block under "#1 Write to ringbuffer", run while the semaphore is
    held. *)
Definition store_log_entry (data : bytes) : M unit :=
  let size := Z.of_nat (length data) in
  do g <- get;
  match buf_handle g with
  | None =>
      emit (EvPrintf "stdout_write() ABORT. file handle _log_remote_fp is NULL")
  | Some _ =>
      do res <- ringbuffer_send data;
      if negb res then
        process_logs size;;
        do res2 <- ringbuffer_send data;
        if negb res2 then
          emit (EvPrintf "stdout_write() ABORT. Unable to store log entry in buffer")
        else ret tt
      else ret tt
  end.

(** [data] holds the [size] bytes behind the pointer; [write_result] is what
    the UART's [write] answers. *)
Definition stdout_write (write_result : Z) (fd : Z) (data : bytes) : M Z :=
  do g <- get;
  (match xSemaphore g with
   | None => fault
   | Some true =>
       emit (EvSemaphoreTake 10 true);;
       modify (set_xSemaphore (Some false));;
       store_log_entry data;;
       emit EvSemaphoreGive;;
       modify (set_xSemaphore (Some true))
   | Some false =>
       emit (EvSemaphoreTake 10 false)
   end);;
  do g' <- get;
  if bMirrorToUART g'
  then emit (EvWrite (uart_fd g') data);; ret write_result
  else ret 1.

(** ** What the module itself prints *)

Definition newline : string := String LF EmptyString.

(** The descriptor of the reopened stream inside the VFS entry: what
    [stdout_open] answered. *)
Definition STDOUT_FD : Z := 0.

(** Modelled from the spec: the C library behind [printf] and [ESP_LOGx] is
    not part of the source file.  The spec treats "the process-wide
    interception of the standard output/error streams" as "the external log
    producer calls [emit(bytes)]", "called by arbitrary external code whenever
    output is produced".  [init_telnet] registers [stdout_write] as the
    [write] function of "/dev/pkspstdout" and reopens [stdout] and [stderr] on
    it just before it sets [bIsEnabled], and [start_telnet] creates the task
    only when [bIsEnabled] is set: from then on a line the module prints is a
    call of [stdout_write] with the bytes of the line, the UART taking all of
    them when it is asked; what the call answers is not looked at.  Before the
    streams are reopened the line goes to the console ([EvPrintf]).  The two
    diagnostics inside [stdout_write] are printed while the semaphore is held,
    so that the call they cause cannot store them: they stay [EvPrintf]. *)
Definition printf (text : string) : M unit :=
  do g <- get;
  if bIsEnabled g
  then stdout_write (Z.of_nat (length (str text))) STDOUT_FD (str text);; ret tt
  else emit (EvPrintf text).

(** [ESP_LOGE(tag, format, ...)]: one line on the same stream.  [text] stands
    for the formatted message; the level letter, the time stamp and the tag
    that [esp_log] puts before it are left out. *)
Definition ESP_LOGE (text : string) : M unit := printf (text ++ newline).

(** [ESP_LOGD(tag, format, ...)] prints only where the log level of the build
    and of the tag lets debug lines through: [debug] says whether it does. *)
Definition ESP_LOGD (debug : bool) (text : string) : M unit :=
  if debug then printf (text ++ newline) else ret tt.

(** ** The handler of telnet events *)

(** [printf("telnet event: %s\n", eventToString(event->type))]. *)
Definition telnet_event_line (ev : telnet_event_t) : string :=
  ("telnet event: " ++ eventToString (ev_type ev) ++ newline)%string.

Definition handle_telnet_events (userData : telnetUserData) (ev : telnet_event_t)
  : M unit :=
  match ev_type ev with
  | TELNET_EV_SEND =>
      emit (EvSend (sockfd userData) (take (Z.to_nat (ev_size ev)) (ev_buffer ev)))
  | TELNET_EV_DATA =>
      process_received_data (ev_buffer ev) (ev_size ev)
  | TELNET_EV_TTYPE =>
      printf (telnet_event_line ev);;
      emit EvTelnetTtypeSend
  | _ =>
      printf (telnet_event_line ev)
  end.

(** ** The session: handle_telnet_conn *)

(** [EAGAIN] and [EWOULDBLOCK] of the C library (one value in newlib). *)
Definition EAGAIN : Z := 11.
Definition EWOULDBLOCK : Z := 11.
Definition ENOTCONN : Z := 128.

Definition TELNET_RX_BUF : Z := 1024.

(** What one [recv] of the session loop meets: the return value, [errno]
    after the call, the bytes placed in [rxbuf], and the events libtelnet's
    decoder raises for them when they are passed to [telnet_recv]. *)
Record recv_result := mkRecv {
  rcv_len : Z;
  rcv_errno : Z;
  rcv_data : bytes;
  rcv_decoded : list telnet_event_t
}.

Definition acquire (r : resource) : M unit :=
  modify (fun g => set_held (held g ++ [r]) g).
Definition release (r : resource) : M unit :=
  modify (fun g => set_held (List.filter (fun x => negb (resource_eqb x r)) (held g)) g).

Fixpoint dispatch_events (userData : telnetUserData) (evs : list telnet_event_t)
  : M unit :=
  match evs with
  | [] => ret tt
  | ev :: evs' => handle_telnet_events userData ev;; dispatch_events userData evs'
  end.

Inductive session_status :=
| SessionEnded     (* handle_telnet_conn returned *)
| SessionAlive.    (* the loop is still running when the script of recv results ends *)

(** The [while(1)] loop, driven by the results of the successive [recv]
    calls. *)
Fixpoint session_loop (pTelnetUserData : telnetUserData) (recvs : list recv_result)
  : M session_status :=
  match recvs with
  | [] => ret SessionAlive
  | r :: recvs' =>
      do g <- get;
      emit (EvRecv (partnerSocket g) (rcv_len r) (rcv_errno r));;
      if rcv_len r >? 0 then
        emit (EvTelnetRecv (take (Z.to_nat (rcv_len r)) (rcv_data r)));;
        dispatch_events pTelnetUserData (rcv_decoded r);;
        process_logs (send_chunk g);;
        emit EvTaskYield;;
        session_loop pTelnetUserData recvs'
      else if negb (rcv_errno r =? EAGAIN) && negb (rcv_errno r =? EWOULDBLOCK) then
        emit EvTelnetFree;;
        release ResTelnet;;
        modify (set_tnHandle false);;
        release ResRxbuf;;
        release ResUserData;;
        modify (set_partnerSocket 0);;
        ret SessionEnded
      else
        process_logs (send_chunk g);;
        emit EvTaskYield;;
        session_loop pTelnetUserData recvs'
  end.

(** The part of [handle_telnet_conn] before the loop: the allocations, the
    protocol engine and the flush of the log buffer. *)
Definition session_start : M telnetUserData :=
  acquire ResUserData;;
  emit (EvTelnetInit my_telopts);;
  acquire ResTelnet;;
  modify (set_tnHandle true);;
  acquire ResRxbuf;;
  do g <- get;
  process_logs 0;;
  ret (mkUserData (partnerSocket g) true true).

Definition handle_telnet_conn (recvs : list recv_result) : M session_status :=
  do pTelnetUserData <- session_start;
  session_loop pTelnetUserData recvs.

(** ** The listener: telnet_task *)

(** One accepted connection: the return value of [accept] and what the
    session then receives. *)
Record connection := mkConnection {
  accept_rc : Z;
  conn_recvs : list recv_result
}.

Inductive task_status :=
| TaskReturned
| TaskAccepting    (* blocked in accept when the script of connections ends *)
| TaskInSession.   (* inside a session that is still alive *)

Fixpoint accept_loop (debug : bool) (serverSocket : Z) (conns : list connection)
  : M task_status :=
  match conns with
  | [] => ret TaskAccepting
  | conn :: conns' =>
      if accept_rc conn <? 0 then
        ESP_LOGE "accept: errno";;
        ret TaskReturned
      else
        acquire (ResSocket (accept_rc conn));;
        modify (set_partnerSocket (accept_rc conn));;
        ESP_LOGD debug "We have a new client connection!";;
        do st <- handle_telnet_conn (conn_recvs conn);
        match st with
        | SessionEnded =>
            ESP_LOGD debug "Telnet connection terminated";;
            accept_loop debug serverSocket conns'
        | SessionAlive => ret TaskInSession
        end
  end.

(** [debug]: whether [ESP_LOGD] prints.  In the messages "errno" stands for
    the number and the text that the format puts there. *)
Definition telnet_task (debug : bool) (serverSocket bind_rc listen_rc : Z)
    (conns : list connection) : M task_status :=
  (if 0 <=? serverSocket then acquire (ResSocket serverSocket) else ret tt);;
  if bind_rc <? 0 then
    ESP_LOGE "bind: errno";;
    emit (EvClose serverSocket);;
    release (ResSocket serverSocket);;
    ret TaskReturned
  else if listen_rc <? 0 then
    ESP_LOGE "listen: errno";;
    emit (EvClose serverSocket);;
    release (ResSocket serverSocket);;
    ret TaskReturned
  else accept_loop debug serverSocket conns.

(** ** Initialisation: init_telnet *)

(** The C library's [strcasestr(haystack, needle) != NULL]. *)
Definition tolower (c : ascii) : ascii :=
  let n := nat_of_ascii c in
  if ((65 <=? n) && (n <=? 90))%nat then ascii_of_nat (n + 32) else c.

Fixpoint starts_with_nocase (needle haystack : bytes) : bool :=
  match needle, haystack with
  | [], _ => true
  | _ :: _, [] => false
  | a :: needle', b :: haystack' =>
      Ascii.eqb (tolower a) (tolower b) && starts_with_nocase needle' haystack'
  end.

Fixpoint strcasestr (haystack needle : bytes) : bool :=
  starts_with_nocase needle haystack ||
  match haystack with
  | [] => false
  | _ :: haystack' => strcasestr haystack' needle
  end.

(** The C library's [atol] with a 32-bit [long]: leading white space, an
    optional sign, decimal digits; the value saturates at the ends of the
    range. *)
Definition isspace (c : ascii) : bool :=
  let n := nat_of_ascii c in ((n =? 32) || ((9 <=? n) && (n <=? 13)))%nat.

Definition digit_of (c : ascii) : option Z :=
  let n := nat_of_ascii c in
  if ((48 <=? n) && (n <=? 57))%nat then Some (Z.of_nat n - 48) else None.

Fixpoint skip_space (s : bytes) : bytes :=
  match s with
  | c :: s' => if isspace c then skip_space s' else s
  | [] => []
  end.

Fixpoint digits_value (s : bytes) (acc : Z) : Z :=
  match s with
  | c :: s' =>
      match digit_of c with
      | Some d => digits_value s' (acc * 10 + d)
      | None => acc
      end
  | [] => acc
  end.

Definition LONG_MAX : Z := 2 ^ 31 - 1.
Definition LONG_MIN : Z := - 2 ^ 31.

Definition atol (s : bytes) : Z :=
  let v :=
    match skip_space s with
    | c :: s' =>
        if Ascii.eqb c "-" then - digits_value s' 0
        else if Ascii.eqb c "+" then digits_value s' 0
        else digits_value (c :: s') 0
    | [] => 0
    end in
  Z.max LONG_MIN (Z.min LONG_MAX v).

(** [nvs] is the configuration store behind [get_nvs_value_alloc]: a key
    without a value yields [NULL].  [ringbuf_created] tells whether
    [xRingbufferCreateStatic] returned a handle, [uart_open] is the result of
    [open("/dev/uart/0", O_RDWR)]. *)
Definition init_telnet (nvs : gmap string string) (ringbuf_created : bool)
    (uart_open : Z) : M unit :=
  let val := nvs !! "telnet_enable"%string in
  match val with
  | None => emit (EvPrintf "Telnet support disabled")
  | Some val =>
      if (length (str val) =? 0)%nat || negb (strcasestr (str "YXD") (str val)) then
        emit (EvPrintf "Telnet support disabled")
      else
        modify (set_bMirrorToUART (strcasestr (str "D") (str val)));;
        (match nvs !! "telnet_block"%string with
         | Some val =>
             let send_chunk := to_size_t (atol (str val)) in
             modify (set_send_chunk (if send_chunk >? 0 then send_chunk else 500))
         | None => ret tt
         end);;
        (match nvs !! "telnet_buffer"%string with
         | Some val =>
             let log_buf_size := to_size_t (atol (str val)) in
             modify (set_log_buf_size (if log_buf_size >? 0 then log_buf_size else 4000))
         | None => ret tt
         end);;
        modify (set_xSemaphore (Some true));;
        do g <- get;
        if negb ringbuf_created then
          modify (set_buf_handle None);;
          emit (EvPrintf "Failed to create ring buffer for telnet!")
        else
          modify (set_buf_handle (Some (mkRingbuf (Z.to_nat (log_buf_size g)) 0 [])));;
          emit (EvPrintf "***Redirecting log output to telnet");;
          (if bMirrorToUART g then modify (set_uart_fd uart_open) else ret tt);;
          emit EvVfsRegister;;
          modify (set_bIsEnabled true)
  end.

(** ** Reading a call trace *)

(** The bytes handed to [telnet_send_text], in order. *)
Fixpoint sent_text (t : list event) : bytes :=
  match t with
  | [] => []
  | EvTelnetSendText buf :: t' => buf ++ sent_text t'
  | _ :: t' => sent_text t'
  end.

Definition is_uart_write (e : event) : bool :=
  match e with EvWrite _ _ => true | _ => false end.
Definition is_run_command (e : event) : bool :=
  match e with EvRunCommand _ => true | _ => false end.
Definition is_ringbuffer_send (e : event) : bool :=
  match e with EvRingbufferSend _ _ _ => true | _ => false end.
Definition is_ringbuffer_receive (e : event) : bool :=
  match e with EvRingbufferReceiveUpTo _ _ _ => true | _ => false end.
Definition is_send_text (e : event) : bool :=
  match e with EvTelnetSendText _ => true | _ => false end.
Definition is_recv (e : event) : bool :=
  match e with EvRecv _ _ _ => true | _ => false end.

Definition count_events (p : event -> bool) (t : list event) : nat :=
  length (List.filter p t).

(** Milliseconds spent in ring-buffer calls that ran into their timeout. *)
Fixpoint waited_ms (t : list event) : Z :=
  match t with
  | [] => 0
  | EvRingbufferSend _ ms false :: t' => ms + waited_ms t'
  | EvRingbufferReceiveUpTo ms _ None :: t' => ms + waited_ms t'
  | _ :: t' => waited_ms t'
  end.

(** The bytes waiting in the log buffer ([[]] while there is no buffer). *)
Definition log_contents (g : globals) : bytes :=
  match buf_handle g with
  | Some rb => rb_items rb
  | None => []
  end.

(** The test with which [process_logs] bails out: no session, and less than
    75 of 100 parts of [log_buf_size] waiting. *)
Definition low_water (g : globals) (rb : ringbuf) : bool :=
  (partnerSocket g =? 0)
  && (to_size_t (uxItemsWaiting_of rb * 100) / log_buf_size g <? 75).

(** The number of bytes one [process_logs(count)] takes out of the buffer. *)
Definition drain_count (g : globals) (rb : ringbuf) (count : Z) : nat :=
  if low_water g rb then 0%nat
  else Nat.min (Z.to_nat (if count =? 0 then uxItemsWaiting_of rb else count))
               (length (rb_items rb)).

(** [t] happened first, then whatever [r] reports. *)
Definition after_trace {A} (t : list event) (r : result A) : result A :=
  match r with
  | Ret a g t' => Ret a g (t ++ t')
  | Fault => Fault
  | OutOfFuel => OutOfFuel
  end.

(** What [init_telnet] establishes and every later call keeps. *)
Definition initialised (g : globals) : Prop :=
  0 < log_buf_size g /\ xSemaphore g <> None /\
  forall rb, buf_handle g = Some rb ->
    rb_wf rb /\ Z.of_nat (rb_capacity rb) = log_buf_size g.

(** The state in which a call left the module, when it returned. *)
Definition final_globals {A} (r : result A) : option globals :=
  match r with
  | Ret _ g _ => Some g
  | Fault | OutOfFuel => None
  end.

(** The state after the teardown branch of the session loop. *)
Definition torn_down (g : globals) : globals :=
  let without r := List.filter (fun x => negb (resource_eqb x r)) in
  set_partnerSocket 0
    (set_held (without ResUserData (without ResRxbuf (without ResTelnet (held g))))
       (set_tnHandle false g)).

(** ** start_telnet *)

(** The function's static [isStarted], together with counters for what the
    calls have done so far: the tasks handed to [xTaskCreateStatic] and the
    blocks obtained from [heap_caps_malloc] and [malloc]. *)
Record start_state := mkStart {
  isStarted : bool;
  tasks_created : nat;
  blocks_allocated : nat
}.

(** One call: the task buffer and the stack are allocated first, whatever
    follows; the allocations are assumed to succeed. *)
Definition start_telnet (g : globals) (s : start_state) : start_state :=
  let blocks := (blocks_allocated s + 2)%nat in
  if negb (isStarted s) && bIsEnabled g
  then mkStart true (S (tasks_created s)) blocks
  else mkStart (isStarted s) (tasks_created s) blocks.

(** Successive calls, each one seeing the module in the state of its time. *)
Definition start_telnet_calls (gs : list globals) (s : start_state) : start_state :=
  fold_left (fun s g => start_telnet g s) gs s.

(** Successive calls of [stdout_write], one for each entry. *)
Fixpoint stdout_write_all (wr fd : Z) (entries : list bytes) : M unit :=
  match entries with
  | [] => ret tt
  | data :: entries' => stdout_write wr fd data;; stdout_write_all wr fd entries'
  end.

(** ** Further readings of states, inputs and traces *)

Definition is_send (e : event) : bool :=
  match e with EvSend _ _ => true | _ => false end.
Definition is_close (e : event) : bool :=
  match e with EvClose _ => true | _ => false end.
Definition is_vfs_register (e : event) : bool :=
  match e with EvVfsRegister => true | _ => false end.

Definition is_data_event (ev : telnet_event_t) : bool :=
  match ev_type ev with TELNET_EV_DATA => true | _ => false end.
Definition is_send_event (ev : telnet_event_t) : bool :=
  match ev_type ev with TELNET_EV_SEND => true | _ => false end.

(** A [recv] after which the session loop goes on without data: nothing
    received, and [errno] reads [EAGAIN] or [EWOULDBLOCK]. *)
Definition would_block (r : recv_result) : bool :=
  (rcv_len r <=? 0) && ((rcv_errno r =? EAGAIN) || (rcv_errno r =? EWOULDBLOCK)).

(** A [recv] after which the session loop returns. *)
Definition connection_error (r : recv_result) : bool :=
  (rcv_len r <=? 0) && negb (rcv_errno r =? EAGAIN) && negb (rcv_errno r =? EWOULDBLOCK).

(** The events the handler answers with a printed line: all but SEND and
    DATA. *)
Definition is_printed_event (ev : telnet_event_t) : bool :=
  match ev_type ev with
  | TELNET_EV_SEND | TELNET_EV_DATA => false
  | _ => true
  end.

(** The calls [stdout_write] can make. *)
Definition is_log_path (e : event) : bool :=
  match e with
  | EvSemaphoreTake _ _ | EvSemaphoreGive | EvRingbufferSend _ _ _
  | EvRingbufferReceiveUpTo _ _ _ | EvTelnetSendText _ | EvPrintf _ | EvWrite _ _ => true
  | _ => false
  end.

(** The payload of an event is one [process_received_data] handles inside
    its memory: the scan for 'n', if there is one, ends in the buffer, and the
    copy fits in [command]. *)
Definition in_bounds (ev : telnet_event_t) : bool :=
  match scrub (ev_buffer ev) (ev_size ev) with
  | Some (c, size') =>
      match fill_command (to_size_t (ev_size ev + 1)) c size' with
      | Some _ => true
      | None => false
      end
  | None => false
  end.

(** A [recv] whose DATA events, if it brings any, are all handled inside
    their memory. *)
Definition safe_round (r : recv_result) : bool :=
  negb (rcv_len r >? 0)
  || forallb (fun ev => negb (is_data_event ev) || in_bounds ev) (rcv_decoded r).

(** A session that ends: after rounds that bring data or nothing, a [recv]
    reports a connection error. *)
Definition ends_by_error (recvs : list recv_result) : Prop :=
  exists before r rest,
    recvs = before ++ r :: rest
    /\ Forall (fun r => connection_error r = false /\ safe_round r = true) before
    /\ connection_error r = true.

Definition is_socket (r : resource) : bool :=
  match r with ResSocket _ => true | _ => false end.

(** The variables no function but [init_telnet] writes. *)
Definition same_config (g g' : globals) : Prop :=
  send_chunk g' = send_chunk g /\ log_buf_size g' = log_buf_size g
  /\ xSemaphore g' = xSemaphore g /\ bMirrorToUART g' = bMirrorToUART g
  /\ uart_fd g' = uart_fd g /\ bIsEnabled g' = bIsEnabled g.

(** The module once [handle_telnet_conn] has made its allocations. *)
Definition started (g : globals) : globals :=
  set_held (held g ++ [ResUserData; ResTelnet; ResRxbuf]) (set_tnHandle true g).

(** The module once a session that left [rb] in the buffer has ended. *)
Definition ended (rb : ringbuf) (g : globals) : globals :=
  set_partnerSocket 0 (set_tnHandle false (set_buf_handle (Some rb) g)).

(** The module once [telnet_task] has accepted a connection. *)
Definition accepted (fd : Z) (g : globals) : globals :=
  set_partnerSocket fd (set_held (held g ++ [ResSocket fd]) g).

(** Lower case, as [strcasestr] compares. *)
Definition lower (s : bytes) : bytes := List.map tolower s.

(** The texts found in "YXD", in lower case. *)
Definition enabling_values : list bytes :=
  [str "y"; str "x"; str "d"; str "yx"; str "xd"; str "yxd"].

(** ** States used as examples *)

(** An initialised module with an 8-byte log buffer holding "abcd", no
    session attached. *)
Definition example_buffer : ringbuf := mkRingbuf 8 0 (str "abcd").

Definition example_globals : globals :=
  set_xSemaphore (Some true)
    (set_log_buf_size 8 (set_buf_handle (Some example_buffer) initial_globals)).

(** The same with six of the eight bytes taken (75%). *)
Definition example_globals_high : globals :=
  set_buf_handle (Some (mkRingbuf 8 0 (str "abcdef"))) example_globals.

(** A session on socket 54, the listener on socket 53. *)
Definition example_session : globals :=
  set_held [ResSocket 53; ResSocket 54] (set_partnerSocket 54 example_globals).

(** A module in service: the streams reopened, a 64-byte log buffer holding
    "abcd", no session attached. *)
Definition example_listening : globals :=
  set_bIsEnabled true
    (set_xSemaphore (Some true)
       (set_log_buf_size 64
          (set_buf_handle (Some (mkRingbuf 64 0 (str "abcd"))) initial_globals))).

(** The same inside a session on socket 54, the listener on socket 53. *)
Definition example_running : globals :=
  set_held [ResSocket 53; ResSocket 54] (set_partnerSocket 54 example_listening).

(** The events of one round: an answer of the engine to send, an option
    request and a typed line; the module after they are handled in
    [example_running], and the calls made. *)
Definition example_events : list telnet_event_t :=
  [mkEvent TELNET_EV_SEND (str "abc") 2; mkEvent TELNET_EV_WILL [] 0;
   mkEvent TELNET_EV_DATA (str "hi") 2].

Definition example_events_handled : globals :=
  set_buf_handle
    (Some (mkRingbuf 64 0
             (str "abcd" ++ str (telnet_event_line (mkEvent TELNET_EV_WILL [] 0)))))
    example_running.

Definition example_events_trace : list event :=
  [EvSend 54 (str "ab");
   EvSemaphoreTake 10 true; EvRingbufferSend 29 100 true; EvSemaphoreGive;
   EvRunCommand (str "hi" ++ [NUL])].

(** A session that receives the line "ls", then an option request that the
    engine answers, then nothing, and then finds the peer gone. *)
Definition example_recvs : list recv_result :=
  [mkRecv 3 0 (str "ls" ++ [CR]) [mkEvent TELNET_EV_DATA (str "ls" ++ [CR]) 3];
   mkRecv 3 0 (str "abc")
     [mkEvent TELNET_EV_DO [] 0; mkEvent TELNET_EV_SEND (str "xyz") 3];
   mkRecv (-1) EAGAIN [] [];
   mkRecv 0 ENOTCONN [] []].

(** Two such connections. *)
Definition example_connections : list connection :=
  [mkConnection 54 example_recvs; mkConnection 55 example_recvs].




(** * Properties *)

(** ** Reasoning in the monad *)

Lemma bind_Ret {A B} (m : M A) (k : A -> M B) g a g1 t1 :
  m g = Ret a g1 t1 -> bind m k g = after_trace t1 (k a g1).
Proof. intros H. unfold bind, after_trace. rewrite H. destruct (k a g1); reflexivity. Qed.

Lemma after_trace_nil {A} (r : result A) : after_trace [] r = r.
Proof. destruct r; reflexivity. Qed.

Lemma bind_get {B} (k : globals -> M B) g : bind get k g = k g g.
Proof. unfold bind, get. destruct (k g g); reflexivity. Qed.

Lemma bind_ret {A B} (a : A) (k : A -> M B) g : bind (ret a) k g = k a g.
Proof. unfold bind, ret. destruct (k a g); reflexivity. Qed.

Lemma bind_modify {B} f (k : unit -> M B) g : bind (modify f) k g = k tt (f g).
Proof. unfold bind, modify. destruct (k tt (f g)); reflexivity. Qed.

Lemma bind_emit {B} e (k : unit -> M B) g : bind (emit e) k g = after_trace [e] (k tt g).
Proof. unfold bind, emit. destruct (k tt g); reflexivity. Qed.

Create Rewrite HintDb c_monad.
#[local] Hint Rewrite @bind_get @bind_ret @bind_modify @bind_emit : c_monad.

(** Runs the leading reads, writes and calls of a computation. *)
Ltac run_c := autorewrite with c_monad.

Lemma after_trace_app {A} t1 t2 (r : result A) :
  after_trace t1 (after_trace t2 r) = after_trace (t1 ++ t2) r.
Proof. destruct r; simpl; try reflexivity. now rewrite app_assoc. Qed.

Lemma ascii_eqb_false (a b : ascii) : a <> b -> Ascii.eqb a b = false.
Proof. intros H. now apply Ascii.eqb_neq. Qed.

(** ** Escape stripping *)

Lemma size_dec_pos size : 0 < size < SIZE_T_MOD + 1 -> size_dec size = size - 1.
Proof.
  intros H. unfold size_dec, to_size_t. apply Z.mod_small. unfold SIZE_T_MOD in *. lia.
Qed.

Lemma scrub_scan_found pre tail size :
  Forall (fun ch => ch <> CHAR_n) pre ->
  Z.of_nat (length pre) <= size < SIZE_T_MOD ->
  scrub_scan (pre ++ CHAR_n :: tail) size = Some (tail, size - Z.of_nat (length pre)).
Proof.
  intros Hpre. revert size. induction Hpre as [|ch pre Hch _ IH]; intros size Hsize.
  - simpl. now rewrite Z.sub_0_r.
  - simpl length in *. rewrite Nat2Z.inj_succ in Hsize.
    simpl. rewrite (ascii_eqb_false _ _ Hch).
    rewrite size_dec_pos by lia. rewrite IH by lia.
    f_equal. f_equal. lia.
Qed.

Lemma scrub_escape pre rest beyond :
  Forall (fun ch => ch <> CHAR_n) pre ->
  Z.of_nat (length (ESC :: pre ++ CHAR_n :: rest)) < SIZE_T_MOD ->
  scrub ((ESC :: pre ++ CHAR_n :: rest) ++ beyond)
        (Z.of_nat (length (ESC :: pre ++ CHAR_n :: rest)))
  = Some (rest ++ beyond, Z.of_nat (length rest)).
Proof.
  intros Hpre Hlen.
  assert (Hsz : Z.of_nat (length (ESC :: pre ++ CHAR_n :: rest))
                = Z.of_nat (length pre) + Z.of_nat (length rest) + 2).
  { simpl. rewrite length_app. simpl. lia. }
  rewrite Hsz in *.
  replace ((ESC :: pre ++ CHAR_n :: rest) ++ beyond)
    with ((ESC :: pre) ++ CHAR_n :: (rest ++ beyond))
    by (simpl; now rewrite <- app_assoc).
  unfold scrub. simpl app at 1.
  change (Ascii.eqb ESC ESC) with true. cbv iota.
  change (ESC :: pre ++ CHAR_n :: rest ++ beyond)
    with ((ESC :: pre) ++ CHAR_n :: (rest ++ beyond)).
  rewrite scrub_scan_found.
  - rewrite size_dec_pos by (simpl length; lia).
    f_equal. f_equal. simpl length. lia.
  - constructor; [discriminate | exact Hpre].
  - simpl length. lia.
Qed.

Lemma fill_command_in_bounds capacity c size :
  0 <= size < capacity -> size <= Z.of_nat (length c) ->
  fill_command capacity c size = Some (take (Z.to_nat size) c ++ [NUL]).
Proof.
  intros H1 H2. unfold fill_command.
  destruct (Z.ltb_spec size capacity); [|lia].
  destruct (Z.leb_spec size (Z.of_nat (length c))); [|lia].
  reflexivity.
Qed.

(** What the function does with the stripped bytes once [command] is
    filled. *)
Lemma process_received_data_stripped g buffer size c size' :
  scrub buffer size = Some (c, size') ->
  0 <= size' < to_size_t (size + 1) -> size' <= Z.of_nat (length c) ->
  process_received_data buffer size g =
    let stripped := take (Z.to_nat size') c in
    Ret tt g
      (if is_command (stripped ++ [NUL])
       then (if bMirrorToUART g then [EvWrite (uart_fd g) stripped] else [])
            ++ [EvRunCommand (stripped ++ [NUL])]
       else []).
Proof.
  intros Hs H1 H2. unfold process_received_data. rewrite Hs.
  rewrite fill_command_in_bounds by assumption. cbv zeta.
  destruct (is_command _); [|reflexivity].
  assert (Htake : take (Z.to_nat size') (take (Z.to_nat size') c ++ [NUL])
                  = take (Z.to_nat size') c).
  { rewrite take_app_le; [apply take_idemp|].
    rewrite length_take. lia. }
  unfold bind, get, emit, ret. rewrite Htake.
  destruct (bMirrorToUART g); reflexivity.
Qed.

(** C1, as amended: when the payload begins with the escape character and
    holds an ASCII 'n', the escape character and every byte up to and
    including the first 'n' are removed, and nothing more: the bytes after
    that 'n', the one right after it included, are the command.  Unless its
    first byte is CR or LF, this command goes once to the UART (when mirroring
    is on) and once, NUL-terminated, to [run_command]. *)
Theorem escape_stripping g pre rest beyond :
  Forall (fun ch => ch <> CHAR_n) pre ->
  Z.of_nat (length (ESC :: pre ++ CHAR_n :: rest)) < SIZE_T_MOD - 1 ->
  process_received_data ((ESC :: pre ++ CHAR_n :: rest) ++ beyond)
                        (Z.of_nat (length (ESC :: pre ++ CHAR_n :: rest))) g
  = Ret tt g
      (if is_command (rest ++ [NUL])
       then (if bMirrorToUART g then [EvWrite (uart_fd g) rest] else [])
            ++ [EvRunCommand (rest ++ [NUL])]
       else []).
Proof.
  intros Hpre Hlen.
  assert (Htake : take (Z.to_nat (Z.of_nat (length rest))) (rest ++ beyond) = rest).
  { rewrite Nat2Z.id. now rewrite take_app_length. }
  rewrite (process_received_data_stripped g _ _ (rest ++ beyond) (Z.of_nat (length rest))).
  - cbv zeta. now rewrite Htake.
  - apply scrub_escape; [assumption | lia].
  - unfold to_size_t. rewrite Z.mod_small by (unfold SIZE_T_MOD in *; lia).
    simpl length. rewrite length_app. simpl length. lia.
  - rewrite length_app. lia.
Qed.

Lemma escape_stripping_witness :
  process_received_data (ESC :: str "xyn" ++ str "Zhello" ++ [CR]) 11 initial_globals
  = Ret tt initial_globals [EvRunCommand (str "Zhello" ++ [CR; NUL])].
Proof.
  apply (escape_stripping initial_globals (str "xy") (str "Zhello" ++ [CR]) []).
  - repeat constructor; discriminate.
  - vm_compute. reflexivity.
Defined.

(** C1, as stated, fails: for ESC "xyn" "Zhello\r" the command handed to
    [run_command] is "Zhello\r"; the byte after the 'n' is kept, so the
    command is not "hello\r". *)
Lemma escape_stripping_extra_byte_counterexample :
  process_received_data (ESC :: str "xyn" ++ str "Zhello" ++ [CR]) 11 initial_globals
  = Ret tt initial_globals [EvRunCommand (str "Zhello" ++ [CR; NUL])]
  /\ c_str (str "Zhello" ++ [CR; NUL]) = str "Zhello" ++ [CR]
  /\ c_str (str "Zhello" ++ [CR; NUL]) <> str "hello" ++ [CR].
Proof. split; [reflexivity | split; [reflexivity | discriminate]]. Qed.

(** C8: when the first byte left after escape stripping is CR or LF,
    nothing is written to the UART and [run_command] is not called; when it is
    neither, the stripped bytes are written to the UART if and only if
    mirroring is on, and handed (NUL-terminated) to [run_command] exactly
    once. *)
Theorem newline_discard_or_single_execution g buffer size c size' b stripped' :
  scrub buffer size = Some (c, size') ->
  0 <= size' < to_size_t (size + 1) -> size' <= Z.of_nat (length c) ->
  take (Z.to_nat size') c = b :: stripped' ->
  (b = CR \/ b = LF -> process_received_data buffer size g = Ret tt g [])
  /\ (b <> CR -> b <> LF ->
      exists t,
        process_received_data buffer size g = Ret tt g t
        /\ t = (if bMirrorToUART g then [EvWrite (uart_fd g) (b :: stripped')] else [])
               ++ [EvRunCommand ((b :: stripped') ++ [NUL])]
        /\ List.filter is_run_command t = [EvRunCommand ((b :: stripped') ++ [NUL])]
        /\ (bMirrorToUART g = false -> List.filter is_uart_write t = [])).
Proof.
  intros Hs H1 H2 Hb.
  rewrite (process_received_data_stripped g _ _ _ _ Hs H1 H2). cbv zeta.
  rewrite Hb. split.
  - intros [-> | ->]; reflexivity.
  - intros Hcr Hlf. simpl is_command.
    rewrite (ascii_eqb_false _ _ Hcr), (ascii_eqb_false _ _ Hlf). simpl.
    eexists. split; [reflexivity|]. split; [reflexivity|].
    destruct (bMirrorToUART g); simpl; split; intros; try reflexivity; discriminate.
Qed.

Lemma newline_discard_or_single_execution_witness :
  process_received_data [CR; LF] 2 (set_bMirrorToUART true initial_globals)
  = Ret tt (set_bMirrorToUART true initial_globals) [].
Proof.
  refine (proj1 (newline_discard_or_single_execution
                   (set_bMirrorToUART true initial_globals)
                   [CR; LF] 2 [CR; LF] 2 CR [LF] _ _ _ _) _).
  - reflexivity.
  - vm_compute. split; [discriminate | reflexivity].
  - vm_compute. discriminate.
  - reflexivity.
  - left. reflexivity.
Defined.

(** *** When the payload holds no 'n' *)

(** Without an 'n' anywhere in memory the scan runs off the memory. *)
Lemma scrub_scan_not_found c size :
  Forall (fun ch => ch <> CHAR_n) c -> scrub_scan c size = None.
Proof.
  intros H. revert size. induction H as [|ch c Hch _ IH]; intros size; simpl.
  - reflexivity.
  - rewrite (ascii_eqb_false _ _ Hch). apply IH.
Qed.

Lemma scrub_scan_consumes c size c' size' :
  scrub_scan c size = Some (c', size') ->
  exists pre, c = pre ++ CHAR_n :: c' /\ Forall (fun ch => ch <> CHAR_n) pre.
Proof.
  revert size. induction c as [|ch c IH]; intros size; simpl; [discriminate|].
  destruct (Ascii.eqb ch CHAR_n) eqn:E.
  - intros [= <- <-]. apply Ascii.eqb_eq in E. subst ch. exists []. split; [reflexivity | constructor].
  - intros H. destruct (IH _ H) as (pre & -> & Hpre).
    exists (ch :: pre). split; [reflexivity|].
    constructor; [|assumption]. now apply Ascii.eqb_neq.
Qed.

(** A payload that begins with the escape character and holds no 'n' sends
    the scan past the payload: the pointer ends up inside what lies behind
    it. *)
Lemma scrub_without_n_leaves_payload payload beyond c size' :
  Forall (fun ch => ch <> CHAR_n) (ESC :: payload) ->
  scrub ((ESC :: payload) ++ beyond) (Z.of_nat (length (ESC :: payload))) = Some (c, size') ->
  (length c < length beyond)%nat.
Proof.
  intros Hp. unfold scrub. simpl app. change (Ascii.eqb ESC ESC) with true. cbv iota.
  destruct (scrub_scan _ _) as [[c0 s0]|] eqn:E; [|discriminate].
  intros [= <- _].
  destruct (scrub_scan_consumes _ _ _ _ E) as (pre & Heq & Hpre).
  assert (Hlen : (length (ESC :: payload ++ beyond) = length pre + S (length c0))%nat).
  { rewrite Heq, length_app. reflexivity. }
  simpl in Hlen. rewrite length_app in Hlen.
  destruct (Nat.le_gt_cases (length pre) (length payload)) as [Hle|Hgt]; [|lia].
  exfalso.
  (* the 'n' found would lie inside the payload *)
  assert (Hin : In CHAR_n (ESC :: payload)).
  { change (ESC :: payload ++ beyond) with ((ESC :: payload) ++ beyond) in Heq.
    assert (Hnth : nth_error ((ESC :: payload) ++ beyond) (length pre) = Some CHAR_n).
    { rewrite Heq. rewrite nth_error_app2 by lia. now rewrite Nat.sub_diag. }
    rewrite nth_error_app1 in Hnth by (simpl; lia).
    eapply nth_error_In; eassumption. }
  rewrite Forall_forall in Hp. specialize (Hp CHAR_n).
  apply Hp; [|reflexivity]. now apply list_elem_of_In.
Qed.

Lemma scrub_scan_size pre tail size :
  Forall (fun ch => ch <> CHAR_n) pre ->
  scrub_scan (pre ++ CHAR_n :: tail) size
  = Some (tail, Nat.iter (length pre) size_dec size).
Proof.
  intros Hpre. revert size. induction Hpre as [|ch pre Hch _ IH]; intros size.
  - reflexivity.
  - simpl app. simpl scrub_scan. rewrite (ascii_eqb_false _ _ Hch). rewrite IH.
    f_equal. f_equal. simpl length. now rewrite Nat.iter_succ_r.
Qed.

Lemma iter_size_dec n size :
  Nat.iter n size_dec (to_size_t size) = to_size_t (size - Z.of_nat n).
Proof.
  induction n as [|n IH].
  - simpl. now rewrite Z.sub_0_r.
  - change (Nat.iter (S n) size_dec (to_size_t size))
      with (size_dec (Nat.iter n size_dec (to_size_t size))).
    rewrite IH. unfold size_dec, to_size_t.
    rewrite Zminus_mod_idemp_l. f_equal. lia.
Qed.

(** The general form of the overrun: with no 'n' in the payload the function
    never gets to a command, whatever the memory behind the payload holds. *)
Lemma process_received_data_without_n g payload beyond :
  Forall (fun ch => ch <> CHAR_n) (ESC :: payload) ->
  Z.of_nat (length ((ESC :: payload) ++ beyond)) < SIZE_T_MOD - 1 ->
  process_received_data ((ESC :: payload) ++ beyond)
                        (Z.of_nat (length (ESC :: payload))) g = Fault.
Proof.
  intros Hp Hmem. unfold process_received_data.
  destruct (scrub _ _) as [[c size']|] eqn:Hs; [|reflexivity].
  pose proof (scrub_without_n_leaves_payload _ _ _ _ Hp Hs) as Hc.
  revert Hs. unfold scrub. simpl app. change (Ascii.eqb ESC ESC) with true. cbv iota.
  destruct (scrub_scan _ _) as [[c0 s0]|] eqn:E; [|discriminate].
  intros [= -> <-].
  destruct (scrub_scan_consumes _ _ _ _ E) as (pre & Heq & Hpre).
  rewrite Heq, (scrub_scan_size _ _ _ Hpre) in E. injection E as <-.
  assert (Hlen : (length (ESC :: payload ++ beyond) = length pre + S (length c))%nat).
  { rewrite Heq, length_app. reflexivity. }
  change ((ESC :: payload) ++ beyond) with (ESC :: payload ++ beyond) in Hmem.
  rewrite Hlen in Hmem. simpl length in Hlen. rewrite length_app in Hlen.
  assert (Hval : size_dec (Nat.iter (length pre) size_dec (Z.of_nat (S (length payload))))
                 = Z.of_nat (S (length payload)) - Z.of_nat (length pre) - 1 + SIZE_T_MOD).
  { replace (Z.of_nat (S (length payload)))
      with (to_size_t (Z.of_nat (S (length payload)))) at 1
      by (apply Z.mod_small; unfold SIZE_T_MOD in *; lia).
    rewrite iter_size_dec. unfold size_dec, to_size_t. rewrite Zminus_mod_idemp_l.
    rewrite <- (Z_mod_plus_full _ 1). rewrite Z.mul_1_l.
    apply Z.mod_small. unfold SIZE_T_MOD in *. lia. }
  rewrite Hval. unfold fill_command, to_size_t.
  change (length (ESC :: payload)) with (S (length payload)).
  rewrite Z.mod_small by (unfold SIZE_T_MOD in *; lia).
  match goal with
  | |- context [?a <? ?b] => destruct (Z.ltb_spec a b); [unfold SIZE_T_MOD in *; lia|]
  end.
  reflexivity.
Qed.

(** C9 at the failing input: the Up-arrow key sequence ESC "[A" arrives as a
    three-byte payload, written over the older contents "reconnect\r\n" of the
    receive buffer.  The scan does not stop at the payload's last byte: it
    reads on to the 'n' of the stale bytes, five bytes from the start, the
    size wraps around to 4294967294, and the copy of that many bytes leaves
    the memory. *)
Theorem scrub_overrun_failing_input :
  scrub (ESC :: str "[A" ++ str "onnect" ++ [CR; LF]) 3
  = Some (str "nect" ++ [CR; LF], 4294967294)
  /\ scrub (ESC :: str "[A") 3 = None
  /\ process_received_data (ESC :: str "[A" ++ str "onnect" ++ [CR; LF]) 3 initial_globals
     = Fault.
Proof. repeat split; vm_compute; reflexivity. Qed.

(** ** Draining the log buffer *)

Lemma set_buf_handle_same g rb : buf_handle g = Some rb -> set_buf_handle (Some rb) g = g.
Proof. destruct g; simpl; intros ->; reflexivity. Qed.

Lemma process_logs_loop_step fuel n g rb :
  buf_handle g = Some rb -> 0 < n ->
  process_logs_loop (S fuel) n g =
    match xRingbufferReceiveUpTo rb n with
    | Some (item, rb') =>
        after_trace
          (EvRingbufferReceiveUpTo 50 n (Some (Z.of_nat (length item)))
             :: (if partnerSocket g =? 0 then [] else [EvTelnetSendText item]))
          (process_logs_loop fuel (n - Z.of_nat (length item))
                             (set_buf_handle (Some rb') g))
    | None => Ret tt g [EvRingbufferReceiveUpTo 50 n None]
    end.
Proof.
  intros Hb Hn. simpl. destruct (Z.gtb_spec n 0); [|lia].
  unfold bind at 1. unfold get. rewrite Hb.
  destruct (xRingbufferReceiveUpTo rb n) as [[item rb']|]; [|reflexivity].
  unfold bind, emit, modify, ret.
  destruct (partnerSocket g =? 0); simpl;
    destruct (process_logs_loop _ _ _); reflexivity.
Qed.

Lemma process_logs_loop_done fuel n g : n <= 0 -> process_logs_loop fuel n g = Ret tt g [].
Proof.
  intros Hn. destruct fuel; simpl; destruct (Z.gtb_spec n 0); try lia; reflexivity.
Qed.

(** The loop takes the [k] oldest bytes out of the buffer, where [k] is the
    smaller of the number asked for and the number waiting; it sends them to
    the peer when a session is attached and drops them otherwise. *)
Lemma process_logs_loop_spec fuel : forall n g rb,
  buf_handle g = Some rb ->
  (rb_read rb < rb_capacity rb)%nat ->
  (length (rb_items rb) < fuel)%nat ->
  exists rb' t,
    process_logs_loop fuel n g = Ret tt (set_buf_handle (Some rb') g) t
    /\ rb_items rb' = drop (Nat.min (Z.to_nat n) (length (rb_items rb))) (rb_items rb)
    /\ rb_capacity rb' = rb_capacity rb
    /\ (rb_read rb' < rb_capacity rb')%nat
    /\ sent_text t = (if partnerSocket g =? 0 then []
                      else take (Nat.min (Z.to_nat n) (length (rb_items rb))) (rb_items rb))
    /\ Forall (fun e => is_ringbuffer_receive e
                        || (negb (partnerSocket g =? 0) && is_send_text e) = true) t
    /\ 0 <= waited_ms t <= 50.
Proof.
  induction fuel as [|fuel IH]; intros n g rb Hb Hrd Hfuel; [lia|].
  destruct (Z.le_gt_cases n 0) as [Hn|Hn].
  { exists rb, []. rewrite process_logs_loop_done by assumption.
    rewrite (set_buf_handle_same _ _ Hb).
    replace (Z.to_nat n) with 0%nat by lia. simpl.
    repeat split; try assumption; try lia; try constructor.
    destruct (partnerSocket g =? 0); reflexivity. }
  rewrite (process_logs_loop_step _ _ _ _ Hb) by lia.
  unfold xRingbufferReceiveUpTo.
  destruct (Nat.min (Z.to_nat n) (Nat.min (length (rb_items rb)) (rb_capacity rb - rb_read rb)))
    as [|m] eqn:Hm.
  { assert (Hempty : length (rb_items rb) = 0%nat) by lia.
    exists rb, [EvRingbufferReceiveUpTo 50 n None].
    rewrite (set_buf_handle_same _ _ Hb). rewrite Hempty, Nat.min_0_r. simpl.
    repeat split; try assumption; try lia.
    - now destruct (partnerSocket g =? 0).
    - repeat constructor. }
  set (item := take (S m) (rb_items rb)).
  set (rb1 := mkRingbuf (rb_capacity rb) ((rb_read rb + S m) mod rb_capacity rb)
                        (drop (S m) (rb_items rb))).
  assert (Hitem : length item = S m) by (unfold item; rewrite length_take; lia).
  destruct (IH (n - Z.of_nat (length item)) (set_buf_handle (Some rb1) g) rb1)
    as (rb' & t & Hrun & Hitems & Hcap & Hrd' & Hsent & Hall & Hwait).
  - reflexivity.
  - simpl. apply Nat.mod_upper_bound. lia.
  - simpl. rewrite length_drop. lia.
  - exists rb'.
    eexists. rewrite Hrun. simpl after_trace.
    assert (Hk : (Nat.min (Z.to_nat n) (length (rb_items rb))
                  = S m + Nat.min (Z.to_nat (n - Z.of_nat (length item)))
                                  (length (rb_items rb1)))%nat).
    { simpl. rewrite length_drop. lia. }
    split; [reflexivity|]. rewrite Hk.
    split; [rewrite Hitems; simpl; now rewrite drop_drop|].
    split; [rewrite Hcap; reflexivity|].
    split; [assumption|].
    change (partnerSocket (set_buf_handle (Some rb1) g)) with (partnerSocket g) in *.
    split; [|split].
    + destruct (partnerSocket g =? 0); simpl; [assumption|].
      rewrite Hsent. unfold item. simpl. now rewrite take_take_drop.
    + constructor; [reflexivity|].
      destruct (partnerSocket g =? 0); simpl; [assumption|].
      constructor; [reflexivity | assumption].
    + destruct (partnerSocket g =? 0); simpl; assumption.
Qed.

Lemma process_logs_spec count g rb :
  buf_handle g = Some rb ->
  (rb_read rb < rb_capacity rb)%nat ->
  0 < log_buf_size g ->
  exists rb' t,
    process_logs count g = Ret tt (set_buf_handle (Some rb') g) t
    /\ rb_items rb' = drop (drain_count g rb count) (rb_items rb)
    /\ rb_capacity rb' = rb_capacity rb
    /\ (rb_read rb' < rb_capacity rb')%nat
    /\ sent_text t = (if partnerSocket g =? 0 then []
                      else take (drain_count g rb count) (rb_items rb))
    /\ Forall (fun e => is_ringbuffer_receive e
                        || (negb (partnerSocket g =? 0) && is_send_text e) = true) t
    /\ 0 <= waited_ms t <= 50.
Proof.
  intros Hb Hrd Hsize.
  assert (Hskip : low_water g rb = true ->
                  exists rb' t,
                    Ret tt g [] = Ret tt (set_buf_handle (Some rb') g) t
                    /\ rb_items rb' = drop 0 (rb_items rb)
                    /\ rb_capacity rb' = rb_capacity rb
                    /\ (rb_read rb' < rb_capacity rb')%nat
                    /\ sent_text t = (if partnerSocket g =? 0 then []
                                      else take 0 (rb_items rb))
                    /\ Forall (fun e => is_ringbuffer_receive e
                                 || (negb (partnerSocket g =? 0) && is_send_text e) = true) t
                    /\ 0 <= waited_ms t <= 50).
  { intros _. exists rb, []. rewrite (set_buf_handle_same _ _ Hb). simpl.
    repeat split; try assumption; try lia; try constructor.
    now destruct (partnerSocket g =? 0). }
  unfold process_logs, bind, get. rewrite Hb.
  unfold drain_count, low_water in *.
  set (n := if count =? 0 then uxItemsWaiting_of rb else count).
  pose proof (process_logs_loop_spec (S (length (rb_items rb))) n g rb Hb Hrd
                (Nat.lt_succ_diag_r _)) as (rb' & t & Hrun & Hrest).
  destruct (partnerSocket g =? 0) eqn:Hp; simpl andb.
  - destruct (Z.eqb_spec (log_buf_size g) 0); [lia|].
    destruct (to_size_t (uxItemsWaiting_of rb * 100) / log_buf_size g <? 75).
    + apply Hskip. reflexivity.
    + rewrite Hrun. simpl. exists rb', t. split; [reflexivity | exact Hrest].
  - rewrite Hrun. simpl. exists rb', t. split; [reflexivity | exact Hrest].
Qed.

Lemma filter_other_events (p q : event -> bool) (t : list event) :
  Forall (fun e => q e = true) t -> (forall e, q e = true -> p e = false) ->
  List.filter p t = [].
Proof.
  intros Hall Hpq. induction Hall as [|e t He _ IH]; [reflexivity|].
  simpl. rewrite (Hpq _ He). exact IH.
Qed.

Lemma drain_events_only (p : event -> bool) (b : bool) (t : list event) :
  Forall (fun e => is_ringbuffer_receive e || (b && is_send_text e) = true) t ->
  (forall ms n sz, p (EvRingbufferReceiveUpTo ms n sz) = false) ->
  (forall buf, p (EvTelnetSendText buf) = false) ->
  List.filter p t = [].
Proof.
  intros Hall Hr Hs.
  apply (filter_other_events p
           (fun e => is_ringbuffer_receive e || (b && is_send_text e)) t Hall).
  intros e He. cbv beta in He. destruct e; simpl in He;
    try (rewrite andb_false_r in He); try discriminate He; auto.
Qed.

Lemma initialised_example : initialised example_globals.
Proof.
  split; [reflexivity|]. split; [discriminate|].
  intros rb [= <-]. split; [|reflexivity]. unfold rb_wf. simpl. lia.
Qed.

Lemma initialised_example_high : initialised example_globals_high.
Proof.
  split; [reflexivity|]. split; [discriminate|].
  intros rb [= <-]. split; [|reflexivity]. unfold rb_wf. simpl. lia.
Qed.

Lemma initialised_example_session : initialised example_session.
Proof.
  split; [reflexivity|]. split; [discriminate|].
  intros rb [= <-]. split; [|reflexivity]. unfold rb_wf. simpl. lia.
Qed.





(** ** The flush on connect *)

(** C7: when a connection has been accepted, [handle_telnet_conn] first sets
    up the session and then, before the first [recv] of its loop, takes
    everything that waits in the log buffer out of it, chunk by chunk, and
    hands each chunk to [telnet_send_text]: the chunks put together are the
    buffer's contents, each byte once and in order, and the buffer is empty
    when the loop starts. *)
Theorem flush_on_connect recvs g rb :
  initialised g -> buf_handle g = Some rb -> partnerSocket g <> 0 ->
  exists pTelnetUserData g1 t,
    session_start g = Ret pTelnetUserData g1 t
    /\ sent_text t = rb_items rb
    /\ log_contents g1 = []
    /\ count_events is_recv t = 0%nat
    /\ handle_telnet_conn recvs g
       = after_trace t (session_loop pTelnetUserData recvs g1).
Proof.
  intros (Hsize & _ & Hinit) Hb Hp.
  destruct (Hinit _ Hb) as ((Hrd & _) & _).
  assert (Hstart : exists pTelnetUserData g1 t,
            session_start g = Ret pTelnetUserData g1 t
            /\ sent_text t = rb_items rb /\ log_contents g1 = []
            /\ count_events is_recv t = 0%nat).
  { unfold session_start, acquire, bind, modify, emit, get, ret. simpl.
    match goal with
    | |- context [process_logs 0 ?gs] =>
        destruct (process_logs_spec 0 gs rb Hb Hrd Hsize)
          as (rb' & t & Hrun & Hitems & _ & _ & Hsent & Hall & _);
        rewrite Hrun
    end.
    simpl in Hsent, Hall, Hitems.
    assert (Hk : drain_count
                   (set_held (((held g ++ [ResUserData]) ++ [ResTelnet]) ++ [ResRxbuf])
                             (set_tnHandle true
                                (set_held ((held g ++ [ResUserData]) ++ [ResTelnet])
                                   (set_held (held g ++ [ResUserData]) g))))
                   rb 0
                 = length (rb_items rb)).
    { unfold drain_count, low_water. simpl.
      destruct (Z.eqb_spec (partnerSocket g) 0); [contradiction|]. simpl.
      unfold uxItemsWaiting_of. lia. }
    unfold drain_count, low_water in Hk, Hitems, Hsent. simpl in Hk, Hitems, Hsent.
    rewrite Hk in Hitems, Hsent.
    destruct (Z.eqb_spec (partnerSocket g) 0); [contradiction|].
    rewrite firstn_all in Hsent. rewrite drop_all in Hitems.
    do 3 eexists. split; [reflexivity|].
    split; [simpl; rewrite app_nil_r; exact Hsent|].
    split; [unfold log_contents; simpl; exact Hitems|].
    unfold count_events. simpl. rewrite app_nil_r.
    rewrite (drain_events_only is_recv _ _ Hall); reflexivity. }
  destruct Hstart as (ud & g1 & t & Hrun & Hsent & Hempty & Hrecv).
  exists ud, g1, t. repeat split; try assumption.
  exact (bind_Ret session_start (fun u => session_loop u recvs) g ud g1 t Hrun).
Qed.

Lemma flush_on_connect_witness :
  exists pTelnetUserData g1 t,
    session_start example_session = Ret pTelnetUserData g1 t
    /\ sent_text t = str "abcd"
    /\ log_contents g1 = []
    /\ count_events is_recv t = 0%nat
    /\ handle_telnet_conn [] example_session
       = after_trace t (session_loop pTelnetUserData [] g1).
Proof.
  apply (flush_on_connect [] example_session example_buffer
           initialised_example_session eq_refl).
  discriminate.
Defined.

(** ** The producer's write path *)

Lemma xRingbufferSend_wf rb data rb' :
  xRingbufferSend rb data = Some rb' ->
  rb_items rb' = rb_items rb ++ data
  /\ rb_capacity rb' = rb_capacity rb /\ rb_read rb' = rb_read rb
  /\ (length (rb_items rb) <= rb_capacity rb -> length (rb_items rb') <= rb_capacity rb')%nat.
Proof.
  unfold xRingbufferSend.
  destruct (Nat.leb_spec (length data) (rb_capacity rb - length (rb_items rb)));
    [|discriminate].
  intros [= <-]. simpl. rewrite length_app. repeat split; lia.
Qed.

Lemma waited_ms_app t1 t2 : waited_ms (t1 ++ t2) = waited_ms t1 + waited_ms t2.
Proof.
  induction t1 as [|e t1 IH]; [reflexivity|].
  destruct e; simpl; rewrite ?IH; try reflexivity.
  - destruct ok; lia.
  - destruct item_size; lia.
Qed.

(** The incoming entry and the other arguments of [stdout_write] are fixed
    throughout. *)
Section WritePath.

Variables (wr fd : Z) (data : bytes).

Lemma ringbuffer_send_run g rb :
  buf_handle g = Some rb ->
  ringbuffer_send data g =
    match xRingbufferSend rb data with
    | Some rb' => Ret true (set_buf_handle (Some rb') g)
                      [EvRingbufferSend (Z.of_nat (length data)) 100 true]
    | None => Ret false g [EvRingbufferSend (Z.of_nat (length data)) 100 false]
    end.
Proof.
  intros Hb. unfold ringbuffer_send, bind, get. rewrite Hb.
  destruct (xRingbufferSend rb data); reflexivity.
Qed.

(** The write path when the entry does not fit: one pass of [process_logs],
    one more [xRingbufferSend]. *)
Lemma store_log_entry_overflow g rb :
  buf_handle g = Some rb -> (rb_read rb < rb_capacity rb)%nat -> 0 < log_buf_size g ->
  xRingbufferSend rb data = None ->
  exists rb1 rb2 t_drain,
    process_logs (Z.of_nat (length data)) g = Ret tt (set_buf_handle (Some rb1) g) t_drain
    /\ rb_items rb1 = drop (drain_count g rb (Z.of_nat (length data))) (rb_items rb)
    /\ sent_text t_drain
       = (if partnerSocket g =? 0 then []
          else take (drain_count g rb (Z.of_nat (length data))) (rb_items rb))
    /\ Forall (fun e => is_ringbuffer_receive e
                        || (negb (partnerSocket g =? 0) && is_send_text e) = true) t_drain
    /\ 0 <= waited_ms t_drain <= 50
    /\ store_log_entry data g
       = Ret tt (set_buf_handle (Some rb2) g)
           ([EvRingbufferSend (Z.of_nat (length data)) 100 false] ++ t_drain
            ++ [EvRingbufferSend (Z.of_nat (length data)) 100
                  (length data <=? rb_capacity rb - length (rb_items rb1))%nat]
            ++ (if (length data <=? rb_capacity rb - length (rb_items rb1))%nat then []
                else [EvPrintf "stdout_write() ABORT. Unable to store log entry in buffer"]))
    /\ rb_items rb2
       = (if (length data <=? rb_capacity rb - length (rb_items rb1))%nat
          then rb_items rb1 ++ data else rb_items rb1)
    /\ rb_capacity rb2 = rb_capacity rb
    /\ (rb_read rb2 < rb_capacity rb2)%nat.
Proof.
  intros Hb Hrd Hsize Hfull.
  destruct (process_logs_spec (Z.of_nat (length data)) g rb Hb Hrd Hsize)
    as (rb1 & t & Hrun & Hitems & Hcap & Hrd1 & Hsent & Hall & Hwait).
  assert (Hstore : forall rb2 t2 (b : bool),
             ringbuffer_send data (set_buf_handle (Some rb1) g)
             = Ret b (set_buf_handle (Some rb2) g) t2 ->
             store_log_entry data g
             = Ret tt (set_buf_handle (Some rb2) g)
                 ([EvRingbufferSend (Z.of_nat (length data)) 100 false] ++ t ++ t2
                  ++ (if b then []
                      else [EvPrintf "stdout_write() ABORT. Unable to store log entry in buffer"]))).
  { intros rb2 t2 b Hsend.
    pose proof (ringbuffer_send_run g rb Hb) as Hfirst. rewrite Hfull in Hfirst.
    unfold store_log_entry. rewrite bind_get, Hb.
    rewrite (bind_Ret _ _ _ _ _ _ Hfirst). cbv beta.
    change (negb false) with true. cbv iota.
    rewrite (bind_Ret _ _ _ _ _ _ Hrun).
    rewrite (bind_Ret _ _ _ _ _ _ Hsend).
    destruct b; simpl; rewrite ?app_nil_r; reflexivity. }
  pose proof (ringbuffer_send_run (set_buf_handle (Some rb1) g) rb1 eq_refl) as Hsend.
  unfold xRingbufferSend in Hsend. rewrite Hcap in Hsend.
  exists rb1.
  destruct (length data <=? rb_capacity rb - length (rb_items rb1))%nat eqn:Hfit.
  - eexists _, t. repeat (split; [eassumption|]).
    split; [|split; [|split]].
    + rewrite (Hstore _ _ _ Hsend). reflexivity.
    + reflexivity.
    + reflexivity.
    + simpl. lia.
  - rewrite <- (set_buf_handle_same (set_buf_handle (Some rb1) g) rb1 eq_refl) in Hsend at 2.
    exists rb1, t. repeat (split; [eassumption|]).
    split; [|split; [|split]].
    + rewrite (Hstore _ _ _ Hsend). reflexivity.
    + reflexivity.
    + lia.
    + lia.
Qed.

Lemma store_log_entry_total g :
  0 < log_buf_size g ->
  (forall rb, buf_handle g = Some rb -> (rb_read rb < rb_capacity rb)%nat) ->
  exists v t,
    store_log_entry data g = Ret tt (set_buf_handle v g) t
    /\ List.filter is_uart_write t = [].
Proof.
  intros Hsize Hwf. destruct (buf_handle g) as [rb|] eqn:Hb.
  - destruct (xRingbufferSend rb data) as [rb'|] eqn:Hsend.
    + exists (Some rb'), [EvRingbufferSend (Z.of_nat (length data)) 100 true].
      split; [|reflexivity].
      pose proof (ringbuffer_send_run g rb Hb) as Hfirst. rewrite Hsend in Hfirst.
      unfold store_log_entry. rewrite bind_get, Hb.
      rewrite (bind_Ret _ _ _ _ _ _ Hfirst). reflexivity.
    + destruct (store_log_entry_overflow g rb Hb (Hwf _ eq_refl) Hsize Hsend)
        as (rb1 & rb2 & t & _ & _ & _ & Hall & _ & Hrun & _).
      eexists (Some rb2), _. split; [exact Hrun|].
      rewrite !List.filter_app. rewrite (drain_events_only is_uart_write _ _ Hall);
        [|reflexivity|reflexivity].
      simpl. now destruct (length data <=? _)%nat.
  - exists None, [EvPrintf "stdout_write() ABORT. file handle _log_remote_fp is NULL"].
    split; [|reflexivity].
    unfold store_log_entry. rewrite bind_get, Hb.
    replace (set_buf_handle None g) with g; [reflexivity|].
    rewrite <- Hb. clear. destruct g; reflexivity.
Qed.

Lemma stdout_write_locked g g1 t1 :
  xSemaphore g = Some true ->
  store_log_entry data (set_xSemaphore (Some false) g) = Ret tt g1 t1 ->
  stdout_write wr fd data g
  = Ret (if bMirrorToUART g1 then wr else 1) (set_xSemaphore (Some true) g1)
      ([EvSemaphoreTake 10 true] ++ t1 ++ [EvSemaphoreGive]
       ++ (if bMirrorToUART g1 then [EvWrite (uart_fd g1) data] else [])).
Proof.
  intros Hsem Hstore. unfold stdout_write. rewrite bind_get, Hsem.
  assert (Hinner :
    (emit (EvSemaphoreTake 10 true);;
     modify (set_xSemaphore (Some false));;
     store_log_entry data;;
     emit EvSemaphoreGive;;
     modify (set_xSemaphore (Some true))) g
    = Ret tt (set_xSemaphore (Some true) g1) ([EvSemaphoreTake 10 true] ++ t1 ++ [EvSemaphoreGive])).
  { rewrite bind_emit, bind_modify. rewrite (bind_Ret _ _ _ _ _ _ Hstore).
    rewrite bind_emit. unfold bind, modify, emit. simpl. reflexivity. }
  rewrite (bind_Ret _ _ _ _ _ _ Hinner). rewrite bind_get.
  change (bMirrorToUART (set_xSemaphore (Some true) g1)) with (bMirrorToUART g1).
  change (uart_fd (set_xSemaphore (Some true) g1)) with (uart_fd g1).
  destruct (bMirrorToUART g1); simpl; rewrite <- ?app_assoc; reflexivity.
Qed.

Lemma stdout_write_not_locked g :
  xSemaphore g = Some false ->
  stdout_write wr fd data g
  = Ret (if bMirrorToUART g then wr else 1) g
      ([EvSemaphoreTake 10 false]
       ++ (if bMirrorToUART g then [EvWrite (uart_fd g) data] else [])).
Proof.
  intros Hsem. unfold stdout_write. rewrite bind_get, Hsem. run_c.
  destruct (bMirrorToUART g); reflexivity.
Qed.

(** C10: with UART mirroring on, every call of [stdout_write] issues exactly
    one [write] to the UART, of the whole incoming data, and returns what that
    [write] returned, whether the semaphore was obtained or not, and whether
    the entry went into the ring buffer or was dropped; with mirroring off it
    writes nothing to the UART and returns 1 ([true]). *)
Theorem stdout_write_uart_mirror g :
  initialised g ->
  exists g' t,
    stdout_write wr fd data g = Ret (if bMirrorToUART g then wr else 1) g' t
    /\ List.filter is_uart_write t
       = (if bMirrorToUART g then [EvWrite (uart_fd g) data] else []).
Proof.
  intros (Hsize & Hsem & Hinit).
  destruct (xSemaphore g) as [[|]|] eqn:Hs; [| |contradiction].
  - destruct (store_log_entry_total (set_xSemaphore (Some false) g)) as (v & t1 & Hrun & Hnone).
    + exact Hsize.
    + intros rb Hb. now destruct (Hinit rb Hb) as ((? & _) & _).
    + rewrite (stdout_write_locked _ _ _ Hs Hrun).
      change (bMirrorToUART (set_buf_handle v (set_xSemaphore (Some false) g)))
        with (bMirrorToUART g).
      change (uart_fd (set_buf_handle v (set_xSemaphore (Some false) g)))
        with (uart_fd g).
      do 2 eexists. split; [reflexivity|].
      simpl. rewrite !List.filter_app, Hnone. simpl.
      now destruct (bMirrorToUART g).
  - rewrite (stdout_write_not_locked _ Hs).
    do 2 eexists. split; [reflexivity|]. simpl. now destruct (bMirrorToUART g).
Qed.

(** C2, as amended: when the entry does not fit, [stdout_write] calls
    [process_logs] exactly once, with the incoming byte count, and then tries
    [xRingbufferSend] exactly once more.  The pass takes [drain_count] oldest
    bytes out of the buffer: none when no session is attached and the buffer is
    below the 75% mark, otherwise up to the incoming byte count; they go to the
    peer when a session is attached and are dropped when none is.  When the
    second attempt fails too, the entry is not stored, a diagnostic is printed,
    and the call returns as usual, with the semaphore given back.  The
    ring-buffer calls that ran into their timeout add up to 250 ms at most. *)
Theorem stdout_write_overflow g rb :
  initialised g -> xSemaphore g = Some true -> buf_handle g = Some rb ->
  xRingbufferSend rb data = None ->
  exists rb1 rb2 t_drain t,
    process_logs (Z.of_nat (length data)) (set_xSemaphore (Some false) g)
    = Ret tt (set_buf_handle (Some rb1) (set_xSemaphore (Some false) g)) t_drain
    /\ rb_items rb1 = drop (drain_count g rb (Z.of_nat (length data))) (rb_items rb)
    /\ sent_text t_drain
       = (if partnerSocket g =? 0 then []
          else take (drain_count g rb (Z.of_nat (length data))) (rb_items rb))
    /\ List.filter is_ringbuffer_send t_drain = []
    /\ stdout_write wr fd data g
       = Ret (if bMirrorToUART g then wr else 1)
           (set_xSemaphore (Some true)
              (set_buf_handle (Some rb2) (set_xSemaphore (Some false) g))) t
    /\ t = [EvSemaphoreTake 10 true; EvRingbufferSend (Z.of_nat (length data)) 100 false]
           ++ t_drain
           ++ [EvRingbufferSend (Z.of_nat (length data)) 100
                 (length data <=? rb_capacity rb - length (rb_items rb1))%nat]
           ++ (if (length data <=? rb_capacity rb - length (rb_items rb1))%nat then []
               else [EvPrintf "stdout_write() ABORT. Unable to store log entry in buffer"])
           ++ [EvSemaphoreGive]
           ++ (if bMirrorToUART g then [EvWrite (uart_fd g) data] else [])
    /\ rb_items rb2
       = (if (length data <=? rb_capacity rb - length (rb_items rb1))%nat
          then rb_items rb1 ++ data else rb_items rb1)
    /\ 0 <= waited_ms t <= 250.
Proof.
  intros (Hsize & _ & Hinit) Hsem Hb Hfull.
  destruct (Hinit _ Hb) as ((Hrd & _) & _).
  destruct (store_log_entry_overflow (set_xSemaphore (Some false) g) rb Hb Hrd Hsize Hfull)
    as (rb1 & rb2 & t_drain & Hpass & Hitems & Hsent & Hall & Hwait & Hrun & Hitems2 & _).
  exists rb1, rb2, t_drain. eexists.
  split; [exact Hpass|]. split; [exact Hitems|]. split; [exact Hsent|].
  split; [apply (drain_events_only is_ringbuffer_send _ _ Hall); reflexivity|].
  split; [rewrite (stdout_write_locked _ _ _ Hsem Hrun); reflexivity|].
  split; [simpl; rewrite <- !app_assoc; reflexivity|].
  split; [exact Hitems2|].
  change (bMirrorToUART (set_buf_handle (Some rb2) (set_xSemaphore (Some false) g)))
    with (bMirrorToUART g).
  rewrite !waited_ms_app.
  destruct (length data <=? rb_capacity rb - length (rb_items rb1))%nat;
    destruct (bMirrorToUART g); simpl; lia.
Qed.

End WritePath.

Lemma stdout_write_uart_mirror_witness :
  exists g' t,
    stdout_write 5 1 (str "12345") (set_bMirrorToUART true example_globals)
    = Ret 5 g' t
    /\ List.filter is_uart_write t = [EvWrite 0 (str "12345")].
Proof.
  apply (stdout_write_uart_mirror 5 1 (str "12345") (set_bMirrorToUART true example_globals)).
  split; [reflexivity|]. split; [discriminate|].
  intros rb [= <-]. split; [|reflexivity]. unfold rb_wf. simpl. lia.
Defined.

Lemma stdout_write_overflow_witness :
  exists g' t, stdout_write 0 1 (str "12345") example_globals = Ret 1 g' t
               /\ 0 <= waited_ms t <= 250.
Proof.
  destruct (stdout_write_overflow 0 1 (str "12345") example_globals example_buffer
              initialised_example eq_refl eq_refl eq_refl)
    as (rb1 & rb2 & t_drain & t & _ & _ & _ & _ & Hrun & _ & _ & Hwait).
  eexists; exists t. split; [exact Hrun | exact Hwait].
Defined.

(** C2, as stated, fails.  With no session attached and the buffer half
    full, an entry that does not fit forces no drain: nothing is received from
    the ring buffer, the buffer keeps "abcd" and the entry is lost.  With a
    session attached the oldest bytes are taken out but not discarded: they are
    handed to [telnet_send_text]. *)
Lemma stdout_write_overflow_counterexample :
  stdout_write 0 1 (str "12345") example_globals
  = Ret 1 example_globals
      [EvSemaphoreTake 10 true; EvRingbufferSend 5 100 false;
       EvRingbufferSend 5 100 false;
       EvPrintf "stdout_write() ABORT. Unable to store log entry in buffer";
       EvSemaphoreGive]
  /\ stdout_write 0 1 (str "12345") (set_partnerSocket 54 example_globals)
     = Ret 1 (set_buf_handle (Some (mkRingbuf 8 4 (str "12345")))
                (set_partnerSocket 54 example_globals))
         [EvSemaphoreTake 10 true; EvRingbufferSend 5 100 false;
          EvRingbufferReceiveUpTo 50 5 (Some 4); EvTelnetSendText (str "abcd");
          EvRingbufferReceiveUpTo 50 1 None;
          EvRingbufferSend 5 100 true; EvSemaphoreGive].
Proof. split; vm_compute; reflexivity. Qed.

(** ** Session teardown *)

(** What the loop does when [recv] brings no data and [errno] is neither
    [EAGAIN] nor [EWOULDBLOCK]: it ends in that round, with the protocol
    engine, the scratch buffer and the user data freed and the partner slot
    cleared; every socket the process held is still held. *)
Lemma session_loop_fatal pTelnetUserData r recvs g :
  rcv_len r <= 0 -> rcv_errno r <> EAGAIN -> rcv_errno r <> EWOULDBLOCK ->
  session_loop pTelnetUserData (r :: recvs) g
  = Ret SessionEnded (torn_down g)
      [EvRecv (partnerSocket g) (rcv_len r) (rcv_errno r); EvTelnetFree]
  /\ partnerSocket (torn_down g) = 0
  /\ tnHandle (torn_down g) = false
  /\ ~ In ResTelnet (held (torn_down g))
  /\ ~ In ResRxbuf (held (torn_down g))
  /\ ~ In ResUserData (held (torn_down g))
  /\ forall fd, In (ResSocket fd) (held g) -> In (ResSocket fd) (held (torn_down g)).
Proof.
  intros Hlen He1 He2. split; [|split; [reflexivity|split; [reflexivity|]]].
  - simpl. run_c.
    destruct (Z.gtb_spec (rcv_len r) 0); [lia|].
    destruct (Z.eqb_spec (rcv_errno r) EAGAIN); [contradiction|].
    destruct (Z.eqb_spec (rcv_errno r) EWOULDBLOCK); [contradiction|].
    reflexivity.
  - unfold torn_down. simpl. rewrite !List.filter_In.
    repeat split.
    + intros (((_ & H) & _) & _). discriminate H.
    + intros ((_ & H) & _). discriminate H.
    + intros (_ & H). discriminate H.
    + intros fd Hin. rewrite !List.filter_In.
      repeat split; try assumption; reflexivity.
Qed.

(** C5 at the failing input: a session on socket 54 whose peer closes the
    connection ([recv] returns 0 with [ENOTCONN]).  The loop ends in that
    round; the engine, the scratch buffer and the user data are released and
    [partnerSocket] is 0, but no [close] is issued and socket 54 is still held
    by the process, next to the listener's socket 53. *)
Theorem session_teardown_keeps_socket_open :
  handle_telnet_conn [mkRecv 0 ENOTCONN [] []] example_session
  = Ret SessionEnded
      (set_partnerSocket 0 (set_buf_handle (Some (mkRingbuf 8 4 [])) example_session))
      [EvTelnetInit my_telopts; EvRingbufferReceiveUpTo 50 4 (Some 4);
       EvTelnetSendText (str "abcd");
       EvRecv 54 0 ENOTCONN; EvTelnetFree]
  /\ held (set_partnerSocket 0 (set_buf_handle (Some (mkRingbuf 8 4 [])) example_session))
     = [ResSocket 53; ResSocket 54].
Proof. split; vm_compute; reflexivity. Qed.

(** ** The option table *)

(** C4, as amended: the table refuses echo locally and agrees when the peer
    offers it; it offers terminal-type locally (and refuses the peer's offer);
    it refuses compression, ZMP, MSSP and line-mode locally (and agrees when
    the peer offers them); it offers binary transmission and agrees to the
    peer's; it offers window-size negotiation locally and refuses the peer's
    offer. *)
Theorem my_telopts_stances :
  local_stance my_telopts TELNET_TELOPT_ECHO = Some Refuse
  /\ peer_stance my_telopts TELNET_TELOPT_ECHO = Some Agree
  /\ local_stance my_telopts TELNET_TELOPT_TTYPE = Some Offer
  /\ peer_stance my_telopts TELNET_TELOPT_TTYPE = Some Refuse
  /\ local_stance my_telopts TELNET_TELOPT_COMPRESS2 = Some Refuse
  /\ peer_stance my_telopts TELNET_TELOPT_COMPRESS2 = Some Agree
  /\ local_stance my_telopts TELNET_TELOPT_ZMP = Some Refuse
  /\ peer_stance my_telopts TELNET_TELOPT_ZMP = Some Agree
  /\ local_stance my_telopts TELNET_TELOPT_MSSP = Some Refuse
  /\ peer_stance my_telopts TELNET_TELOPT_MSSP = Some Agree
  /\ local_stance my_telopts TELNET_TELOPT_BINARY = Some Offer
  /\ peer_stance my_telopts TELNET_TELOPT_BINARY = Some Agree
  /\ local_stance my_telopts TELNET_TELOPT_NAWS = Some Offer
  /\ peer_stance my_telopts TELNET_TELOPT_NAWS = Some Refuse
  /\ local_stance my_telopts TELNET_TELOPT_LINEMODE = Some Refuse
  /\ peer_stance my_telopts TELNET_TELOPT_LINEMODE = Some Agree.
Proof. repeat split. Qed.

(** C4, as stated, fails: when the peer offers echo the table's answer is
    [TELNET_DO], an agreement, not a refusal. *)
Lemma echo_peer_offer_counterexample :
  find_telopt my_telopts TELNET_TELOPT_ECHO
  = Some (mkTelopt TELNET_TELOPT_ECHO TELNET_WONT TELNET_DO)
  /\ peer_stance my_telopts TELNET_TELOPT_ECHO <> Some Refuse.
Proof. split; [reflexivity | discriminate]. Qed.

(** ** Configured sizes *)

Lemma atol_range s : LONG_MIN <= atol s <= LONG_MAX.
Proof. unfold atol, LONG_MIN, LONG_MAX. lia. Qed.

Lemma size_of_atol_positive s : (to_size_t (atol s) >? 0) = negb (atol s =? 0).
Proof.
  pose proof (atol_range s) as Hr. unfold LONG_MIN, LONG_MAX in Hr.
  unfold to_size_t, SIZE_T_MOD.
  pose proof (Z.mod_pos_bound (atol s) (2 ^ 32) ltac:(lia)) as Hm.
  pose proof (Z.div_mod (atol s) (2 ^ 32) ltac:(lia)) as Hd.
  destruct (Z.eqb_spec (atol s) 0) as [->|Hne]; [reflexivity|].
  simpl negb. destruct (Z.gtb_spec (atol s mod 2 ^ 32) 0); [reflexivity|].
  exfalso. lia.
Qed.

(** [init_telnet] with telnet enabled, from the state the program starts
    in. *)
Lemma init_telnet_enabled nvs ringbuf_created uart_open val :
  nvs !! "telnet_enable"%string = Some val ->
  str val <> [] ->
  strcasestr (str "YXD") (str val) = true ->
  exists g' t,
    init_telnet nvs ringbuf_created uart_open initial_globals = Ret tt g' t
    /\ send_chunk g'
       = match nvs !! "telnet_block"%string with
         | None => 300
         | Some v => if atol (str v) =? 0 then 500 else to_size_t (atol (str v))
         end
    /\ log_buf_size g'
       = match nvs !! "telnet_buffer"%string with
         | None => 2000
         | Some v => if atol (str v) =? 0 then 4000 else to_size_t (atol (str v))
         end
    /\ xSemaphore g' = Some true
    /\ buf_handle g'
       = (if ringbuf_created
          then Some (mkRingbuf (Z.to_nat (log_buf_size g')) 0 []) else None)
    /\ bIsEnabled g' = ringbuf_created
    /\ bMirrorToUART g' = strcasestr (str "D") (str val)
    /\ partnerSocket g' = 0.
Proof.
  intros Henable Hne Hyxd. unfold init_telnet. rewrite Henable, Hyxd.
  destruct (str val) as [|c0 s0] eqn:Hval; [contradiction|].
  change ((length (c0 :: s0) =? 0)%nat || negb true) with false. cbv iota.
  rewrite bind_modify.
  assert (Hfinish : forall (g1 : globals) sc lb,
            send_chunk g1 = sc -> log_buf_size g1 = lb ->
            xSemaphore g1 = Some true ->
            bMirrorToUART g1 = strcasestr (str "D") (c0 :: s0) ->
            partnerSocket g1 = 0 ->
            buf_handle g1 = None -> bIsEnabled g1 = false ->
            exists g' t,
              (do g <- get;
               if negb ringbuf_created then
                 modify (set_buf_handle None);;
                 emit (EvPrintf "Failed to create ring buffer for telnet!")
               else
                 modify (set_buf_handle (Some (mkRingbuf (Z.to_nat (log_buf_size g)) 0 [])));;
                 emit (EvPrintf "***Redirecting log output to telnet");;
                 (if bMirrorToUART g then modify (set_uart_fd uart_open) else ret tt);;
                 emit EvVfsRegister;;
                 modify (set_bIsEnabled true)) g1 = Ret tt g' t
              /\ send_chunk g' = sc /\ log_buf_size g' = lb
              /\ xSemaphore g' = Some true
              /\ buf_handle g'
                 = (if ringbuf_created
                    then Some (mkRingbuf (Z.to_nat (log_buf_size g')) 0 []) else None)
              /\ bIsEnabled g' = ringbuf_created
              /\ bMirrorToUART g' = strcasestr (str "D") (c0 :: s0)
              /\ partnerSocket g' = 0).
  { intros g1 sc lb Hsc Hlb Hsem Hmirror Hpartner Hbuf Hen. rewrite bind_get.
    destruct ringbuf_created;
      [change (negb true) with false | change (negb false) with true]; cbv iota.
    - rewrite bind_modify, bind_emit.
      destruct (bMirrorToUART g1) eqn:Hm.
      + rewrite bind_modify, bind_emit. do 2 eexists. split; [reflexivity|].
        cbn. rewrite Hm. now repeat split.
      + rewrite bind_ret, bind_emit. do 2 eexists. split; [reflexivity|].
        cbn. rewrite Hm. now repeat split.
    - rewrite bind_modify. do 2 eexists. split; [reflexivity|]. repeat split; assumption. }
  destruct (nvs !! "telnet_block"%string) as [vb|];
    destruct (nvs !! "telnet_buffer"%string) as [vl|];
    repeat (rewrite bind_modify || rewrite bind_ret); cbv beta;
    apply Hfinish; cbn [send_chunk log_buf_size set_send_chunk set_log_buf_size
                        set_bMirrorToUART set_xSemaphore initial_globals
                        xSemaphore bMirrorToUART partnerSocket buf_handle bIsEnabled];
    rewrite ?size_of_atol_positive;
    try destruct (atol (str vb) =? 0); try destruct (atol (str vl) =? 0); reflexivity.
Qed.

(** C6, as amended: after [init_telnet] has found telnet enabled, a
    send-chunk or buffer-capacity value that is stored but is zero or not a
    number ([atol] yields 0) gives the default 500, respectively 4000; a value
    that is absent leaves the built-in 300, respectively 2000, in effect; any
    other stored value is taken as it is, converted to [size_t]. *)
Theorem init_telnet_sizes nvs ringbuf_created uart_open val :
  nvs !! "telnet_enable"%string = Some val ->
  str val <> [] ->
  strcasestr (str "YXD") (str val) = true ->
  exists g' t,
    init_telnet nvs ringbuf_created uart_open initial_globals = Ret tt g' t
    /\ send_chunk g'
       = match nvs !! "telnet_block"%string with
         | None => 300
         | Some v => if atol (str v) =? 0 then 500 else to_size_t (atol (str v))
         end
    /\ log_buf_size g'
       = match nvs !! "telnet_buffer"%string with
         | None => 2000
         | Some v => if atol (str v) =? 0 then 4000 else to_size_t (atol (str v))
         end.
Proof.
  intros Henable Hne Hyxd.
  destruct (init_telnet_enabled nvs ringbuf_created uart_open val Henable Hne Hyxd)
    as (g' & t & Hrun & Hchunk & Hsize & _).
  exists g', t. auto.
Qed.

Lemma init_telnet_sizes_witness :
  exists g' t,
    init_telnet (<["telnet_block"%string := "0"%string]>
                   (<["telnet_buffer"%string := "abc"%string]>
                      (<["telnet_enable"%string := "Y"%string]> ∅)))
                true 3 initial_globals = Ret tt g' t
    /\ send_chunk g' = 500 /\ log_buf_size g' = 4000.
Proof.
  destruct (init_telnet_sizes
              (<["telnet_block"%string := "0"%string]>
                 (<["telnet_buffer"%string := "abc"%string]>
                    (<["telnet_enable"%string := "Y"%string]> ∅)))
              true 3 "Y"%string)
    as (g' & t & Hrun & Hchunk & Hsize).
  - reflexivity.
  - discriminate.
  - reflexivity.
  - exists g', t. split; [exact Hrun|]. split; [exact Hchunk | exact Hsize].
Defined.

(** C6, as stated, fails: with telnet enabled and neither value stored, the
    send chunk is 300 and the buffer capacity 2000 after initialisation, not
    500 and 4000. *)
Lemma init_telnet_absent_sizes_counterexample :
  let r := init_telnet (<["telnet_enable"%string := "Y"%string]> ∅) true 3 initial_globals in
  option_map send_chunk (final_globals r) = Some 300
  /\ option_map log_buf_size (final_globals r) = Some 2000
  /\ option_map bIsEnabled (final_globals r) = Some true.
Proof. repeat split. Qed.

(** ** The invariant of an initialised module *)

Lemma init_telnet_initialised nvs uart_open val :
  nvs !! "telnet_enable"%string = Some val ->
  str val <> [] ->
  strcasestr (str "YXD") (str val) = true ->
  exists g' t,
    init_telnet nvs true uart_open initial_globals = Ret tt g' t
    /\ initialised g' /\ bIsEnabled g' = true /\ log_contents g' = [].
Proof.
  intros Henable Hne Hyxd.
  destruct (init_telnet_enabled nvs true uart_open val Henable Hne Hyxd)
    as (g' & t & Hrun & _ & Hsize & Hsem & Hbuf & Hen & _).
  exists g', t. split; [exact Hrun|].
  assert (Hpos : 0 < log_buf_size g').
  { rewrite Hsize. destruct (nvs !! "telnet_buffer"%string) as [v|]; [|reflexivity].
    pose proof (size_of_atol_positive (str v)) as Hv.
    destruct (atol (str v) =? 0); [reflexivity|].
    simpl in Hv. now apply Z.gtb_lt in Hv. }
  split; [|split; [exact Hen | unfold log_contents; now rewrite Hbuf]].
  split; [exact Hpos|]. split; [rewrite Hsem; discriminate|].
  intros rb Hrb. rewrite Hbuf in Hrb. injection Hrb as <-.
  split; [|simpl; lia]. unfold rb_wf. simpl. lia.
Qed.

Lemma initialised_set_buf_handle g rb rb' :
  initialised g -> buf_handle g = Some rb ->
  rb_capacity rb' = rb_capacity rb -> (rb_read rb' < rb_capacity rb')%nat ->
  (length (rb_items rb') <= rb_capacity rb')%nat ->
  initialised (set_buf_handle (Some rb') g).
Proof.
  intros (Hsize & Hsem & Hinit) Hb Hcap Hrd Hlen.
  destruct (Hinit _ Hb) as (_ & Hcapeq).
  split; [exact Hsize|]. split; [exact Hsem|].
  intros rb0 [= <-]. split; [split; assumption|]. simpl. now rewrite Hcap.
Qed.

Lemma process_logs_initialised count g rb :
  initialised g -> buf_handle g = Some rb ->
  exists g' t, process_logs count g = Ret tt g' t /\ initialised g'.
Proof.
  intros Hg Hb. pose proof Hg as (Hsize & _ & Hinit).
  destruct (Hinit _ Hb) as ((Hrd & Hlen) & _).
  destruct (process_logs_spec count g rb Hb Hrd Hsize)
    as (rb' & t & Hrun & Hitems & Hcap & Hrd' & _).
  eexists; exists t. split; [exact Hrun|].
  apply (initialised_set_buf_handle g rb rb' Hg Hb Hcap Hrd').
  rewrite Hitems, length_drop, Hcap. lia.
Qed.

Lemma initialised_set_xSemaphore g b :
  initialised g -> initialised (set_xSemaphore (Some b) g).
Proof.
  intros (Hsize & _ & Hinit). split; [exact Hsize|]. split; [discriminate|]. exact Hinit.
Qed.

Lemma store_log_entry_initialised data g :
  initialised g ->
  exists g' t, store_log_entry data g = Ret tt g' t /\ initialised g'.
Proof.
  intros Hg. pose proof Hg as (Hsize & _ & Hinit).
  destruct (buf_handle g) as [rb|] eqn:Hb.
  - destruct (Hinit _ eq_refl) as ((Hrd & Hlen) & _).
    destruct (xRingbufferSend rb data) as [rb'|] eqn:Hsend.
    + pose proof (ringbuffer_send_run data g rb Hb) as Hfirst. rewrite Hsend in Hfirst.
      destruct (xRingbufferSend_wf _ _ _ Hsend) as (_ & Hcap & Hrd' & Hlen').
      do 2 eexists. split.
      * unfold store_log_entry. rewrite bind_get, Hb.
        rewrite (bind_Ret _ _ _ _ _ _ Hfirst). reflexivity.
      * apply (initialised_set_buf_handle g rb rb' Hg Hb Hcap); [|auto].
        rewrite Hrd', Hcap. exact Hrd.
    + destruct (store_log_entry_overflow data g rb Hb Hrd Hsize Hsend)
        as (rb1 & rb2 & t & _ & Hitems1 & _ & _ & _ & Hrun & Hitems2 & Hcap & Hrd2).
      do 2 eexists. split; [exact Hrun|].
      apply (initialised_set_buf_handle g rb rb2 Hg Hb Hcap Hrd2).
      assert (Hlen1 : (length (rb_items rb1) <= rb_capacity rb)%nat)
        by (rewrite Hitems1, length_drop; lia).
      rewrite Hitems2, Hcap.
      destruct (Nat.leb_spec (length data) (rb_capacity rb - length (rb_items rb1))).
      * rewrite length_app. lia.
      * exact Hlen1.
  - do 2 eexists. split.
    + unfold store_log_entry. rewrite bind_get, Hb. reflexivity.
    + exact Hg.
Qed.

(** Every call of [stdout_write] on an initialised module returns and leaves
    the module initialised. *)
Lemma stdout_write_initialised wr fd data g :
  initialised g ->
  exists r g' t, stdout_write wr fd data g = Ret r g' t /\ initialised g'.
Proof.
  intros Hg. pose proof Hg as (_ & Hsem & _).
  destruct (xSemaphore g) as [[|]|] eqn:Hs; [| |contradiction].
  - destruct (store_log_entry_initialised data (set_xSemaphore (Some false) g))
      as (g1 & t1 & Hrun & Hg1); [now apply initialised_set_xSemaphore|].
    rewrite (stdout_write_locked _ _ _ _ _ _ Hs Hrun).
    do 3 eexists. split; [reflexivity|]. now apply initialised_set_xSemaphore.
  - rewrite (stdout_write_not_locked _ _ _ _ Hs).
    do 3 eexists. split; [reflexivity | exact Hg].
Qed.

(** Two sessions that end by the peer closing the connection leave both of
    their sockets open next to the listener's. *)
Lemma telnet_task_keeps_sockets_open debug :
  option_map held
    (final_globals
       (telnet_task debug 53 0 0
          [mkConnection 54 [mkRecv 0 ENOTCONN [] []];
           mkConnection 55 [mkRecv 0 ENOTCONN [] []]]
          example_globals))
  = Some [ResSocket 53; ResSocket 54; ResSocket 55].
Proof. destruct debug; vm_compute; reflexivity. Qed.

(** * Further properties of the code *)

(** ** process_received_data on other payloads *)

(** X1: a payload that does not begin with the escape character is never
    altered, whatever it holds further on ('n' bytes, escape characters): unless
    its first byte is CR or LF, [run_command] gets the whole payload,
    NUL-terminated, and the UART gets it when mirroring is on; the module's
    variables stay as they were. *)
Theorem plain_payload_is_the_command g ch payload beyond :
  ch <> ESC ->
  Z.of_nat (length (ch :: payload)) < SIZE_T_MOD - 1 ->
  process_received_data ((ch :: payload) ++ beyond) (Z.of_nat (length (ch :: payload))) g
  = Ret tt g
      (if negb (Ascii.eqb ch CR) && negb (Ascii.eqb ch LF)
       then (if bMirrorToUART g then [EvWrite (uart_fd g) (ch :: payload)] else [])
            ++ [EvRunCommand ((ch :: payload) ++ [NUL])]
       else []).
Proof.
  intros Hesc Hlen.
  assert (Hscrub : scrub ((ch :: payload) ++ beyond) (Z.of_nat (length (ch :: payload)))
                   = Some ((ch :: payload) ++ beyond, Z.of_nat (length (ch :: payload)))).
  { change ((ch :: payload) ++ beyond) with (ch :: payload ++ beyond).
    unfold scrub. now rewrite (ascii_eqb_false _ _ Hesc). }
  rewrite (process_received_data_stripped g _ _ _ _ Hscrub).
  - cbv zeta. rewrite Nat2Z.id, take_app_length. reflexivity.
  - unfold to_size_t. rewrite Z.mod_small by (unfold SIZE_T_MOD in *; lia). lia.
  - rewrite length_app. lia.
Qed.

Lemma plain_payload_is_the_command_witness :
  process_received_data (str "info an" ++ [ESC; CR]) 9 initial_globals
  = Ret tt initial_globals [EvRunCommand (str "info an" ++ [ESC; CR; NUL])].
Proof.
  apply (plain_payload_is_the_command initial_globals "i"%char (str "nfo an" ++ [ESC; CR]) []).
  - discriminate.
  - vm_compute. reflexivity.
Defined.

(** X2: an escape sequence with nothing behind its 'n' (such as the cursor
    query ESC "[6n") is not dropped: [run_command] is still called, with the
    empty string, and with mirroring on a write of no bytes goes to the
    UART. *)
Theorem bare_escape_sequence_runs_empty_command g pre beyond :
  Forall (fun ch => ch <> CHAR_n) pre ->
  Z.of_nat (length (ESC :: pre ++ [CHAR_n])) < SIZE_T_MOD - 1 ->
  process_received_data ((ESC :: pre ++ [CHAR_n]) ++ beyond)
                        (Z.of_nat (length (ESC :: pre ++ [CHAR_n]))) g
  = Ret tt g ((if bMirrorToUART g then [EvWrite (uart_fd g) []] else [])
              ++ [EvRunCommand [NUL]]).
Proof.
  intros Hpre Hlen.
  pose proof (scrub_escape pre [] beyond Hpre ltac:(lia)) as Hscrub.
  rewrite (process_received_data_stripped g _ _ _ _ Hscrub).
  - reflexivity.
  - unfold to_size_t. rewrite Z.mod_small by (unfold SIZE_T_MOD in *; lia).
    simpl length. lia.
  - simpl length. lia.
Qed.

Lemma bare_escape_sequence_runs_empty_command_witness :
  process_received_data (ESC :: str "[6n") 4 (set_bMirrorToUART true initial_globals)
  = Ret tt (set_bMirrorToUART true initial_globals) [EvWrite 0 []; EvRunCommand [NUL]].
Proof.
  apply (bare_escape_sequence_runs_empty_command
           (set_bMirrorToUART true initial_globals) (str "[6") []).
  - repeat constructor; discriminate.
  - vm_compute. reflexivity.
Defined.

(** ** Telnet events *)

Lemma bind_Ret_inv {A B} (m : M A) (k : A -> M B) g b g2 t :
  bind m k g = Ret b g2 t ->
  exists a g1 t1 t2, m g = Ret a g1 t1 /\ k a g1 = Ret b g2 t2 /\ t = t1 ++ t2.
Proof.
  unfold bind. destruct (m g) as [a g1 t1| |]; [|discriminate|discriminate].
  destruct (k a g1) as [b' g2' t2| |] eqn:Hk; [|discriminate|discriminate].
  intros [= -> -> <-]. exists a, g1, t1, t2. auto.
Qed.

(** [process_received_data] reads the module's variables and calls the UART
    and the command interpreter; that is all it does. *)
Lemma process_received_data_effects buffer size g g' t :
  process_received_data buffer size g = Ret tt g' t ->
  g' = g /\ Forall (fun e => is_uart_write e || is_run_command e = true) t.
Proof.
  unfold process_received_data.
  destruct (scrub buffer size) as [[c size']|]; [|discriminate].
  destruct (fill_command _ c size') as [command|]; [|discriminate].
  destruct (is_command command).
  - unfold bind, get, emit, ret. destruct (bMirrorToUART g); simpl;
      intros [= <- <-]; split; try reflexivity; repeat constructor.
  - intros [= <- <-]. split; [reflexivity | constructor].
Qed.

(** X5: [eventToString] gives every event type a name of its own. *)
Theorem eventToString_injective a b :
  eventToString a = eventToString b -> a = b.
Proof. destruct a, b; intros H; try reflexivity; discriminate H. Qed.

Lemma eventToString_injective_witness : TELNET_EV_TTYPE = TELNET_EV_TTYPE.
Proof. apply (eventToString_injective TELNET_EV_TTYPE TELNET_EV_TTYPE). reflexivity. Defined.

(** ** Draining to the peer *)

Lemma drain_count_session g rb count :
  partnerSocket g <> 0 -> 0 < count ->
  drain_count g rb count = Nat.min (Z.to_nat count) (length (rb_items rb)).
Proof.
  intros Hp Hc. unfold drain_count, low_water.
  destruct (Z.eqb_spec (partnerSocket g) 0); [contradiction|]. simpl.
  destruct (Z.eqb_spec count 0); [lia | reflexivity].
Qed.

(** X6: with a session attached, [process_logs(count)] for a positive
    [count] hands the peer the oldest bytes of the buffer, as many as [count]
    allows and the buffer holds, and leaves the others in the buffer: no byte
    is lost, repeated or put out of order, and nothing but the buffer
    changes. *)
Theorem drain_to_peer_is_fifo count g rb :
  initialised g -> buf_handle g = Some rb -> partnerSocket g <> 0 -> 0 < count ->
  exists rb' t,
    process_logs count g = Ret tt (set_buf_handle (Some rb') g) t
    /\ sent_text t ++ rb_items rb' = rb_items rb
    /\ length (sent_text t) = Nat.min (Z.to_nat count) (length (rb_items rb))
    /\ rb_capacity rb' = rb_capacity rb.
Proof.
  intros (Hsize & _ & Hinit) Hb Hp Hcount.
  destruct (Hinit _ Hb) as ((Hrd & _) & _).
  destruct (process_logs_spec count g rb Hb Hrd Hsize)
    as (rb' & t & Hrun & Hitems & Hcap & _ & Hsent & _).
  rewrite (drain_count_session _ _ _ Hp Hcount) in Hitems, Hsent.
  destruct (Z.eqb_spec (partnerSocket g) 0); [contradiction|].
  exists rb', t. split; [exact Hrun|].
  rewrite Hsent, Hitems. split; [apply take_drop|].
  split; [|exact Hcap]. rewrite length_take. lia.
Qed.

Lemma drain_to_peer_is_fifo_witness :
  exists rb' t,
    process_logs 3 example_session = Ret tt (set_buf_handle (Some rb') example_session) t
    /\ sent_text t ++ rb_items rb' = str "abcd"
    /\ length (sent_text t) = 3%nat
    /\ rb_capacity rb' = 8%nat.
Proof.
  apply (drain_to_peer_is_fifo 3 example_session example_buffer
           initialised_example_session eq_refl); [discriminate | reflexivity].
Defined.

(** ** More on the producer's write path *)

Lemma store_log_entry_fits data g rb rb' :
  buf_handle g = Some rb -> xRingbufferSend rb data = Some rb' ->
  store_log_entry data g
  = Ret tt (set_buf_handle (Some rb') g) [EvRingbufferSend (Z.of_nat (length data)) 100 true].
Proof.
  intros Hb Hsend.
  pose proof (ringbuffer_send_run data g rb Hb) as Hfirst. rewrite Hsend in Hfirst.
  unfold store_log_entry. rewrite bind_get, Hb.
  rewrite (bind_Ret _ _ _ _ _ _ Hfirst). reflexivity.
Qed.

Lemma xRingbufferSend_fits rb data :
  (length data <= rb_capacity rb - length (rb_items rb))%nat ->
  xRingbufferSend rb data
  = Some (mkRingbuf (rb_capacity rb) (rb_read rb) (rb_items rb ++ data)).
Proof.
  intros H. unfold xRingbufferSend.
  destruct (Nat.leb_spec (length data) (rb_capacity rb - length (rb_items rb))); [reflexivity | lia].
Qed.

Lemma xRingbufferSend_full rb data :
  xRingbufferSend rb data = None ->
  (rb_capacity rb - length (rb_items rb) < length data)%nat.
Proof.
  unfold xRingbufferSend.
  destruct (Nat.leb_spec (length data) (rb_capacity rb - length (rb_items rb)));
    [discriminate | auto].
Qed.

Lemma set_xSemaphore_back g v :
  xSemaphore g = Some true ->
  set_xSemaphore (Some true) (set_buf_handle v (set_xSemaphore (Some false) g))
  = set_buf_handle v g.
Proof. destruct g; simpl; intros ->; reflexivity. Qed.

(** X7: a log entry that fits is kept whole and in order: with a session
    attached, [stdout_write] followed by the flush [process_logs(0)] hands the
    peer what was waiting before, followed by exactly the bytes written, and
    leaves the buffer empty. *)
Theorem write_then_flush_round_trip wr fd data g rb :
  initialised g -> xSemaphore g = Some true -> buf_handle g = Some rb ->
  partnerSocket g <> 0 ->
  (length data <= rb_capacity rb - length (rb_items rb))%nat ->
  exists g' t,
    (do r <- stdout_write wr fd data; process_logs 0;; ret r) g
    = Ret (if bMirrorToUART g then wr else 1) g' t
    /\ sent_text t = rb_items rb ++ data
    /\ log_contents g' = []
    /\ same_config g g'.
Proof.
  intros (Hsize & Hsem0 & Hinit) Hsem Hb Hp Hfit.
  destruct (Hinit _ Hb) as ((Hrd & _) & _).
  set (rb1 := mkRingbuf (rb_capacity rb) (rb_read rb) (rb_items rb ++ data)).
  pose proof (store_log_entry_fits data (set_xSemaphore (Some false) g) rb rb1 Hb
                (xRingbufferSend_fits rb data Hfit)) as Hstore.
  pose proof (stdout_write_locked wr fd data g _ _ Hsem Hstore) as Hwrite.
  rewrite (set_xSemaphore_back g _ Hsem) in Hwrite.
  change (bMirrorToUART (set_buf_handle (Some rb1) (set_xSemaphore (Some false) g)))
    with (bMirrorToUART g) in Hwrite.
  change (uart_fd (set_buf_handle (Some rb1) (set_xSemaphore (Some false) g)))
    with (uart_fd g) in Hwrite.
  destruct (process_logs_spec 0 (set_buf_handle (Some rb1) g) rb1 eq_refl Hrd Hsize)
    as (rb' & t & Hrun & Hitems & _ & _ & Hsent & _).
  assert (Hk : drain_count (set_buf_handle (Some rb1) g) rb1 0 = length (rb_items rb1)).
  { unfold drain_count, low_water. simpl.
    destruct (Z.eqb_spec (partnerSocket g) 0); [contradiction|]. simpl.
    unfold uxItemsWaiting_of. simpl. lia. }
  rewrite Hk in Hitems, Hsent. simpl in Hsent.
  destruct (Z.eqb_spec (partnerSocket g) 0); [contradiction|].
  rewrite firstn_all in Hsent. rewrite drop_all in Hitems.
  rewrite (bind_Ret _ _ _ _ _ _ Hwrite). rewrite (bind_Ret _ _ _ _ _ _ Hrun).
  unfold ret. simpl after_trace.
  do 2 eexists. split; [reflexivity|].
  split.
  - destruct (bMirrorToUART g); simpl; rewrite ?app_nil_r; exact Hsent.
  - split; [unfold log_contents; simpl; exact Hitems|].
    repeat split.
Qed.

Lemma write_then_flush_round_trip_witness :
  exists g' t,
    (do r <- stdout_write 0 1 (str "xyz"); process_logs 0;; ret r) example_session
    = Ret 1 g' t
    /\ sent_text t = str "abcd" ++ str "xyz"
    /\ log_contents g' = []
    /\ same_config example_session g'.
Proof.
  apply (write_then_flush_round_trip 0 1 (str "xyz") example_session example_buffer
           initialised_example_session eq_refl eq_refl); [discriminate | simpl; lia].
Defined.

Lemma sent_text_app t1 t2 : sent_text (t1 ++ t2) = sent_text t1 ++ sent_text t2.
Proof.
  induction t1 as [|e t1 IH]; [reflexivity|].
  destruct e; simpl; rewrite ?IH; try reflexivity. now rewrite app_assoc.
Qed.

Lemma process_logs_low_water count g rb :
  buf_handle g = Some rb -> low_water g rb = true -> 0 < log_buf_size g ->
  process_logs count g = Ret tt g [].
Proof.
  intros Hb Hlow Hsize. unfold low_water in Hlow. apply andb_prop in Hlow as (Hp & Hq).
  unfold process_logs. rewrite bind_get, Hb, Hp.
  destruct (Z.eqb_spec (log_buf_size g) 0); [lia|]. now rewrite Hq.
Qed.

(** What [stdout_write] does with an entry that does not fit at once. *)
Lemma stdout_write_overflow_run wr fd data g rb :
  initialised g -> xSemaphore g = Some true -> buf_handle g = Some rb ->
  xRingbufferSend rb data = None ->
  exists rb1 rb2 t_drain t,
    process_logs (Z.of_nat (length data)) (set_xSemaphore (Some false) g)
    = Ret tt (set_buf_handle (Some rb1) (set_xSemaphore (Some false) g)) t_drain
    /\ stdout_write wr fd data g
       = Ret (if bMirrorToUART g then wr else 1) (set_buf_handle (Some rb2) g) t
    /\ sent_text t = sent_text t_drain
    /\ List.filter is_ringbuffer_receive t = List.filter is_ringbuffer_receive t_drain
    /\ sent_text t_drain
       = (if partnerSocket g =? 0 then []
          else take (drain_count g rb (Z.of_nat (length data))) (rb_items rb))
    /\ rb_capacity rb2 = rb_capacity rb
    /\ rb_items rb2
       = (if (length data <=? rb_capacity rb
                - length (drop (drain_count g rb (Z.of_nat (length data))) (rb_items rb)))%nat
          then drop (drain_count g rb (Z.of_nat (length data))) (rb_items rb) ++ data
          else drop (drain_count g rb (Z.of_nat (length data))) (rb_items rb)).
Proof.
  intros (Hsize & _ & Hinit) Hsem Hb Hfull.
  destruct (Hinit _ Hb) as ((Hrd & _) & _).
  destruct (store_log_entry_overflow data (set_xSemaphore (Some false) g) rb Hb Hrd Hsize Hfull)
    as (rb1 & rb2 & t_drain & Hpass & Hitems & Hsent & _ & _ & Hrun & Hitems2 & Hcap2 & _).
  change (drain_count (set_xSemaphore (Some false) g) rb (Z.of_nat (length data)))
    with (drain_count g rb (Z.of_nat (length data))) in *.
  change (partnerSocket (set_xSemaphore (Some false) g)) with (partnerSocket g) in *.
  pose proof (stdout_write_locked wr fd data g _ _ Hsem Hrun) as Hwrite.
  rewrite (set_xSemaphore_back g _ Hsem) in Hwrite.
  change (bMirrorToUART (set_buf_handle (Some rb2) (set_xSemaphore (Some false) g)))
    with (bMirrorToUART g) in Hwrite.
  rewrite Hitems in Hitems2.
  exists rb1, rb2, t_drain. eexists.
  split; [exact Hpass|]. split; [exact Hwrite|].
  rewrite !sent_text_app, !List.filter_app.
  split; [|split; [|repeat split; assumption]].
  - destruct (length data <=? _)%nat; destruct (bMirrorToUART g);
      simpl; rewrite ?app_nil_r; reflexivity.
  - destruct (length data <=? _)%nat; destruct (bMirrorToUART g);
      simpl; rewrite ?app_nil_r; reflexivity.
Qed.

Lemma drain_count_open g rb data :
  low_water g rb = false -> xRingbufferSend rb data = None ->
  drain_count g rb (Z.of_nat (length data)) = Nat.min (length data) (length (rb_items rb)).
Proof.
  intros Hlow Hfull. apply xRingbufferSend_full in Hfull.
  unfold drain_count. rewrite Hlow.
  destruct (Z.eqb_spec (Z.of_nat (length data)) 0); [lia|]. now rewrite Nat2Z.id.
Qed.

(** X8: outside the low-water case (a session is attached, or the buffer is
    at 75% or more), an entry that does not fit but is no larger than the
    buffer is never dropped: exactly as many of the oldest bytes as the entry
    is long (or all, if fewer wait) leave the buffer, to the peer when a
    session is attached, and the entry is stored behind the bytes that stay. *)
Theorem overflow_evicts_the_oldest wr fd data g rb :
  initialised g -> xSemaphore g = Some true -> buf_handle g = Some rb ->
  xRingbufferSend rb data = None ->
  low_water g rb = false ->
  (length data <= rb_capacity rb)%nat ->
  exists g' t,
    stdout_write wr fd data g = Ret (if bMirrorToUART g then wr else 1) g' t
    /\ log_contents g'
       = drop (Nat.min (length data) (length (rb_items rb))) (rb_items rb) ++ data
    /\ sent_text t
       = (if partnerSocket g =? 0 then []
          else take (Nat.min (length data) (length (rb_items rb))) (rb_items rb))
    /\ (length (log_contents g') <= rb_capacity rb)%nat.
Proof.
  intros Hg Hsem Hb Hfull Hlow Hsmall.
  destruct (stdout_write_overflow_run wr fd data g rb Hg Hsem Hb Hfull)
    as (rb1 & rb2 & t_drain & t & _ & Hrun & Hsent & _ & Hdrain & _ & Hitems).
  destruct Hg as (_ & _ & Hinit). destruct (Hinit _ Hb) as ((_ & Hlen) & _).
  rewrite (drain_count_open _ _ _ Hlow Hfull) in *.
  assert (Hstored : (length data <=? rb_capacity rb
                       - length (drop (Nat.min (length data) (length (rb_items rb)))
                                      (rb_items rb)))%nat = true).
  { apply Nat.leb_le. rewrite length_drop. lia. }
  rewrite Hstored in Hitems.
  eexists; exists t. split; [exact Hrun|]. unfold log_contents. simpl. rewrite Hitems.
  split; [reflexivity|]. split; [now rewrite Hsent|].
  rewrite length_app, length_drop. lia.
Qed.

Lemma overflow_evicts_the_oldest_witness :
  exists g' t,
    stdout_write 0 1 (str "123") example_globals_high = Ret 1 g' t
    /\ log_contents g' = str "def" ++ str "123"
    /\ sent_text t = []
    /\ (length (log_contents g') <= 8)%nat.
Proof.
  apply (overflow_evicts_the_oldest 0 1 (str "123") example_globals_high
           (mkRingbuf 8 0 (str "abcdef")) initialised_example_high eq_refl eq_refl);
    [reflexivity | reflexivity | simpl; lia].
Defined.

(** X9: in the low-water case (no session attached and less than 75% of
    [log_buf_size] waiting) an entry that does not fit is lost although older
    bytes could make room: nothing is received from the ring buffer, nothing is
    sent, and the buffer holds what it held. *)
Theorem low_water_overflow_is_dropped wr fd data g rb :
  initialised g -> xSemaphore g = Some true -> buf_handle g = Some rb ->
  xRingbufferSend rb data = None ->
  low_water g rb = true ->
  exists g' t,
    stdout_write wr fd data g = Ret (if bMirrorToUART g then wr else 1) g' t
    /\ log_contents g' = rb_items rb
    /\ List.filter is_ringbuffer_receive t = []
    /\ sent_text t = [].
Proof.
  intros Hg Hsem Hb Hfull Hlow.
  destruct (stdout_write_overflow_run wr fd data g rb Hg Hsem Hb Hfull)
    as (rb1 & rb2 & t_drain & t & Hpass & Hrun & Hsent & Hrecv & _ & _ & Hitems).
  destruct Hg as (Hsize & _ & _).
  rewrite (process_logs_low_water _ (set_xSemaphore (Some false) g) rb Hb Hlow Hsize) in Hpass.
  injection Hpass as _ <-.
  assert (Hk : drain_count g rb (Z.of_nat (length data)) = 0%nat)
    by (unfold drain_count; now rewrite Hlow).
  rewrite Hk, !drop_0 in Hitems.
  apply xRingbufferSend_full in Hfull.
  destruct (Nat.leb_spec (length data) (rb_capacity rb - length (rb_items rb))); [lia|].
  eexists; exists t. split; [exact Hrun|]. unfold log_contents. simpl.
  split; [exact Hitems|]. split; [now rewrite Hrecv | now rewrite Hsent].
Qed.

Lemma low_water_overflow_is_dropped_witness :
  exists g' t,
    stdout_write 0 1 (str "12345") example_globals = Ret 1 g' t
    /\ log_contents g' = str "abcd"
    /\ List.filter is_ringbuffer_receive t = []
    /\ sent_text t = [].
Proof.
  apply (low_water_overflow_is_dropped 0 1 (str "12345") example_globals example_buffer
           initialised_example eq_refl eq_refl); reflexivity.
Defined.

(** X10: an entry longer than the buffer is never stored; outside the
    low-water case it still empties the buffer first, handing everything that
    waited to the peer when a session is attached and discarding it when none
    is. *)
Theorem oversize_entry_empties_the_buffer wr fd data g rb :
  initialised g -> xSemaphore g = Some true -> buf_handle g = Some rb ->
  (rb_capacity rb < length data)%nat ->
  exists g' t,
    stdout_write wr fd data g = Ret (if bMirrorToUART g then wr else 1) g' t
    /\ log_contents g' = (if low_water g rb then rb_items rb else [])
    /\ sent_text t
       = (if low_water g rb || (partnerSocket g =? 0) then [] else rb_items rb).
Proof.
  intros Hg Hsem Hb Hbig.
  assert (Hfull : xRingbufferSend rb data = None).
  { unfold xRingbufferSend.
    destruct (Nat.leb_spec (length data) (rb_capacity rb - length (rb_items rb)));
      [lia | reflexivity]. }
  destruct (stdout_write_overflow_run wr fd data g rb Hg Hsem Hb Hfull)
    as (rb1 & rb2 & t_drain & t & _ & Hrun & Hsent & _ & Hdrain & _ & Hitems).
  destruct Hg as (_ & _ & Hinit). destruct (Hinit _ Hb) as ((_ & Hlen) & _).
  assert (Hk : drain_count g rb (Z.of_nat (length data))
               = if low_water g rb then 0%nat else length (rb_items rb)).
  { destruct (low_water g rb) eqn:Hlow.
    - unfold drain_count. now rewrite Hlow.
    - rewrite (drain_count_open _ _ _ Hlow Hfull). lia. }
  rewrite Hk in *.
  assert (Hstored : forall kept : bytes, (length data <=? rb_capacity rb - length kept)%nat = false).
  { intros kept. apply Nat.leb_gt. lia. }
  rewrite Hstored in Hitems.
  eexists; exists t. split; [exact Hrun|]. unfold log_contents. simpl. rewrite Hitems, Hsent, Hdrain.
  destruct (low_water g rb); simpl.
  - split; [reflexivity|]. now destruct (partnerSocket g =? 0).
  - rewrite drop_all, firstn_all. split; reflexivity.
Qed.

Lemma oversize_entry_empties_the_buffer_witness :
  exists g' t,
    stdout_write 0 1 (str "123456789") example_session = Ret 1 g' t
    /\ log_contents g' = []
    /\ sent_text t = str "abcd".
Proof.
  apply (oversize_entry_empties_the_buffer 0 1 (str "123456789") example_session example_buffer
           initialised_example_session eq_refl eq_refl).
  simpl. lia.
Defined.

Lemma store_log_entry_keeps data g :
  initialised g ->
  exists v t,
    store_log_entry data g = Ret tt (set_buf_handle v g) t
    /\ initialised (set_buf_handle v g).
Proof.
  intros Hg. pose proof Hg as (Hsize & _ & Hinit).
  destruct (buf_handle g) as [rb|] eqn:Hb.
  - destruct (Hinit _ eq_refl) as ((Hrd & Hlen) & _).
    destruct (xRingbufferSend rb data) as [rb'|] eqn:Hsend.
    + destruct (xRingbufferSend_wf _ _ _ Hsend) as (_ & Hcap & Hrd' & Hlen').
      exists (Some rb'). eexists. split; [exact (store_log_entry_fits data g rb rb' Hb Hsend)|].
      apply (initialised_set_buf_handle g rb rb' Hg Hb Hcap); [|auto].
      rewrite Hrd', Hcap. exact Hrd.
    + destruct (store_log_entry_overflow data g rb Hb Hrd Hsize Hsend)
        as (rb1 & rb2 & t & _ & Hitems1 & _ & _ & _ & Hrun & Hitems2 & Hcap & Hrd2).
      exists (Some rb2). eexists. split; [exact Hrun|].
      apply (initialised_set_buf_handle g rb rb2 Hg Hb Hcap Hrd2).
      assert (Hlen1 : (length (rb_items rb1) <= rb_capacity rb)%nat)
        by (rewrite Hitems1, length_drop; lia).
      rewrite Hitems2, Hcap.
      destruct (Nat.leb_spec (length data) (rb_capacity rb - length (rb_items rb1))).
      * rewrite length_app. lia.
      * exact Hlen1.
  - exists None. eexists. split.
    + unfold store_log_entry. rewrite bind_get, Hb.
      replace (set_buf_handle None g) with g; [reflexivity|].
      rewrite <- Hb. clear. destruct g; reflexivity.
    + replace (set_buf_handle None g) with g; [exact Hg|].
      rewrite <- Hb. clear. destruct g; reflexivity.
Qed.

Lemma stdout_write_frame wr fd data g :
  initialised g ->
  exists r v t,
    stdout_write wr fd data g = Ret r (set_buf_handle v g) t
    /\ initialised (set_buf_handle v g)
    /\ Z.of_nat (length (log_contents (set_buf_handle v g))) <= log_buf_size g.
Proof.
  intros Hg. pose proof Hg as (Hsize & Hsem & _).
  assert (Hbound : forall v, initialised (set_buf_handle v g) ->
            Z.of_nat (length (log_contents (set_buf_handle v g))) <= log_buf_size g).
  { intros v (_ & _ & Hv). unfold log_contents. simpl in *.
    destruct v as [rb|]; [|simpl; lia].
    destruct (Hv rb eq_refl) as ((_ & Hlen) & Hcap). lia. }
  destruct (xSemaphore g) as [[|]|] eqn:Hs; [| |contradiction].
  - destruct (store_log_entry_keeps data (set_xSemaphore (Some false) g))
      as (v & t1 & Hrun & Hv); [now apply initialised_set_xSemaphore|].
    pose proof (stdout_write_locked wr fd data g _ _ Hs Hrun) as Hwrite.
    rewrite (set_xSemaphore_back g _ Hs) in Hwrite.
    assert (Hv' : initialised (set_buf_handle v g)).
    { destruct Hv as (H1 & _ & H3). split; [exact H1|]. split; [|exact H3].
      simpl. rewrite Hs. discriminate. }
    do 3 eexists. split; [exact Hwrite|]. split; [exact Hv' | exact (Hbound _ Hv')].
  - assert (Hsame : set_buf_handle (buf_handle g) g = g) by (clear; destruct g; reflexivity).
    exists (if bMirrorToUART g then wr else 1), (buf_handle g). eexists.
    rewrite Hsame. split; [exact (stdout_write_not_locked wr fd data g Hs)|].
    split; [exact Hg|]. rewrite <- Hsame at 1. apply Hbound. now rewrite Hsame.
Qed.

(** X11: every call of [stdout_write] on an initialised module returns, and
    all it can have changed is the ring buffer: the semaphore is back in the
    state it was in, no other variable is touched, and the buffer still holds
    no more than [log_buf_size] bytes. *)
Theorem stdout_write_changes_only_the_buffer wr fd data g :
  initialised g ->
  exists r v t,
    stdout_write wr fd data g = Ret r (set_buf_handle v g) t
    /\ initialised (set_buf_handle v g)
    /\ Z.of_nat (length (log_contents (set_buf_handle v g))) <= log_buf_size g.
Proof. apply stdout_write_frame. Qed.

Lemma stdout_write_changes_only_the_buffer_witness :
  exists r v t,
    stdout_write 0 1 (str "123456") example_globals_high
    = Ret r (set_buf_handle v example_globals_high) t
    /\ initialised (set_buf_handle v example_globals_high)
    /\ Z.of_nat (length (log_contents (set_buf_handle v example_globals_high))) <= 8.
Proof.
  apply (stdout_write_changes_only_the_buffer 0 1 (str "123456") example_globals_high
           initialised_example_high).
Defined.

(** X12: a write of no bytes changes nothing: it is never answered by a
    pass of [process_logs], so it cannot flush the buffer, and the module is
    left exactly as it was. *)
Theorem empty_write_changes_nothing wr fd g :
  xSemaphore g <> None ->
  exists t,
    stdout_write wr fd [] g = Ret (if bMirrorToUART g then wr else 1) g t
    /\ List.filter is_ringbuffer_receive t = []
    /\ sent_text t = [].
Proof.
  intros Hsem. destruct (xSemaphore g) as [[|]|] eqn:Hs; [| |contradiction].
  - assert (Hstore : exists t1, store_log_entry [] (set_xSemaphore (Some false) g)
                                = Ret tt (set_buf_handle (buf_handle g) (set_xSemaphore (Some false) g)) t1
                                /\ List.filter is_ringbuffer_receive t1 = []
                                /\ sent_text t1 = []).
    { destruct (buf_handle g) as [rb|] eqn:Hb.
      - eexists. split.
        { rewrite (store_log_entry_fits [] (set_xSemaphore (Some false) g) rb
                     (mkRingbuf (rb_capacity rb) (rb_read rb) (rb_items rb ++ [])) Hb).
          - rewrite app_nil_r. destruct rb; reflexivity.
          - apply xRingbufferSend_fits. simpl. lia. }
        split; reflexivity.
      - eexists. split.
        { unfold store_log_entry. rewrite bind_get.
          change (buf_handle (set_xSemaphore (Some false) g)) with (buf_handle g).
          rewrite Hb. unfold emit.
          replace (set_buf_handle None (set_xSemaphore (Some false) g))
            with (set_xSemaphore (Some false) g); [reflexivity|].
          rewrite <- Hb. clear. destruct g; reflexivity. }
        split; reflexivity. }
    destruct Hstore as (t1 & Hrun & Hrecv & Hsent).
    pose proof (stdout_write_locked wr fd [] g _ _ Hs Hrun) as Hwrite.
    rewrite (set_xSemaphore_back g _ Hs) in Hwrite.
    replace (set_buf_handle (buf_handle g) g) with g in Hwrite
      by (clear; destruct g; reflexivity).
    change (bMirrorToUART (set_buf_handle (buf_handle g) (set_xSemaphore (Some false) g)))
      with (bMirrorToUART g) in Hwrite.
    eexists. split; [exact Hwrite|].
    rewrite !List.filter_app, !sent_text_app, Hrecv, Hsent.
    destruct (bMirrorToUART g); split; reflexivity.
  - eexists. split; [exact (stdout_write_not_locked wr fd [] g Hs)|].
    destruct (bMirrorToUART g); split; reflexivity.
Qed.

Lemma empty_write_changes_nothing_witness :
  exists t,
    stdout_write 0 1 [] example_session = Ret 1 example_session t
    /\ List.filter is_ringbuffer_receive t = []
    /\ sent_text t = [].
Proof.
  apply (empty_write_changes_nothing 0 1 example_session). discriminate.
Defined.

(** ** Lines printed by the module *)

Lemma set_buf_handle_self g : set_buf_handle (buf_handle g) g = g.
Proof. destruct g; reflexivity. Qed.

Lemma initialised_frame g g' :
  log_buf_size g' = log_buf_size g -> xSemaphore g' = xSemaphore g ->
  buf_handle g' = buf_handle g ->
  initialised g -> initialised g'.
Proof. unfold initialised. intros -> -> ->. trivial. Qed.

Lemma log_path_only (p : event -> bool) (t : list event) :
  Forall (fun e => is_log_path e = true) t ->
  (forall e, is_log_path e = true -> p e = false) ->
  List.filter p t = [].
Proof. intros Hall Hp. exact (filter_other_events p is_log_path t Hall Hp). Qed.

Lemma drain_events_log_path (b : bool) (t : list event) :
  Forall (fun e => is_ringbuffer_receive e || (b && is_send_text e) = true) t ->
  Forall (fun e => is_log_path e = true) t.
Proof.
  intros Hall. eapply Forall_impl; [exact Hall|].
  intros e He. cbv beta in He.
  destruct e; simpl in He; try (rewrite andb_false_r in He); try discriminate He; reflexivity.
Qed.

(** [process_logs] on an initialised module with a buffer: it returns, and
    only the buffer changes. *)
Lemma process_logs_frame count g :
  initialised g -> buf_handle g <> None ->
  exists rb' t,
    process_logs count g = Ret tt (set_buf_handle (Some rb') g) t
    /\ initialised (set_buf_handle (Some rb') g)
    /\ Forall (fun e => is_log_path e = true) t.
Proof.
  intros Hg Hsome. pose proof Hg as (Hsize & _ & Hinit).
  destruct (buf_handle g) as [rb|] eqn:Hb; [|contradiction].
  destruct (Hinit _ eq_refl) as ((Hrd & Hlen) & _).
  destruct (process_logs_spec count g rb Hb Hrd Hsize)
    as (rb' & t & Hrun & Hitems & Hcap & Hrd' & _ & Hall & _).
  exists rb', t. split; [exact Hrun|]. split.
  - apply (initialised_set_buf_handle g rb rb' Hg Hb Hcap Hrd').
    rewrite Hitems, length_drop, Hcap. lia.
  - exact (drain_events_log_path _ _ Hall).
Qed.

Lemma store_log_entry_effects data g :
  initialised g ->
  exists v t,
    store_log_entry data g = Ret tt (set_buf_handle v g) t
    /\ initialised (set_buf_handle v g)
    /\ (buf_handle g <> None -> v <> None)
    /\ Forall (fun e => is_log_path e = true) t
    /\ List.filter is_uart_write t = [].
Proof.
  intros Hg. pose proof Hg as (Hsize & _ & Hinit).
  destruct (buf_handle g) as [rb|] eqn:Hb.
  - destruct (Hinit _ eq_refl) as ((Hrd & Hlen) & _).
    destruct (xRingbufferSend rb data) as [rb'|] eqn:Hsend.
    + destruct (xRingbufferSend_wf _ _ _ Hsend) as (_ & Hcap & Hrd' & Hlen').
      exists (Some rb'). eexists.
      split; [exact (store_log_entry_fits data g rb rb' Hb Hsend)|].
      split.
      { apply (initialised_set_buf_handle g rb rb' Hg Hb Hcap); [|auto].
        rewrite Hrd', Hcap. exact Hrd. }
      split; [discriminate|]. split; [repeat constructor | reflexivity].
    + destruct (store_log_entry_overflow data g rb Hb Hrd Hsize Hsend)
        as (rb1 & rb2 & t & _ & Hitems1 & _ & Hall & _ & Hrun & Hitems2 & Hcap & Hrd2).
      exists (Some rb2). eexists. split; [exact Hrun|].
      split.
      { apply (initialised_set_buf_handle g rb rb2 Hg Hb Hcap Hrd2).
        assert (Hlen1 : (length (rb_items rb1) <= rb_capacity rb)%nat)
          by (rewrite Hitems1, length_drop; lia).
        rewrite Hitems2, Hcap.
        destruct (Nat.leb_spec (length data) (rb_capacity rb - length (rb_items rb1))).
        - rewrite length_app. lia.
        - exact Hlen1. }
      split; [discriminate|]. split.
      * apply Forall_app. split; [repeat constructor|].
        apply Forall_app. split; [exact (drain_events_log_path _ _ Hall)|].
        apply Forall_app. split; [repeat constructor|].
        destruct (length data <=? _)%nat; repeat constructor.
      * rewrite !List.filter_app.
        rewrite (drain_events_only is_uart_write _ _ Hall); [|reflexivity|reflexivity].
        simpl. now destruct (length data <=? _)%nat.
  - exists None. eexists. split.
    + unfold store_log_entry. rewrite bind_get, Hb.
      replace (set_buf_handle None g) with g; [reflexivity|].
      rewrite <- Hb. symmetry. apply set_buf_handle_self.
    + replace (set_buf_handle None g) with g
        by (rewrite <- Hb; symmetry; apply set_buf_handle_self).
      split; [exact Hg|]. split; [intros H; now elim H|].
      split; [repeat constructor | reflexivity].
Qed.

(** What a call of [stdout_write] can do to an initialised module and which
    calls it can make. *)
Lemma stdout_write_effects wr fd data g :
  initialised g ->
  exists r v t,
    stdout_write wr fd data g = Ret r (set_buf_handle v g) t
    /\ initialised (set_buf_handle v g)
    /\ (buf_handle g <> None -> v <> None)
    /\ Forall (fun e => is_log_path e = true) t
    /\ List.filter is_uart_write t
       = (if bMirrorToUART g then [EvWrite (uart_fd g) data] else [])
    /\ (1 <= length t)%nat.
Proof.
  intros Hg. pose proof Hg as (Hsize & Hsem & _).
  destruct (xSemaphore g) as [[|]|] eqn:Hs; [| |contradiction].
  - destruct (store_log_entry_effects data (set_xSemaphore (Some false) g))
      as (v & t1 & Hrun & Hv & Hsome & Hall & Huart);
      [now apply initialised_set_xSemaphore|].
    pose proof (stdout_write_locked wr fd data g _ _ Hs Hrun) as Hwrite.
    rewrite (set_xSemaphore_back g _ Hs) in Hwrite.
    change (bMirrorToUART (set_buf_handle v (set_xSemaphore (Some false) g)))
      with (bMirrorToUART g) in Hwrite.
    change (uart_fd (set_buf_handle v (set_xSemaphore (Some false) g)))
      with (uart_fd g) in Hwrite.
    do 3 eexists. split; [exact Hwrite|].
    split.
    { destruct Hv as (H1 & _ & H3). split; [exact H1|]. split; [|exact H3].
      simpl. rewrite Hs. discriminate. }
    split; [exact Hsome|]. split; [|split].
    + apply Forall_app. split; [repeat constructor|].
      apply Forall_app. split; [exact Hall|].
      apply Forall_app. split; [repeat constructor|].
      destruct (bMirrorToUART g); repeat constructor.
    + rewrite !List.filter_app, Huart. simpl. now destruct (bMirrorToUART g).
    + simpl. lia.
  - exists (if bMirrorToUART g then wr else 1), (buf_handle g). eexists.
    rewrite set_buf_handle_self.
    split; [exact (stdout_write_not_locked wr fd data g Hs)|].
    split; [exact Hg|]. split; [trivial|]. split; [|split].
    + constructor; [reflexivity|]. destruct (bMirrorToUART g); repeat constructor.
    + simpl. now destruct (bMirrorToUART g).
    + simpl. lia.
Qed.

(** A line the module prints: it comes back through [stdout_write] once the
    streams are reopened. *)
Lemma printf_effects text g :
  initialised g ->
  exists v t,
    printf text g = Ret tt (set_buf_handle v g) t
    /\ initialised (set_buf_handle v g)
    /\ (buf_handle g <> None -> v <> None)
    /\ Forall (fun e => is_log_path e = true) t
    /\ List.filter is_uart_write t
       = (if bIsEnabled g && bMirrorToUART g then [EvWrite (uart_fd g) (str text)] else [])
    /\ (1 <= length t)%nat.
Proof.
  intros Hg. unfold printf. rewrite bind_get.
  destruct (bIsEnabled g) eqn:He.
  - destruct (stdout_write_effects (Z.of_nat (length (str text))) STDOUT_FD (str text) g Hg)
      as (r & v & t & Hrun & Hv & Hsome & Hall & Huart & Hlen).
    exists v, t. rewrite (bind_Ret _ _ _ _ _ _ Hrun). unfold ret. simpl.
    rewrite app_nil_r. split; [reflexivity|]. auto.
  - exists (buf_handle g), [EvPrintf text]. rewrite set_buf_handle_self.
    split; [reflexivity|]. split; [exact Hg|]. split; [trivial|].
    split; [repeat constructor|]. split; [reflexivity | simpl; lia].
Qed.

(** The line is appended to the log buffer when the semaphore is free and the
    buffer has room for it. *)
Lemma printf_stores text g rb :
  bIsEnabled g = true -> xSemaphore g = Some true -> buf_handle g = Some rb ->
  (length (str text) <= rb_capacity rb - length (rb_items rb))%nat ->
  exists t,
    printf text g
    = Ret tt (set_buf_handle
                (Some (mkRingbuf (rb_capacity rb) (rb_read rb) (rb_items rb ++ str text))) g) t.
Proof.
  intros He Hs Hb Hfit. unfold printf. rewrite bind_get, He.
  pose proof (store_log_entry_fits (str text) (set_xSemaphore (Some false) g) rb _ Hb
                (xRingbufferSend_fits rb (str text) Hfit)) as Hstore.
  pose proof (stdout_write_locked (Z.of_nat (length (str text))) STDOUT_FD (str text)
                g _ _ Hs Hstore) as Hwrite.
  rewrite (set_xSemaphore_back g _ Hs) in Hwrite.
  eexists. rewrite (bind_Ret _ _ _ _ _ _ Hwrite). unfold ret. simpl. reflexivity.
Qed.

Lemma ESP_LOGD_effects debug text g :
  initialised g ->
  exists v t,
    ESP_LOGD debug text g = Ret tt (set_buf_handle v g) t
    /\ initialised (set_buf_handle v g)
    /\ (buf_handle g <> None -> v <> None)
    /\ Forall (fun e => is_log_path e = true) t.
Proof.
  intros Hg. unfold ESP_LOGD. destruct debug.
  - destruct (printf_effects (text ++ newline) g Hg) as (v & t & Hrun & Hv & Hsome & Hall & _).
    exists v, t. auto.
  - exists (buf_handle g), []. rewrite set_buf_handle_self.
    split; [reflexivity|]. split; [exact Hg|]. split; [trivial | constructor].
Qed.

(** ** Telnet events *)

Lemma process_received_data_in_bounds ev g :
  in_bounds ev = true ->
  exists t,
    process_received_data (ev_buffer ev) (ev_size ev) g = Ret tt g t
    /\ Forall (fun e => is_uart_write e || is_run_command e = true) t.
Proof.
  unfold in_bounds, process_received_data.
  destruct (scrub (ev_buffer ev) (ev_size ev)) as [[c size']|]; [|discriminate].
  destruct (fill_command _ c size') as [command|]; [|discriminate]. intros _.
  destruct (is_command command).
  - unfold bind, get, emit, ret. destruct (bMirrorToUART g); simpl;
      eexists; (split; [reflexivity|]); repeat constructor.
  - exists []. split; [reflexivity | constructor].
Qed.

Lemma process_received_data_returns ev g g' t :
  process_received_data (ev_buffer ev) (ev_size ev) g = Ret tt g' t -> in_bounds ev = true.
Proof.
  unfold in_bounds, process_received_data.
  destruct (scrub (ev_buffer ev) (ev_size ev)) as [[c size']|]; [|discriminate].
  destruct (fill_command _ c size') as [command|]; [reflexivity | discriminate].
Qed.

(** One event, handled on an initialised module: the handler returns unless
    the event is a DATA event whose payload is not handled inside its memory. *)
Lemma handle_telnet_events_run userData ev g :
  initialised g ->
  negb (is_data_event ev) || in_bounds ev = true ->
  exists v t,
    handle_telnet_events userData ev g = Ret tt (set_buf_handle v g) t
    /\ initialised (set_buf_handle v g)
    /\ (buf_handle g <> None -> v <> None)
    /\ (is_printed_event ev = false -> v = buf_handle g)
    /\ List.filter is_send t
       = (if is_send_event ev
          then [EvSend (sockfd userData) (take (Z.to_nat (ev_size ev)) (ev_buffer ev))]
          else [])
    /\ List.filter is_close t = []
    /\ List.filter is_recv t = []
    /\ (is_data_event ev = false ->
        List.filter is_run_command t = []
        /\ List.filter is_uart_write t
           = (if is_printed_event ev && (bIsEnabled g && bMirrorToUART g)
              then [EvWrite (uart_fd g) (str (telnet_event_line ev))] else [])
        /\ (1 <= length t)%nat).
Proof.
  intros Hg Hsafe.
  destruct (printf_effects (telnet_event_line ev) g Hg)
    as (v & t & Hrun & Hv & Hsome & Hall & Huart & Hlen).
  assert (Hsend : List.filter is_send t = [])
    by (apply (log_path_only _ _ Hall); intros e; now destruct e).
  assert (Hclose : List.filter is_close t = [])
    by (apply (log_path_only _ _ Hall); intros e; now destruct e).
  assert (Hrecv : List.filter is_recv t = [])
    by (apply (log_path_only _ _ Hall); intros e; now destruct e).
  assert (Hcmd : List.filter is_run_command t = [])
    by (apply (log_path_only _ _ Hall); intros e; now destruct e).
  unfold handle_telnet_events, is_data_event, is_send_event, is_printed_event in *.
  destruct (ev_type ev);
    try (exists v, t; split; [exact Hrun|];
         split; [exact Hv|]; split; [exact Hsome|]; split; [discriminate|];
         split; [exact Hsend|]; split; [exact Hclose|]; split; [exact Hrecv|];
         intros _; split; [exact Hcmd|]; split; [exact Huart | exact Hlen]).
  - (* TELNET_EV_DATA *)
    simpl in Hsafe.
    destruct (process_received_data_in_bounds ev g Hsafe) as (t1 & Hdata & Hall1).
    exists (buf_handle g), t1. rewrite set_buf_handle_self.
    split; [exact Hdata|]. split; [exact Hg|]. split; [trivial|]. split; [trivial|].
    split; [|split; [|split; [|discriminate]]];
      apply (filter_other_events _ _ _ Hall1); intros e He; destruct e;
        try reflexivity; discriminate He.
  - (* TELNET_EV_SEND *)
    exists (buf_handle g). eexists. rewrite set_buf_handle_self.
    split; [reflexivity|]. split; [exact Hg|]. split; [trivial|]. split; [trivial|].
    repeat split. simpl. lia.
  - (* TELNET_EV_TTYPE *)
    exists v, (t ++ [EvTelnetTtypeSend]).
    split; [rewrite (bind_Ret _ _ _ _ _ _ Hrun); reflexivity|].
    split; [exact Hv|]. split; [exact Hsome|]. split; [discriminate|].
    rewrite !List.filter_app, Hsend, Hclose, Hrecv, Hcmd, Huart, length_app, !app_nil_r.
    repeat split. simpl. lia.
Qed.

Lemma handle_telnet_events_returns userData ev g a g' t :
  handle_telnet_events userData ev g = Ret a g' t ->
  negb (is_data_event ev) || in_bounds ev = true.
Proof.
  unfold handle_telnet_events, is_data_event.
  destruct (ev_type ev); try reflexivity.
  destruct a. intros H. simpl. exact (process_received_data_returns _ _ _ _ H).
Qed.

Lemma dispatch_events_returns userData : forall evs g g' t,
  dispatch_events userData evs g = Ret tt g' t ->
  Forall (fun ev => negb (is_data_event ev) || in_bounds ev = true) evs.
Proof.
  induction evs as [|ev evs IH]; intros g g' t H; [constructor|].
  simpl dispatch_events in H.
  destruct (bind_Ret_inv _ _ _ _ _ _ H) as (a & g1 & t1 & t2 & H1 & H2 & _).
  constructor; [exact (handle_telnet_events_returns _ _ _ _ _ _ H1) | exact (IH _ _ _ H2)].
Qed.

(** The events of one [telnet_recv], handled in turn. *)
Lemma dispatch_events_run userData : forall evs g,
  initialised g ->
  Forall (fun ev => negb (is_data_event ev) || in_bounds ev = true) evs ->
  exists v t,
    dispatch_events userData evs g = Ret tt (set_buf_handle v g) t
    /\ initialised (set_buf_handle v g)
    /\ (buf_handle g <> None -> v <> None)
    /\ (Forall (fun ev => is_printed_event ev = false) evs -> v = buf_handle g)
    /\ List.filter is_send t
       = List.map (fun ev => EvSend (sockfd userData)
                                    (take (Z.to_nat (ev_size ev)) (ev_buffer ev)))
                  (List.filter is_send_event evs)
    /\ List.filter is_close t = []
    /\ List.filter is_recv t = []
    /\ (Forall (fun ev => is_data_event ev = false) evs ->
        List.filter is_run_command t = []
        /\ List.filter is_uart_write t
           = (if bIsEnabled g && bMirrorToUART g
              then List.map (fun ev => EvWrite (uart_fd g) (str (telnet_event_line ev)))
                            (List.filter is_printed_event evs)
              else [])
        /\ (length evs <= length t)%nat).
Proof.
  induction evs as [|ev evs IH]; intros g Hg Hsafe.
  - exists (buf_handle g), []. rewrite set_buf_handle_self.
    split; [reflexivity|]. split; [exact Hg|]. split; [trivial|]. split; [trivial|].
    repeat split; [now destruct (bIsEnabled g && bMirrorToUART g) | apply Nat.le_refl].
  - inversion Hsafe as [|? ? Hev Hrest]; subst.
    destruct (handle_telnet_events_run userData ev g Hg Hev)
      as (v1 & t1 & Hrun1 & Hv1 & Hsome1 & Hsame1 & Hsend1 & Hclose1 & Hrecv1 & Hctl1).
    destruct (IH (set_buf_handle v1 g) Hv1 Hrest)
      as (v & t & Hrun & Hv & Hsome & Hsame & Hsend & Hclose & Hrecv & Hctl).
    change (set_buf_handle v (set_buf_handle v1 g)) with (set_buf_handle v g) in *.
    change (buf_handle (set_buf_handle v1 g)) with v1 in *.
    exists v, (t1 ++ t). simpl dispatch_events.
    split; [rewrite (bind_Ret _ _ _ _ _ _ Hrun1), Hrun; reflexivity|].
    split; [exact Hv|].
    split; [intros H; exact (Hsome (Hsome1 H))|].
    split.
    { intros Hnone. inversion Hnone as [|? ? Hp Hps]; subst.
      rewrite (Hsame Hps). exact (Hsame1 Hp). }
    rewrite !List.filter_app, Hsend1, Hsend, Hclose1, Hclose, Hrecv1, Hrecv.
    split; [simpl; now destruct (is_send_event ev)|].
    split; [reflexivity|]. split; [reflexivity|].
    intros Hnodata. inversion Hnodata as [|? ? Hd Hds]; subst.
    destruct (Hctl1 Hd) as (Hcmd1 & Huart1 & Hlen1).
    destruct (Hctl Hds) as (Hcmd & Huart & Hlen).
    rewrite Hcmd1, Hcmd, Huart1, Huart, length_app.
    change (bIsEnabled (set_buf_handle v1 g)) with (bIsEnabled g).
    change (bMirrorToUART (set_buf_handle v1 g)) with (bMirrorToUART g).
    change (uart_fd (set_buf_handle v1 g)) with (uart_fd g).
    split; [reflexivity|]. split; [|simpl; lia].
    simpl. destruct (is_printed_event ev), (bIsEnabled g && bMirrorToUART g); reflexivity.
Qed.

(** X3: handling the events libtelnet's decoder raises for the received bytes
    can change nothing in the module but the log buffer, which takes the lines
    the handler prints; a run of SEND and DATA events leaves the module exactly
    as it was.  What goes to [send] is the data of the SEND events, each once,
    in order and cut to its [size], on the session's socket; and nothing is
    closed. *)
Theorem telnet_events_keep_the_state userData evs g g' t :
  initialised g ->
  dispatch_events userData evs g = Ret tt g' t ->
  (exists v, g' = set_buf_handle v g)
  /\ initialised g'
  /\ (Forall (fun ev => is_printed_event ev = false) evs -> g' = g)
  /\ List.filter is_send t
     = List.map (fun ev => EvSend (sockfd userData)
                                  (take (Z.to_nat (ev_size ev)) (ev_buffer ev)))
                (List.filter is_send_event evs)
  /\ List.filter is_close t = [].
Proof.
  intros Hg H.
  destruct (dispatch_events_run userData evs g Hg (dispatch_events_returns _ _ _ _ _ H))
    as (v & t0 & Hrun & Hv & _ & Hsame & Hsend & Hclose & _).
  rewrite Hrun in H. injection H as <- <-.
  split; [exists v; reflexivity|]. split; [exact Hv|].
  split; [|split; assumption].
  intros Hnone. rewrite (Hsame Hnone). apply set_buf_handle_self.
Qed.

Lemma telnet_events_keep_the_state_witness :
  (exists v, example_events_handled = set_buf_handle v example_running)
  /\ initialised example_events_handled
  /\ (Forall (fun ev => is_printed_event ev = false) example_events
      -> example_events_handled = example_running)
  /\ List.filter is_send example_events_trace
     = List.map (fun ev => EvSend 54 (take (Z.to_nat (ev_size ev)) (ev_buffer ev)))
                (List.filter is_send_event example_events)
  /\ List.filter is_close example_events_trace = [].
Proof.
  apply (telnet_events_keep_the_state (mkUserData 54 true true) example_events
           example_running example_events_handled example_events_trace).
  - split; [reflexivity|]. split; [discriminate|].
    intros rb [= <-]. split; [|reflexivity]. unfold rb_wf. simpl. lia.
  - vm_compute. reflexivity.
Defined.

(** X4: events other than application data never stop the handler: for any
    run of SEND, TTYPE, negotiation, warning or error events on an initialised
    module the handler returns, with nothing changed but the log buffer, and it
    runs no command.  The UART gets the lines printed for the events other than
    SEND, one [write] for each, in order, when the streams are reopened and
    mirroring is on, and nothing otherwise. *)
Theorem control_events_never_fault userData evs g :
  initialised g ->
  Forall (fun ev => is_data_event ev = false) evs ->
  exists v t,
    dispatch_events userData evs g = Ret tt (set_buf_handle v g) t
    /\ initialised (set_buf_handle v g)
    /\ List.filter is_run_command t = []
    /\ List.filter is_uart_write t
       = (if bIsEnabled g && bMirrorToUART g
          then List.map (fun ev => EvWrite (uart_fd g) (str (telnet_event_line ev)))
                        (List.filter is_printed_event evs)
          else [])
    /\ (length evs <= length t)%nat.
Proof.
  intros Hg Hnodata.
  assert (Hsafe : Forall (fun ev => negb (is_data_event ev) || in_bounds ev = true) evs).
  { eapply Forall_impl; [exact Hnodata|]. intros ev Hev. cbv beta in Hev. now rewrite Hev. }
  destruct (dispatch_events_run userData evs g Hg Hsafe)
    as (v & t & Hrun & Hv & _ & _ & _ & _ & _ & Hctl).
  destruct (Hctl Hnodata) as (Hcmd & Huart & Hlen).
  exists v, t. auto 6.
Qed.

Lemma control_events_never_fault_witness :
  exists v t,
    dispatch_events (mkUserData 54 true true)
      [mkEvent TELNET_EV_TTYPE [] 0; mkEvent TELNET_EV_SEND (str "abc") 3;
       mkEvent TELNET_EV_ERROR [] 0]
      (set_bMirrorToUART true example_running)
    = Ret tt (set_buf_handle v (set_bMirrorToUART true example_running)) t
    /\ initialised (set_buf_handle v (set_bMirrorToUART true example_running))
    /\ List.filter is_run_command t = []
    /\ List.filter is_uart_write t
       = [EvWrite 0 (str (telnet_event_line (mkEvent TELNET_EV_TTYPE [] 0)));
          EvWrite 0 (str (telnet_event_line (mkEvent TELNET_EV_ERROR [] 0)))]
    /\ (3 <= length t)%nat.
Proof.
  apply (control_events_never_fault (mkUserData 54 true true)
           [mkEvent TELNET_EV_TTYPE [] 0; mkEvent TELNET_EV_SEND (str "abc") 3;
            mkEvent TELNET_EV_ERROR [] 0]
           (set_bMirrorToUART true example_running)).
  - split; [reflexivity|]. split; [discriminate|].
    intros rb [= <-]. split; [|reflexivity]. unfold rb_wf. simpl. lia.
  - repeat constructor.
Defined.

(** ** The session loop *)

Lemma session_loop_cons pTelnetUserData r recvs g :
  session_loop pTelnetUserData (r :: recvs) g
  = after_trace [EvRecv (partnerSocket g) (rcv_len r) (rcv_errno r)]
      ((if rcv_len r >? 0 then
          emit (EvTelnetRecv (take (Z.to_nat (rcv_len r)) (rcv_data r)));;
          dispatch_events pTelnetUserData (rcv_decoded r);;
          process_logs (send_chunk g);;
          emit EvTaskYield;;
          session_loop pTelnetUserData recvs
        else if negb (rcv_errno r =? EAGAIN) && negb (rcv_errno r =? EWOULDBLOCK) then
          emit EvTelnetFree;;
          release ResTelnet;;
          modify (set_tnHandle false);;
          release ResRxbuf;;
          release ResUserData;;
          modify (set_partnerSocket 0);;
          ret SessionEnded
        else
          process_logs (send_chunk g);;
          emit EvTaskYield;;
          session_loop pTelnetUserData recvs) g).
Proof.
  change (session_loop pTelnetUserData (r :: recvs) g)
    with (bind get (fun g0 =>
            emit (EvRecv (partnerSocket g0) (rcv_len r) (rcv_errno r));;
            if rcv_len r >? 0 then
              emit (EvTelnetRecv (take (Z.to_nat (rcv_len r)) (rcv_data r)));;
              dispatch_events pTelnetUserData (rcv_decoded r);;
              process_logs (send_chunk g0);;
              emit EvTaskYield;;
              session_loop pTelnetUserData recvs
            else if negb (rcv_errno r =? EAGAIN) && negb (rcv_errno r =? EWOULDBLOCK) then
              emit EvTelnetFree;;
              release ResTelnet;;
              modify (set_tnHandle false);;
              release ResRxbuf;;
              release ResUserData;;
              modify (set_partnerSocket 0);;
              ret SessionEnded
            else
              process_logs (send_chunk g0);;
              emit EvTaskYield;;
              session_loop pTelnetUserData recvs) g).
  now rewrite bind_get, bind_emit.
Qed.

Lemma session_loop_idle_round pTelnetUserData r recvs g g1 t1 :
  would_block r = true ->
  process_logs (send_chunk g) g = Ret tt g1 t1 ->
  session_loop pTelnetUserData (r :: recvs) g
  = after_trace (EvRecv (partnerSocket g) (rcv_len r) (rcv_errno r) :: t1 ++ [EvTaskYield])
      (session_loop pTelnetUserData recvs g1).
Proof.
  intros Hidle Hrun. rewrite session_loop_cons.
  unfold would_block in Hidle. apply andb_prop in Hidle as (Hlen & Herr).
  apply Z.leb_le in Hlen.
  destruct (Z.gtb_spec (rcv_len r) 0); [lia|].
  assert (Hnot : negb (rcv_errno r =? EAGAIN) && negb (rcv_errno r =? EWOULDBLOCK) = false).
  { destruct (rcv_errno r =? EAGAIN); [reflexivity|].
    destruct (rcv_errno r =? EWOULDBLOCK); [reflexivity | discriminate Herr]. }
  rewrite Hnot. rewrite (bind_Ret _ _ _ _ _ _ Hrun), bind_emit.
  rewrite !after_trace_app. reflexivity.
Qed.

(** Rounds in which [recv] finds nothing, with a session attached: each
    hands the peer up to [send_chunk] bytes, then the loop goes on with what
    follows. *)
Lemma session_loop_idle pTelnetUserData more : forall idle g rb,
  Forall (fun r => would_block r = true) idle ->
  buf_handle g = Some rb -> (rb_read rb < rb_capacity rb)%nat ->
  0 < log_buf_size g -> partnerSocket g <> 0 -> 0 < send_chunk g ->
  exists rb' t,
    session_loop pTelnetUserData (idle ++ more) g
    = after_trace t (session_loop pTelnetUserData more (set_buf_handle (Some rb') g))
    /\ rb_items rb'
       = drop (Nat.min (length idle * Z.to_nat (send_chunk g)) (length (rb_items rb)))
              (rb_items rb)
    /\ sent_text t
       = take (Nat.min (length idle * Z.to_nat (send_chunk g)) (length (rb_items rb)))
              (rb_items rb)
    /\ rb_capacity rb' = rb_capacity rb
    /\ (rb_read rb' < rb_capacity rb')%nat
    /\ count_events is_recv t = length idle
    /\ List.filter is_close t = []
    /\ List.filter is_run_command t = [].
Proof.
  induction idle as [|r idle IH]; intros g rb Hidle Hb Hrd Hsize Hp Hchunk.
  - exists rb, []. rewrite (set_buf_handle_same _ _ Hb). simpl.
    rewrite after_trace_nil, drop_0. repeat split; assumption.
  - inversion Hidle as [|? ? Hr Hrest]; subst.
    destruct (process_logs_spec (send_chunk g) g rb Hb Hrd Hsize)
      as (rb1 & t1 & Hrun & Hitems1 & Hcap1 & Hrd1 & Hsent1 & Hall1 & _).
    rewrite (drain_count_session _ _ _ Hp Hchunk) in Hitems1, Hsent1.
    destruct (Z.eqb_spec (partnerSocket g) 0); [contradiction|].
    destruct (IH (set_buf_handle (Some rb1) g) rb1 Hrest eq_refl Hrd1 Hsize Hp Hchunk)
      as (rb' & t' & Hloop & Hitems' & Hsent' & Hcap' & Hrd' & Hcount' & Hclose' & Hcmd').
    change (send_chunk (set_buf_handle (Some rb1) g)) with (send_chunk g) in *.
    change (set_buf_handle (Some rb') (set_buf_handle (Some rb1) g))
      with (set_buf_handle (Some rb') g) in Hloop.
    exists rb'. eexists.
    change ((r :: idle) ++ more) with (r :: idle ++ more).
    rewrite (session_loop_idle_round _ _ _ _ _ _ Hr Hrun), Hloop, after_trace_app.
    split; [reflexivity|].
    set (c := Z.to_nat (send_chunk g)) in *.
    set (len := length (rb_items rb)) in *.
    assert (Hlen1 : length (rb_items rb1) = (len - Nat.min c len)%nat)
      by (rewrite Hitems1, length_drop; reflexivity).
    assert (Hk : (Nat.min (length (r :: idle) * c) len
                  = Nat.min c len + Nat.min (length idle * c) (length (rb_items rb1)))%nat).
    { rewrite Hlen1. simpl length. rewrite Nat.mul_succ_l.
      generalize (length idle * c)%nat. intros m. lia. }
    rewrite Hk.
    split; [rewrite Hitems', Hitems1; now rewrite drop_drop|].
    split.
    { change (sent_text ((EvRecv (partnerSocket g) (rcv_len r) (rcv_errno r)
                            :: t1 ++ [EvTaskYield]) ++ t'))
        with (sent_text ((t1 ++ [EvTaskYield]) ++ t')).
      rewrite !sent_text_app, Hsent1, Hsent', Hitems1. simpl.
      rewrite app_nil_r. apply take_take_drop. }
    split; [now rewrite Hcap', Hcap1|]. split; [exact Hrd'|].
    assert (Hdrain : forall p : event -> bool,
               (forall ms n0 sz, p (EvRingbufferReceiveUpTo ms n0 sz) = false) ->
               (forall buf, p (EvTelnetSendText buf) = false) ->
               List.filter p t1 = [])
      by (intros p H1 H2; apply (drain_events_only p _ _ Hall1 H1 H2)).
    unfold count_events in *.
    split; [|split].
    + simpl. rewrite !List.filter_app, (Hdrain is_recv) by reflexivity.
      simpl. now rewrite Hcount'.
    + simpl. rewrite !List.filter_app, (Hdrain is_close) by reflexivity. exact Hclose'.
    + simpl. rewrite !List.filter_app, (Hdrain is_run_command) by reflexivity. exact Hcmd'.
Qed.

(** X13: a connected session on which nothing arrives never ends by itself:
    after any number of rounds in which [recv] returns nothing and [errno]
    reads [EAGAIN] (a [recv] that returns 0 included) the loop is still
    running, with the session's socket, its allocations and the partner slot
    as they were.  Each round hands the peer at most [send_chunk] bytes: after
    [n] rounds the peer has the first [min (n * send_chunk) occupancy] bytes of
    the buffer, in order, and the others still wait. *)
Theorem idle_session_stays_alive pTelnetUserData idle g rb :
  initialised g -> buf_handle g = Some rb -> partnerSocket g <> 0 -> 0 < send_chunk g ->
  Forall (fun r => would_block r = true) idle ->
  exists rb' t,
    session_loop pTelnetUserData idle g = Ret SessionAlive (set_buf_handle (Some rb') g) t
    /\ sent_text t
       = take (Nat.min (length idle * Z.to_nat (send_chunk g)) (length (rb_items rb)))
              (rb_items rb)
    /\ rb_items rb'
       = drop (Nat.min (length idle * Z.to_nat (send_chunk g)) (length (rb_items rb)))
              (rb_items rb)
    /\ count_events is_recv t = length idle.
Proof.
  intros (Hsize & _ & Hinit) Hb Hp Hchunk Hidle.
  destruct (Hinit _ Hb) as ((Hrd & _) & _).
  destruct (session_loop_idle pTelnetUserData [] idle g rb Hidle Hb Hrd Hsize Hp Hchunk)
    as (rb' & t & Hloop & Hitems & Hsent & _ & _ & Hcount & _).
  rewrite app_nil_r in Hloop. exists rb', t.
  split; [rewrite Hloop; simpl; unfold ret; simpl; now rewrite app_nil_r|].
  repeat split; assumption.
Qed.

Lemma idle_session_stays_alive_witness :
  exists rb' t,
    session_loop (mkUserData 54 true true)
      [mkRecv (-1) EAGAIN [] []; mkRecv 0 EAGAIN [] []]
      (set_send_chunk 1 example_session)
    = Ret SessionAlive (set_buf_handle (Some rb') (set_send_chunk 1 example_session)) t
    /\ sent_text t = str "ab"
    /\ rb_items rb' = str "cd"
    /\ count_events is_recv t = 2%nat.
Proof.
  apply (idle_session_stays_alive (mkUserData 54 true true)
           [mkRecv (-1) EAGAIN [] []; mkRecv 0 EAGAIN [] []]
           (set_send_chunk 1 example_session) example_buffer).
  - split; [reflexivity|]. split; [discriminate|].
    intros rb [= <-]. split; [|reflexivity]. unfold rb_wf. simpl. lia.
  - reflexivity.
  - discriminate.
  - reflexivity.
  - repeat constructor.
Defined.

(** ** The listener *)

Lemma without_keeps_sockets r l :
  is_socket r = false -> Forall (fun x => is_socket x = true) l ->
  List.filter (fun x => negb (resource_eqb x r)) l = l.
Proof.
  intros Hr Hl. induction Hl as [|x l Hx _ IH]; [reflexivity|].
  simpl. rewrite IH. destruct x, r; try discriminate; reflexivity.
Qed.

Lemma torn_down_started g rb :
  Forall (fun x => is_socket x = true) (held g) ->
  torn_down (set_buf_handle (Some rb) (started g)) = ended rb g.
Proof.
  intros Hl. unfold torn_down, ended, started. destruct g as [a b c d e f p h m l].
  simpl in *. f_equal.
  rewrite !List.filter_app. simpl. rewrite !app_nil_r.
  rewrite (without_keeps_sockets ResTelnet l) by (reflexivity || assumption).
  rewrite (without_keeps_sockets ResRxbuf l) by (reflexivity || assumption).
  rewrite (without_keeps_sockets ResUserData l) by (reflexivity || assumption).
  reflexivity.
Qed.

Lemma session_start_run g rb :
  buf_handle g = Some rb -> (rb_read rb < rb_capacity rb)%nat -> 0 < log_buf_size g ->
  exists rb0 t0,
    session_start g
    = Ret (mkUserData (partnerSocket g) true true) (set_buf_handle (Some rb0) (started g)) t0
    /\ rb_capacity rb0 = rb_capacity rb
    /\ (rb_read rb0 < rb_capacity rb0)%nat
    /\ (length (rb_items rb0) <= length (rb_items rb))%nat
    /\ List.filter is_close t0 = [].
Proof.
  intros Hb Hrd Hsize.
  destruct (process_logs_spec 0 (started g) rb Hb Hrd Hsize)
    as (rb0 & t & Hrun & Hitems & Hcap & Hrd0 & _ & Hall & _).
  exists rb0. eexists. split; [|split; [exact Hcap|split; [exact Hrd0|split]]].
  - unfold session_start, acquire.
    rewrite bind_modify, bind_emit, bind_modify, bind_modify, bind_modify, bind_get.
    match goal with
    | |- context [bind (process_logs 0) _ ?gs] =>
        replace gs with (started g)
          by (unfold started; destruct g; simpl; now rewrite <- !app_assoc)
    end.
    rewrite (bind_Ret _ _ _ _ _ _ Hrun). unfold ret. simpl. reflexivity.
  - rewrite Hitems, length_drop. lia.
  - simpl. rewrite app_nil_r. apply (drain_events_only is_close _ _ Hall); reflexivity.
Qed.

Lemma forallb_safe_events evs :
  forallb (fun ev => negb (is_data_event ev) || in_bounds ev) evs = true ->
  Forall (fun ev => negb (is_data_event ev) || in_bounds ev = true) evs.
Proof.
  induction evs as [|ev evs IH]; [constructor|].
  simpl. intros H. apply andb_prop in H as (Hev & Hevs).
  constructor; [exact Hev | exact (IH Hevs)].
Qed.

(** One round of the session loop that does not end the session: the [recv]
    brings data, whose events are handled, or nothing; then a chunk of the log
    is drained. *)
Lemma session_loop_round pTelnetUserData r recvs g :
  connection_error r = false -> safe_round r = true ->
  initialised g -> buf_handle g <> None ->
  exists rb' t,
    session_loop pTelnetUserData (r :: recvs) g
    = after_trace t (session_loop pTelnetUserData recvs (set_buf_handle (Some rb') g))
    /\ initialised (set_buf_handle (Some rb') g)
    /\ List.filter is_close t = [].
Proof.
  intros Herr Hsafe Hg Hsome. rewrite session_loop_cons.
  assert (Hdrain : forall p : event -> bool, forall t,
             Forall (fun e => is_log_path e = true) t -> p = is_close ->
             List.filter p t = []).
  { intros p t Hall ->. apply (log_path_only _ _ Hall). intros e. now destruct e. }
  destruct (rcv_len r >? 0) eqn:Hlen.
  - unfold safe_round in Hsafe. rewrite Hlen in Hsafe. simpl in Hsafe.
    destruct (dispatch_events_run pTelnetUserData (rcv_decoded r) g Hg
                (forallb_safe_events _ Hsafe))
      as (v1 & t1 & Hrun1 & Hv1 & Hsome1 & _ & _ & Hclose1 & _).
    destruct (process_logs_frame (send_chunk g) (set_buf_handle v1 g) Hv1 (Hsome1 Hsome))
      as (rb' & t2 & Hrun2 & Hv2 & Hall2).
    change (set_buf_handle (Some rb') (set_buf_handle v1 g))
      with (set_buf_handle (Some rb') g) in *.
    exists rb'. eexists. split; [|split; [exact Hv2|]].
    + rewrite bind_emit, (bind_Ret _ _ _ _ _ _ Hrun1), (bind_Ret _ _ _ _ _ _ Hrun2), bind_emit.
      rewrite !after_trace_app. reflexivity.
    + rewrite !List.filter_app, Hclose1, (Hdrain is_close t2 Hall2 eq_refl). reflexivity.
  - assert (Hnot : negb (rcv_errno r =? EAGAIN) && negb (rcv_errno r =? EWOULDBLOCK) = false).
    { unfold connection_error in Herr.
      destruct (Z.leb_spec (rcv_len r) 0) as [_|Hgt].
      - rewrite <- andb_assoc in Herr. exact Herr.
      - destruct (Z.gtb_spec (rcv_len r) 0); [discriminate Hlen | lia]. }
    rewrite Hnot.
    destruct (process_logs_frame (send_chunk g) g Hg Hsome) as (rb' & t2 & Hrun2 & Hv2 & Hall2).
    exists rb'. eexists. split; [|split; [exact Hv2|]].
    + rewrite (bind_Ret _ _ _ _ _ _ Hrun2), bind_emit.
      rewrite !after_trace_app. reflexivity.
    + rewrite !List.filter_app, (Hdrain is_close t2 Hall2 eq_refl). reflexivity.
Qed.

(** Rounds that do not end the session, one after the other. *)
Lemma session_loop_rounds pTelnetUserData more : forall before g,
  Forall (fun r => connection_error r = false /\ safe_round r = true) before ->
  initialised g -> buf_handle g <> None ->
  exists v t,
    session_loop pTelnetUserData (before ++ more) g
    = after_trace t (session_loop pTelnetUserData more (set_buf_handle v g))
    /\ initialised (set_buf_handle v g)
    /\ v <> None
    /\ List.filter is_close t = [].
Proof.
  induction before as [|r before IH]; intros g Hall Hg Hsome.
  - exists (buf_handle g), []. rewrite set_buf_handle_self, after_trace_nil. auto.
  - inversion Hall as [|? ? (Herr & Hsafe) Hrest]; subst.
    destruct (session_loop_round pTelnetUserData r (before ++ more) g Herr Hsafe Hg Hsome)
      as (rb1 & t1 & Hrun1 & Hg1 & Hclose1).
    destruct (IH (set_buf_handle (Some rb1) g) Hrest Hg1)
      as (v & t & Hrun & Hv & Hsome' & Hclose); [simpl; discriminate|].
    change (set_buf_handle v (set_buf_handle (Some rb1) g)) with (set_buf_handle v g) in *.
    exists v, (t1 ++ t). split; [|split; [exact Hv|split; [exact Hsome'|]]].
    + change ((r :: before) ++ more) with (r :: before ++ more).
      rewrite Hrun1, Hrun, after_trace_app. reflexivity.
    + rewrite List.filter_app, Hclose1, Hclose. reflexivity.
Qed.

(** A session that ends: whatever it received before, it leaves the module
    initialised, with the partner slot cleared, and has closed nothing. *)
Lemma session_ends recvs g :
  ends_by_error recvs -> initialised g -> buf_handle g <> None ->
  Forall (fun x => is_socket x = true) (held g) ->
  exists rb' t,
    handle_telnet_conn recvs g = Ret SessionEnded (ended rb' g) t
    /\ initialised (ended rb' g)
    /\ List.filter is_close t = [].
Proof.
  intros (before & r & rest & -> & Hbefore & Herr) Hg Hsome Hheld.
  pose proof Hg as (Hsize & _ & Hinit).
  destruct (buf_handle g) as [rb|] eqn:Hb; [|contradiction].
  destruct (Hinit _ eq_refl) as ((Hrd & Hlen) & Hcapeq).
  destruct (session_start_run g rb Hb Hrd Hsize)
    as (rb0 & t0 & Hstart & Hcap0 & Hrd0 & Hlen0 & Hclose0).
  assert (Hg0 : initialised (set_buf_handle (Some rb0) (started g))).
  { apply (initialised_frame (set_buf_handle (Some rb0) g)); try reflexivity.
    apply (initialised_set_buf_handle g rb rb0 Hg Hb Hcap0 Hrd0). lia. }
  destruct (session_loop_rounds (mkUserData (partnerSocket g) true true) (r :: rest) before
              (set_buf_handle (Some rb0) (started g)) Hbefore Hg0)
    as (v & t & Hloop & Hv & Hsome' & Hclose); [simpl; discriminate|].
  destruct v as [rb'|]; [|contradiction].
  change (set_buf_handle (Some rb') (set_buf_handle (Some rb0) (started g)))
    with (set_buf_handle (Some rb') (started g)) in *.
  unfold connection_error in Herr.
  apply andb_prop in Herr as (Herr & He2). apply andb_prop in Herr as (Hle & He1).
  apply Z.leb_le in Hle.
  destruct (session_loop_fatal (mkUserData (partnerSocket g) true true) r rest
              (set_buf_handle (Some rb') (started g)) Hle) as (Hend & _).
  { intros E. rewrite E, Z.eqb_refl in He1. discriminate. }
  { intros E. rewrite E, Z.eqb_refl in He2. discriminate. }
  rewrite (torn_down_started g rb' Hheld) in Hend.
  exists rb'. eexists. split; [|split].
  - unfold handle_telnet_conn. rewrite (bind_Ret _ _ _ _ _ _ Hstart), Hloop, Hend.
    reflexivity.
  - apply (initialised_frame (set_buf_handle (Some rb') (started g))); try reflexivity.
    exact Hv.
  - rewrite !List.filter_app, Hclose0, Hclose. reflexivity.
Qed.

(** The accept loop over connections whose sessions end. *)
Lemma accept_loop_sessions debug serverSocket tail : forall conns g,
  Forall (fun c => 0 <= accept_rc c /\ ends_by_error (conn_recvs c)) conns ->
  initialised g -> buf_handle g <> None ->
  Forall (fun x => is_socket x = true) (held g) ->
  exists g' t,
    accept_loop debug serverSocket (conns ++ tail) g
    = after_trace t (accept_loop debug serverSocket tail g')
    /\ initialised g'
    /\ buf_handle g' <> None
    /\ held g' = held g ++ List.map (fun c => ResSocket (accept_rc c)) conns
    /\ same_config g g'
    /\ (conns <> [] -> partnerSocket g' = 0 /\ tnHandle g' = false)
    /\ (conns = [] -> g' = g)
    /\ List.filter is_close t = [].
Proof.
  induction conns as [|c conns IH]; intros g Hall Hg Hsome Hheld.
  - exists g, []. simpl. rewrite after_trace_nil, app_nil_r.
    split; [reflexivity|]. split; [exact Hg|]. split; [exact Hsome|].
    split; [reflexivity|]. split; [repeat split|].
    split; [congruence|]. split; reflexivity.
  - inversion Hall as [|? ? (Hfd & Hends) Hrest]; subst.
    set (ga := accepted (accept_rc c) g).
    assert (Hga : initialised ga) by (apply (initialised_frame g); try reflexivity; exact Hg).
    destruct (ESP_LOGD_effects debug "We have a new client connection!" ga Hga)
      as (v1 & t1 & Hlog1 & Hg1 & Hsome1 & Hall1).
    destruct (session_ends (conn_recvs c) (set_buf_handle v1 ga) Hends Hg1 (Hsome1 Hsome))
      as (rb2 & t2 & Hsession & Hg2 & Hclose2).
    { simpl. apply Forall_app. split; [exact Hheld | repeat constructor]. }
    destruct (ESP_LOGD_effects debug "Telnet connection terminated"
                (ended rb2 (set_buf_handle v1 ga)) Hg2)
      as (v3 & t3 & Hlog3 & Hg3 & Hsome3 & Hall3).
    destruct (IH (set_buf_handle v3 (ended rb2 (set_buf_handle v1 ga))) Hrest Hg3)
      as (g' & t & Hloop & Hg' & Hsome' & Hheld' & Hconf & Hslot & Hsame & Hclose).
    { apply Hsome3. simpl. discriminate. }
    { simpl. apply Forall_app. split; [exact Hheld | repeat constructor]. }
    assert (Hnone : forall t0, Forall (fun e => is_log_path e = true) t0 ->
                               List.filter is_close t0 = []).
    { intros t0 H0. apply (log_path_only _ _ H0). intros e. now destruct e. }
    exists g'. eexists. split; [|split; [exact Hg'|split; [exact Hsome'|split; [|split; [|split; [|split]]]]]].
    + change ((c :: conns) ++ tail) with (c :: conns ++ tail).
      simpl accept_loop. destruct (Z.ltb_spec (accept_rc c) 0); [lia|].
      unfold acquire. rewrite bind_modify, bind_modify.
      change (set_partnerSocket (accept_rc c)
                (set_held (held g ++ [ResSocket (accept_rc c)]) g)) with ga.
      rewrite (bind_Ret _ _ _ _ _ _ Hlog1), (bind_Ret _ _ _ _ _ _ Hsession). cbv iota beta.
      rewrite (bind_Ret _ _ _ _ _ _ Hlog3), Hloop, !after_trace_app. reflexivity.
    + rewrite Hheld'. simpl. now rewrite <- app_assoc.
    + destruct Hconf as (H1 & H2 & H3 & H4 & H5 & H6).
      split; [exact H1|]. split; [exact H2|]. split; [exact H3|].
      split; [exact H4|]. split; [exact H5 | exact H6].
    + intros _. destruct conns as [|c' conns'].
      * rewrite (Hsame eq_refl). split; reflexivity.
      * apply Hslot. discriminate.
    + discriminate.
    + rewrite !List.filter_app, (Hnone _ Hall1), Hclose2, (Hnone _ Hall3), Hclose. reflexivity.
Qed.

Lemma telnet_task_listening debug serverSocket bind_rc listen_rc conns g :
  0 <= serverSocket -> 0 <= bind_rc -> 0 <= listen_rc ->
  telnet_task debug serverSocket bind_rc listen_rc conns g
  = accept_loop debug serverSocket conns (set_held (held g ++ [ResSocket serverSocket]) g).
Proof.
  intros Hs Hb Hl. unfold telnet_task.
  destruct (Z.leb_spec 0 serverSocket); [|lia].
  unfold acquire. rewrite bind_modify.
  destruct (Z.ltb_spec bind_rc 0); [lia|]. destruct (Z.ltb_spec listen_rc 0); [lia|].
  reflexivity.
Qed.

(** X14: the listener serves one connection after the other.  After any
    number of accepted sessions that each end by a connection error, whatever
    they received before it (as long as every DATA payload is handled inside
    its memory) and whether debug lines are printed or not, the task is back in
    [accept] with the partner slot cleared and the configuration untouched; it
    has closed nothing, so the process holds the listening socket and the
    socket of every session that ended. *)
Theorem listener_serves_sessions_in_turn debug serverSocket bind_rc listen_rc conns g :
  0 <= serverSocket -> 0 <= bind_rc -> 0 <= listen_rc ->
  initialised g -> buf_handle g <> None ->
  Forall (fun x => is_socket x = true) (held g) ->
  Forall (fun c => 0 <= accept_rc c /\ ends_by_error (conn_recvs c)) conns ->
  exists g' t,
    telnet_task debug serverSocket bind_rc listen_rc conns g = Ret TaskAccepting g' t
    /\ held g'
       = held g ++ ResSocket serverSocket :: List.map (fun c => ResSocket (accept_rc c)) conns
    /\ List.filter is_close t = []
    /\ same_config g g'
    /\ (conns <> [] -> partnerSocket g' = 0 /\ tnHandle g' = false).
Proof.
  intros Hs Hbind Hlisten Hg Hsome Hheld Hconns.
  rewrite (telnet_task_listening _ _ _ _ _ _ Hs Hbind Hlisten).
  destruct (accept_loop_sessions debug serverSocket [] conns
              (set_held (held g ++ [ResSocket serverSocket]) g) Hconns)
    as (g' & t & Hloop & _ & _ & Hheld' & Hconf & Hslot & _ & Hclose).
  { apply (initialised_frame g); try reflexivity. exact Hg. }
  { exact Hsome. }
  { simpl. apply Forall_app. split; [exact Hheld | repeat constructor]. }
  rewrite app_nil_r in Hloop. exists g', t.
  split; [rewrite Hloop; simpl; unfold ret; simpl; now rewrite app_nil_r|].
  split; [rewrite Hheld'; simpl; now rewrite <- app_assoc|].
  split; [exact Hclose|]. split; [exact Hconf | exact Hslot].
Qed.

Lemma example_session_ends_by_error : ends_by_error example_recvs.
Proof.
  exists [mkRecv 3 0 (str "ls" ++ [CR]) [mkEvent TELNET_EV_DATA (str "ls" ++ [CR]) 3];
          mkRecv 3 0 (str "abc")
            [mkEvent TELNET_EV_DO [] 0; mkEvent TELNET_EV_SEND (str "xyz") 3];
          mkRecv (-1) EAGAIN [] []],
         (mkRecv 0 ENOTCONN [] []), [].
  split; [reflexivity|]. split; [|reflexivity].
  repeat constructor.
Qed.

Lemma initialised_example_listening : initialised example_listening.
Proof.
  split; [reflexivity|]. split; [discriminate|].
  intros rb [= <-]. split; [|reflexivity]. unfold rb_wf. simpl. lia.
Qed.

Lemma listener_serves_sessions_in_turn_witness :
  exists g' t,
    telnet_task true 53 0 0 example_connections example_listening = Ret TaskAccepting g' t
    /\ held g' = [ResSocket 53; ResSocket 54; ResSocket 55]
    /\ List.filter is_close t = []
    /\ same_config example_listening g'
    /\ (example_connections <> [] -> partnerSocket g' = 0 /\ tnHandle g' = false).
Proof.
  apply (listener_serves_sessions_in_turn true 53 0 0 example_connections
           example_listening); try lia.
  - exact initialised_example_listening.
  - discriminate.
  - constructor.
  - constructor; [split; [simpl; lia | exact example_session_ends_by_error]|].
    constructor; [split; [simpl; lia | exact example_session_ends_by_error]|]. constructor.
Defined.



Lemma filter_absent r l :
  ~ In r l -> List.filter (fun x => negb (resource_eqb x r)) l = l.
Proof.
  induction l as [|x l IH]; [reflexivity|]. intros Hin. simpl.
  assert (Hx : resource_eqb x r = false).
  { destruct x, r; try reflexivity.
    - exfalso. apply Hin. now left.
    - exfalso. apply Hin. now left.
    - exfalso. apply Hin. now left.
    - simpl. apply Z.eqb_neq. intros ->. apply Hin. now left. }
  rewrite Hx. simpl. rewrite IH; [reflexivity|]. intros H. apply Hin. now right.
Qed.

(** X16: when [bind] or [listen] fails the task prints its error line,
    closes the socket it created and returns: no connection is accepted,
    whatever is waiting, no session is started, and nothing in the module has
    changed but the log buffer.  With the streams reopened, the semaphore free
    and room in the buffer, the buffer has taken the error line behind what it
    held; while the streams are not reopened it is as it was. *)
Theorem bind_or_listen_failure_closes_the_socket
    debug serverSocket bind_rc listen_rc conns g :
  initialised g ->
  0 <= serverSocket -> ~ In (ResSocket serverSocket) (held g) ->
  bind_rc < 0 \/ listen_rc < 0 ->
  let line := String.append (if bind_rc <? 0 then "bind: errno"%string
                             else "listen: errno"%string) newline in
  exists v t,
    telnet_task debug serverSocket bind_rc listen_rc conns g
    = Ret TaskReturned (set_buf_handle v g) t
    /\ initialised (set_buf_handle v g)
    /\ List.filter is_close t = [EvClose serverSocket]
    /\ List.filter is_recv t = []
    /\ (bIsEnabled g = false -> v = buf_handle g)
    /\ (bIsEnabled g = true -> xSemaphore g = Some true ->
        forall rb, buf_handle g = Some rb ->
        (length (str line) <= rb_capacity rb - length (rb_items rb))%nat ->
        v = Some (mkRingbuf (rb_capacity rb) (rb_read rb) (rb_items rb ++ str line))).
Proof.
  intros Hg Hs Hnew Hfail line.
  set (g0 := set_held (held g ++ [ResSocket serverSocket]) g).
  assert (Hg0 : initialised g0) by (apply (initialised_frame g); try reflexivity; exact Hg).
  assert (Hback : forall v,
             set_held (List.filter (fun x => negb (resource_eqb x (ResSocket serverSocket)))
                                   (held g ++ [ResSocket serverSocket]))
               (set_buf_handle v g0) = set_buf_handle v g).
  { intros v. rewrite List.filter_app, (filter_absent _ _ Hnew). simpl.
    rewrite Z.eqb_refl. simpl. rewrite app_nil_r. destruct g; reflexivity. }
  assert (Hbuf : forall v1 v2 t1 t2,
             @Ret unit tt (set_buf_handle v1 g0) t1 = Ret tt (set_buf_handle v2 g0) t2 ->
             v1 = v2).
  { intros v1 v2 t1 t2 H.
    apply (f_equal (fun r => match r with
                             | Ret _ g1 _ => buf_handle g1
                             | _ => None
                             end)) in H.
    exact H. }
  assert (Hline : forall text,
             exists v t,
               (ESP_LOGE text;;
                emit (EvClose serverSocket);;
                release (ResSocket serverSocket);;
                ret TaskReturned) g0
               = Ret TaskReturned (set_buf_handle v g) t
               /\ initialised (set_buf_handle v g)
               /\ List.filter is_close t = [EvClose serverSocket]
               /\ List.filter is_recv t = []
               /\ (bIsEnabled g = false -> v = buf_handle g)
               /\ (bIsEnabled g = true -> xSemaphore g = Some true ->
                   forall rb, buf_handle g = Some rb ->
                   (length (str (text ++ newline)) <= rb_capacity rb - length (rb_items rb))%nat ->
                   v = Some (mkRingbuf (rb_capacity rb) (rb_read rb)
                                       (rb_items rb ++ str (text ++ newline))))).
  { intros text.
    destruct (printf_effects (text ++ newline) g0 Hg0) as (v & t & Hlog & Hv & _ & Hall & _).
    exists v. eexists.
    split; [|split; [|split; [|split; [|split]]]].
    - unfold ESP_LOGE, release. rewrite (bind_Ret _ _ _ _ _ _ Hlog), bind_emit, bind_modify.
      cbn [held set_held set_buf_handle g0]. rewrite Hback. unfold ret. simpl. reflexivity.
    - apply (initialised_frame (set_buf_handle v g0)); try reflexivity. exact Hv.
    - rewrite !List.filter_app. rewrite (log_path_only is_close _ Hall); [reflexivity|].
      intros e. now destruct e.
    - rewrite !List.filter_app. rewrite (log_path_only is_recv _ Hall); [reflexivity|].
      intros e. now destruct e.
    - intros He. unfold printf in Hlog. rewrite bind_get in Hlog.
      change (bIsEnabled g0) with (bIsEnabled g) in Hlog. rewrite He in Hlog.
      unfold emit in Hlog. rewrite <- (set_buf_handle_self g0) in Hlog at 1.
      exact (eq_sym (Hbuf _ _ _ _ Hlog)).
    - intros He Hsem rb Hb Hfit.
      destruct (printf_stores (text ++ newline) g0 rb He Hsem Hb Hfit) as (t' & Hstore).
      rewrite Hlog in Hstore. exact (Hbuf _ _ _ _ Hstore). }
  unfold telnet_task. destruct (Z.leb_spec 0 serverSocket); [|lia].
  unfold acquire. rewrite bind_modify. fold g0. unfold line.
  destruct (Z.ltb_spec bind_rc 0).
  - apply Hline.
  - destruct (Z.ltb_spec listen_rc 0); [|lia]. apply Hline.
Qed.

Lemma bind_or_listen_failure_closes_the_socket_witness :
  exists t,
    telnet_task true 53 (-1) 0 [mkConnection 54 []] example_listening
    = Ret TaskReturned
        (set_buf_handle
           (Some (mkRingbuf 64 0 (str "abcd" ++ str ("bind: errno" ++ newline))))
           example_listening) t
    /\ List.filter is_close t = [EvClose 53]
    /\ List.filter is_recv t = [].
Proof.
  destruct (bind_or_listen_failure_closes_the_socket true 53 (-1) 0 [mkConnection 54 []]
              example_listening initialised_example_listening)
    as (v & t & Hrun & _ & Hclose & Hrecv & _ & Hstored).
  - lia.
  - simpl. tauto.
  - left. lia.
  - rewrite (Hstored eq_refl eq_refl (mkRingbuf 64 0 (str "abcd")) eq_refl) in Hrun.
    + exists t. split; [exact Hrun|]. split; [exact Hclose | exact Hrecv].
    + simpl. lia.
Defined.

(** ** Initialisation *)

Ltac bool_to_eqs :=
  repeat match goal with
    | H : _ || _ = true |- _ => apply orb_prop in H; destruct H as [H|H]
    | H : _ && _ = true |- _ => apply andb_prop in H; destruct H
    | H : Ascii.eqb _ _ = true |- _ => apply Ascii.eqb_eq in H
    | H : false = true |- _ => discriminate H
    end.

Ltac use_lower_eqs :=
  repeat match goal with
    | H : tolower _ = _ |- _ => rewrite H; clear H
    | H : _ = tolower _ |- _ => rewrite <- H; clear H
    end.

(** The texts that [strcasestr("YXD", val)] finds, apart from the empty
    one. *)
Lemma strcasestr_YXD v :
  (v <> [] /\ strcasestr (str "YXD") v = true) <-> In (lower v) enabling_values.
Proof.
  unfold enabling_values, lower.
  destruct v as [|a [|b [|c [|d v]]]]; simpl; rewrite ?andb_false_r, ?orb_false_r, ?andb_true_r.
  - split; [intros [H _]; now contradiction H | intros H; repeat destruct H as [H|H]; discriminate || contradiction].
  - split.
    + intros [_ H]. bool_to_eqs; use_lower_eqs; auto 10.
    + intros H. split; [discriminate|].
      repeat destruct H as [H|H]; try contradiction; try discriminate H;
        injection H as H; use_lower_eqs; reflexivity.
  - split.
    + intros [_ H]. bool_to_eqs; use_lower_eqs; auto 10.
    + intros H. split; [discriminate|].
      repeat destruct H as [H|H]; try contradiction; try discriminate H;
        injection H as H1 H2; use_lower_eqs; reflexivity.
  - split.
    + intros [_ H]. bool_to_eqs; use_lower_eqs; auto 10.
    + intros H. split; [discriminate|].
      repeat destruct H as [H|H]; try contradiction; try discriminate H;
        injection H as H1 H2 H3; use_lower_eqs; reflexivity.
  - split.
    + intros [_ H]. discriminate H.
    + intros H. repeat destruct H as [H|H]; try contradiction; discriminate H.
Qed.

Lemma strcasestr_D v :
  (v <> [] /\ strcasestr (str "D") v = true) <-> lower v = str "d".
Proof.
  unfold lower.
  destruct v as [|a [|b v]]; simpl; rewrite ?andb_false_r, ?orb_false_r, ?andb_true_r.
  - split; [intros [H _]; now contradiction H | discriminate].
  - split.
    + intros [_ H]. bool_to_eqs; use_lower_eqs; reflexivity.
    + intros H. split; [discriminate|]. injection H as H. use_lower_eqs. reflexivity.
  - split; [intros [_ H]; discriminate H | discriminate].
Qed.

Lemma init_telnet_disabled nvs ringbuf_created uart_open g :
  (forall val, nvs !! "telnet_enable"%string = Some val ->
               ~ In (lower (str val)) enabling_values) ->
  init_telnet nvs ringbuf_created uart_open g
  = Ret tt g [EvPrintf "Telnet support disabled"].
Proof.
  intros Hoff. unfold init_telnet.
  destruct (nvs !! "telnet_enable"%string) as [val|]; [|reflexivity].
  specialize (Hoff val eq_refl).
  destruct (str val) as [|c0 s0] eqn:Hval; [reflexivity|].
  destruct (strcasestr (str "YXD") (c0 :: s0)) eqn:Hyxd; [|reflexivity].
  exfalso. apply Hoff. apply strcasestr_YXD. split; [discriminate | exact Hyxd].
Qed.

(** X17: telnet is switched on by exactly six values of "telnet_enable",
    whatever their case: Y, X, D, YX, XD and YXD.  With any other value, with
    the empty value or with no value [init_telnet] only logs that telnet is
    disabled and leaves every variable as it was; with one of the six it
    creates the semaphore and, when the ring buffer can be created, enables the
    module. *)
Theorem telnet_enable_values nvs ringbuf_created uart_open :
  ((forall val, nvs !! "telnet_enable"%string = Some val ->
                ~ In (lower (str val)) enabling_values) ->
   forall g, init_telnet nvs ringbuf_created uart_open g
             = Ret tt g [EvPrintf "Telnet support disabled"])
  /\ (forall val, nvs !! "telnet_enable"%string = Some val ->
                  In (lower (str val)) enabling_values ->
      exists g' t,
        init_telnet nvs ringbuf_created uart_open initial_globals = Ret tt g' t
        /\ xSemaphore g' = Some true
        /\ bIsEnabled g' = ringbuf_created).
Proof.
  split.
  - intros Hoff g. now apply init_telnet_disabled.
  - intros val Hval Hon. apply strcasestr_YXD in Hon as (Hne & Hyxd).
    destruct (init_telnet_enabled nvs ringbuf_created uart_open val Hval Hne Hyxd)
      as (g' & t & Hrun & _ & _ & Hsem & _ & Hen & _).
    exists g', t. auto.
Qed.

Lemma telnet_enable_values_witness :
  init_telnet (<["telnet_enable"%string := "N"%string]> ∅) true 3 example_globals
  = Ret tt example_globals [EvPrintf "Telnet support disabled"]
  /\ exists g' t,
       init_telnet (<["telnet_enable"%string := "xD"%string]> ∅) true 3 initial_globals
       = Ret tt g' t
       /\ xSemaphore g' = Some true
       /\ bIsEnabled g' = true.
Proof.
  split.
  - apply (proj1 (telnet_enable_values (<["telnet_enable"%string := "N"%string]> ∅) true 3)).
    intros val Hval. vm_compute in Hval. injection Hval as <-.
    intros H. vm_compute in H. repeat destruct H as [H|H]; discriminate || contradiction.
  - apply (proj2 (telnet_enable_values (<["telnet_enable"%string := "xD"%string]> ∅) true 3)
             "xD"%string).
    + reflexivity.
    + vm_compute. auto 10.
Defined.

(** X18: the UART mirror is switched on by the value D alone (in either
    case): the other values that enable telnet, XD and YXD included, leave
    mirroring off. *)
Theorem mirroring_needs_the_value_D nvs ringbuf_created uart_open val :
  nvs !! "telnet_enable"%string = Some val ->
  In (lower (str val)) enabling_values ->
  exists g' t,
    init_telnet nvs ringbuf_created uart_open initial_globals = Ret tt g' t
    /\ (bMirrorToUART g' = true <-> lower (str val) = str "d").
Proof.
  intros Hval Hon. apply strcasestr_YXD in Hon as (Hne & Hyxd).
  destruct (init_telnet_enabled nvs ringbuf_created uart_open val Hval Hne Hyxd)
    as (g' & t & Hrun & _ & _ & _ & _ & _ & Hmirror & _).
  exists g', t. split; [exact Hrun|]. rewrite Hmirror. split.
  - intros H. apply strcasestr_D. auto.
  - intros H. now apply strcasestr_D in H.
Qed.

Lemma mirroring_needs_the_value_D_witness :
  exists g' t,
    init_telnet (<["telnet_enable"%string := "YXD"%string]> ∅) true 3 initial_globals
    = Ret tt g' t
    /\ (bMirrorToUART g' = true <-> str "yxd" = str "d").
Proof.
  apply (mirroring_needs_the_value_D (<["telnet_enable"%string := "YXD"%string]> ∅)
           true 3 "YXD"%string).
  - reflexivity.
  - vm_compute. auto 10.
Defined.

Lemma to_size_t_negative z : LONG_MIN <= z < 0 -> to_size_t z = z + SIZE_T_MOD.
Proof.
  intros H. unfold to_size_t, LONG_MIN, SIZE_T_MOD in *.
  rewrite <- (Z_mod_plus_full z 1). rewrite Z.mul_1_l. apply Z.mod_small. lia.
Qed.

(** X19: a negative number stored as send-chunk size or buffer capacity is
    not replaced by the default: converted to [size_t] it wraps around, and
    the effective size is the stored number plus 2^32, at least 2^31. *)
Theorem negative_size_wraps_around nvs ringbuf_created uart_open val :
  nvs !! "telnet_enable"%string = Some val ->
  In (lower (str val)) enabling_values ->
  exists g' t,
    init_telnet nvs ringbuf_created uart_open initial_globals = Ret tt g' t
    /\ (forall v, nvs !! "telnet_block"%string = Some v -> atol (str v) < 0 ->
        send_chunk g' = atol (str v) + SIZE_T_MOD /\ 2 ^ 31 <= send_chunk g')
    /\ (forall v, nvs !! "telnet_buffer"%string = Some v -> atol (str v) < 0 ->
        log_buf_size g' = atol (str v) + SIZE_T_MOD /\ 2 ^ 31 <= log_buf_size g').
Proof.
  intros Hval Hon. apply strcasestr_YXD in Hon as (Hne & Hyxd).
  destruct (init_telnet_enabled nvs ringbuf_created uart_open val Hval Hne Hyxd)
    as (g' & t & Hrun & Hchunk & Hsize & _).
  exists g', t. split; [exact Hrun|].
  split; intros v Hv Hneg; pose proof (atol_range (str v)) as Hr.
  - rewrite Hchunk, Hv. destruct (Z.eqb_spec (atol (str v)) 0); [lia|].
    rewrite to_size_t_negative by lia. unfold LONG_MIN, SIZE_T_MOD in *. lia.
  - rewrite Hsize, Hv. destruct (Z.eqb_spec (atol (str v)) 0); [lia|].
    rewrite to_size_t_negative by lia. unfold LONG_MIN, SIZE_T_MOD in *. lia.
Qed.

Lemma negative_size_wraps_around_witness :
  exists g' t,
    init_telnet (<["telnet_block"%string := "-1"%string]>
                   (<["telnet_enable"%string := "Y"%string]> ∅))
                true 3 initial_globals = Ret tt g' t
    /\ send_chunk g' = 4294967295.
Proof.
  destruct (negative_size_wraps_around
              (<["telnet_block"%string := "-1"%string]>
                 (<["telnet_enable"%string := "Y"%string]> ∅))
              true 3 "Y"%string)
    as (g' & t & Hrun & Hchunk & _).
  - reflexivity.
  - vm_compute. auto 10.
  - exists g', t. split; [exact Hrun|].
    destruct (Hchunk "-1"%string) as (H & _); [reflexivity | reflexivity | exact H].
Defined.

(** X20: when the ring buffer cannot be created, [init_telnet] gives up
    after the error message: output is not redirected, no buffer exists and
    the module stays disabled, so that [start_telnet] will create no task. *)
Theorem ring_buffer_failure_leaves_telnet_off nvs uart_open val :
  nvs !! "telnet_enable"%string = Some val ->
  In (lower (str val)) enabling_values ->
  exists g',
    init_telnet nvs false uart_open initial_globals
    = Ret tt g' [EvPrintf "Failed to create ring buffer for telnet!"]
    /\ bIsEnabled g' = false
    /\ buf_handle g' = None
    /\ uart_fd g' = 0
    /\ forall s, tasks_created (start_telnet g' s) = tasks_created s.
Proof.
  intros Hval Hon. apply strcasestr_YXD in Hon as (Hne & Hyxd).
  unfold init_telnet. rewrite Hval, Hyxd.
  destruct (str val) as [|c0 s0] eqn:Hstr; [contradiction|].
  change ((length (c0 :: s0) =? 0)%nat || negb true) with false. cbv iota.
  rewrite bind_modify.
  destruct (nvs !! "telnet_block"%string) as [vb|];
    destruct (nvs !! "telnet_buffer"%string) as [vl|];
    repeat (rewrite bind_modify || rewrite bind_ret); cbv beta;
    rewrite bind_get; change (negb false) with true; cbv iota;
    (eexists; split; [reflexivity|]);
    (split; [reflexivity|]); (split; [reflexivity|]); (split; [reflexivity|]);
    intros s; unfold start_telnet; cbn [bIsEnabled set_xSemaphore set_log_buf_size
      set_send_chunk set_bMirrorToUART initial_globals];
    rewrite andb_false_r; reflexivity.
Qed.

Lemma ring_buffer_failure_leaves_telnet_off_witness :
  exists g',
    init_telnet (<["telnet_enable"%string := "D"%string]> ∅) false 3 initial_globals
    = Ret tt g' [EvPrintf "Failed to create ring buffer for telnet!"]
    /\ bIsEnabled g' = false
    /\ buf_handle g' = None
    /\ uart_fd g' = 0
    /\ forall s, tasks_created (start_telnet g' s) = tasks_created s.
Proof.
  apply (ring_buffer_failure_leaves_telnet_off
           (<["telnet_enable"%string := "D"%string]> ∅) 3 "D"%string).
  - reflexivity.
  - vm_compute. auto 10.
Defined.

(** X21: after an initialisation that enabled telnet the module is ready:
    the buffer is empty, its capacity is the effective [log_buf_size], and the
    first log entry, if it is no longer than that, is stored whole. *)
Theorem first_entry_after_init_is_stored nvs uart_open val wr fd data :
  nvs !! "telnet_enable"%string = Some val ->
  In (lower (str val)) enabling_values ->
  exists g1 t1 g2 t2,
    init_telnet nvs true uart_open initial_globals = Ret tt g1 t1
    /\ initialised g1 /\ bIsEnabled g1 = true /\ log_contents g1 = []
    /\ (Z.of_nat (length data) <= log_buf_size g1 ->
        stdout_write wr fd data g1 = Ret (if bMirrorToUART g1 then wr else 1) g2 t2
        /\ log_contents g2 = data).
Proof.
  intros Hval Hon. apply strcasestr_YXD in Hon as (Hne & Hyxd).
  destruct (init_telnet_enabled nvs true uart_open val Hval Hne Hyxd)
    as (g1 & t1 & Hrun & _ & _ & Hsem & Hbuf & Hen & _).
  destruct (init_telnet_initialised nvs uart_open val Hval Hne Hyxd)
    as (g1' & t1' & Hrun' & Hg1 & _ & Hempty).
  rewrite Hrun in Hrun'. injection Hrun' as <- <-.
  set (rb := mkRingbuf (Z.to_nat (log_buf_size g1)) 0 []) in *.
  set (rb1 := mkRingbuf (rb_capacity rb) (rb_read rb) (rb_items rb ++ data)).
  exists g1, t1, (set_buf_handle (Some rb1) g1).
  destruct (Z_le_gt_dec (Z.of_nat (length data)) (log_buf_size g1)) as [Hfit|Hbig].
  - assert (Hfits : (length data <= rb_capacity rb - length (rb_items rb))%nat)
      by (simpl; lia).
    pose proof (store_log_entry_fits data (set_xSemaphore (Some false) g1) rb rb1 Hbuf
                  (xRingbufferSend_fits rb data Hfits)) as Hstore.
    pose proof (stdout_write_locked wr fd data g1 _ _ Hsem Hstore) as Hwrite.
    rewrite (set_xSemaphore_back g1 _ Hsem) in Hwrite.
    change (bMirrorToUART (set_buf_handle (Some rb1) (set_xSemaphore (Some false) g1)))
      with (bMirrorToUART g1) in Hwrite.
    eexists. split; [exact Hrun|]. split; [exact Hg1|]. split; [exact Hen|].
    split; [exact Hempty|]. intros _. split; [exact Hwrite | reflexivity].
  - exists []. split; [exact Hrun|]. split; [exact Hg1|]. split; [exact Hen|].
    split; [exact Hempty|]. intros H. lia.
Qed.

Lemma first_entry_after_init_is_stored_witness :
  exists g1 t1 g2 t2,
    init_telnet (<["telnet_buffer"%string := "16"%string]>
                   (<["telnet_enable"%string := "y"%string]> ∅))
                true 3 initial_globals = Ret tt g1 t1
    /\ initialised g1 /\ bIsEnabled g1 = true /\ log_contents g1 = []
    /\ (Z.of_nat (length (str "boot")) <= log_buf_size g1 ->
        stdout_write 0 1 (str "boot") g1 = Ret (if bMirrorToUART g1 then 0 else 1) g2 t2
        /\ log_contents g2 = str "boot").
Proof.
  apply (first_entry_after_init_is_stored
           (<["telnet_buffer"%string := "16"%string]>
              (<["telnet_enable"%string := "y"%string]> ∅))
           3 "y"%string 0 1 (str "boot")).
  - reflexivity.
  - vm_compute. auto 10.
Defined.

(** ** Starting the task *)

Lemma start_telnet_calls_cons g gs s :
  start_telnet_calls (g :: gs) s = start_telnet_calls gs (start_telnet g s).
Proof. reflexivity. Qed.

(** X22: however often [start_telnet] is called, and whatever the module's
    state at each call, the telnet task is created at most once: by the first
    call that finds the module enabled.  Every call allocates a task buffer and
    a stack, so all calls but that one leave two blocks behind that nothing
    uses or frees. *)
Theorem start_telnet_creates_one_task gs s :
  tasks_created (start_telnet_calls gs s)
  = (tasks_created s
     + (if negb (isStarted s) && existsb bIsEnabled gs then 1 else 0))%nat
  /\ isStarted (start_telnet_calls gs s) = isStarted s || existsb bIsEnabled gs
  /\ blocks_allocated (start_telnet_calls gs s) = (blocks_allocated s + 2 * length gs)%nat.
Proof.
  revert s. induction gs as [|g gs IH]; intros s.
  - simpl. rewrite andb_false_r, orb_false_r. repeat split; lia.
  - rewrite start_telnet_calls_cons.
    destruct (IH (start_telnet g s)) as (Htasks & Hstarted & Hblocks).
    rewrite Htasks, Hstarted, Hblocks. unfold start_telnet.
    cbn [existsb length].
    destruct (isStarted s), (bIsEnabled g), (existsb bIsEnabled gs);
      simpl; repeat split; lia.
Qed.

(** ** Sequences of writes *)

(** X23: for every sequence of log entries written one after the other to
    an initialised module, every call returns, the buffer never holds more
    than [log_buf_size] bytes, and nothing but the buffer has changed at the
    end. *)
Theorem writes_keep_the_buffer_bounded wr fd entries : forall g,
  initialised g ->
  exists v t,
    stdout_write_all wr fd entries g = Ret tt (set_buf_handle v g) t
    /\ initialised (set_buf_handle v g)
    /\ Z.of_nat (length (log_contents (set_buf_handle v g))) <= log_buf_size g.
Proof.
  induction entries as [|data entries IH]; intros g Hg.
  - exists (buf_handle g), [].
    replace (set_buf_handle (buf_handle g) g) with g by (clear; destruct g; reflexivity).
    split; [reflexivity|]. split; [exact Hg|].
    destruct Hg as (Hsize & _ & Hinit). unfold log_contents.
    destruct (buf_handle g) as [rb|]; [|simpl; lia].
    destruct (Hinit rb eq_refl) as ((_ & Hlen) & Hcap). simpl. lia.
  - destruct (stdout_write_frame wr fd data g Hg) as (r & v1 & t1 & Hrun & Hg1 & _).
    destruct (IH _ Hg1) as (v & t & Hrest & Hg' & Hbound).
    change (set_buf_handle v (set_buf_handle v1 g)) with (set_buf_handle v g) in *.
    exists v. eexists. split; [|split; [exact Hg' | exact Hbound]].
    simpl stdout_write_all. rewrite (bind_Ret _ _ _ _ _ _ Hrun), Hrest. reflexivity.
Qed.

Lemma writes_keep_the_buffer_bounded_witness :
  exists v t,
    stdout_write_all 0 1 [str "12345"; str "123456789"; str "xy"] example_globals_high
    = Ret tt (set_buf_handle v example_globals_high) t
    /\ initialised (set_buf_handle v example_globals_high)
    /\ Z.of_nat (length (log_contents (set_buf_handle v example_globals_high))) <= 8.
Proof.
  apply (writes_keep_the_buffer_bounded 0 1 [str "12345"; str "123456789"; str "xy"]
           example_globals_high initialised_example_high).
Defined.

(** X24: as long as the entries written fit in the free space together,
    none is lost or reordered and nothing is drained: the buffer ends up
    holding what it held, followed by the entries in the order they were
    written. *)
Theorem writes_that_fit_are_kept_in_order wr fd entries : forall g rb,
  xSemaphore g = Some true -> buf_handle g = Some rb ->
  (length (concat entries) <= rb_capacity rb - length (rb_items rb))%nat ->
  exists rb' t,
    stdout_write_all wr fd entries g = Ret tt (set_buf_handle (Some rb') g) t
    /\ rb_items rb' = rb_items rb ++ concat entries
    /\ rb_capacity rb' = rb_capacity rb
    /\ List.filter is_ringbuffer_receive t = []
    /\ sent_text t = [].
Proof.
  induction entries as [|data entries IH]; intros g rb Hsem Hb Hfit.
  - exists rb, []. rewrite (set_buf_handle_same _ _ Hb). simpl. rewrite app_nil_r.
    repeat split.
  - simpl concat in *. rewrite length_app in Hfit.
    set (rb1 := mkRingbuf (rb_capacity rb) (rb_read rb) (rb_items rb ++ data)).
    assert (Hfits : (length data <= rb_capacity rb - length (rb_items rb))%nat) by lia.
    pose proof (store_log_entry_fits data (set_xSemaphore (Some false) g) rb rb1 Hb
                  (xRingbufferSend_fits rb data Hfits)) as Hstore.
    pose proof (stdout_write_locked wr fd data g _ _ Hsem Hstore) as Hwrite.
    rewrite (set_xSemaphore_back g _ Hsem) in Hwrite.
    destruct (IH (set_buf_handle (Some rb1) g) rb1 Hsem eq_refl) as (rb' & t & Hrest & Hitems & Hcap & Hrecv & Hsent).
    { unfold rb1. simpl. rewrite length_app. lia. }
    change (set_buf_handle (Some rb') (set_buf_handle (Some rb1) g))
      with (set_buf_handle (Some rb') g) in Hrest.
    exists rb'. eexists. split; [|split; [|split; [exact Hcap|]]].
    + simpl stdout_write_all. rewrite (bind_Ret _ _ _ _ _ _ Hwrite), Hrest. reflexivity.
    + rewrite Hitems. unfold rb1. simpl. now rewrite <- app_assoc.
    + rewrite !List.filter_app, !sent_text_app, Hrecv, Hsent.
      destruct (bMirrorToUART _); split; reflexivity.
Qed.

Lemma writes_that_fit_are_kept_in_order_witness :
  exists rb' t,
    stdout_write_all 0 1 [str "12"; str "3"] example_globals
    = Ret tt (set_buf_handle (Some rb') example_globals) t
    /\ rb_items rb' = str "abcd" ++ str "123"
    /\ rb_capacity rb' = 8%nat
    /\ List.filter is_ringbuffer_receive t = []
    /\ sent_text t = [].
Proof.
  apply (writes_that_fit_are_kept_in_order 0 1 [str "12"; str "3"]
           example_globals example_buffer eq_refl eq_refl).
  simpl. lia.
Defined.
